(** * Governance and treasury contracts: DAO, Vault, DAOFactory, VaultFactory

    A shallow embedding of the four Solidity contracts of the repository
    (contracts DAO and VaultFactory of one source file, Vault and DAOFactory of
    the other) and the properties of their state machines.

    Conventions of the embedding.
    - [uint256] is a [Z] in [0, 2^256); Solidity 0.8 arithmetic is checked, an
      overflow or underflow ends the call with [Panic 0x11].
    - [address] is a [Z]; [address(0)] is [0].
    - a [mapping(K => V)] is a [gmap] read with the zero value as default.
    - a call is a function [state -> result state]; a call that does not end
      in [Ok] is rolled back by [transact], as the EVM does.
    - a modifier is a function on call bodies, applied in the order written in
      the source.
    - the events a contract declares are appended to the [events] field of its
      state.
    - an external call (ETH send, ERC20 transfer) is a parameter of the entry
      point that makes it: what the call comes back with, and the calls the
      callee makes back into the contract while it runs. A static call
      ([DAO(daoAddress).owner()]) is given by what it returns.
    - [msg.value] is a parameter of the two payable entry points ([depositETH]
      and [receive]); the other entry points are called without value.
    - the inherited OpenZeppelin v4 contracts (Ownable, Pausable,
      ReentrancyGuard) are type classes over the state; their own events are
      not recorded. *)

From Stdlib Require Import ZArith Ascii String List Lia Bool ZifyBool.
From stdpp Require Import base gmap list strings.

Local Open Scope string_scope.
Local Open Scope Z_scope.

(** ** Solidity basics *)

Abbreviation address := Z (only parsing).
Abbreviation uint256 := Z (only parsing).

Definition MAX_UINT256 : Z := 2 ^ 256 - 1.

Inductive result (A : Type) : Type :=
| Ok (a : A)
| Revert (reason : string)
| Panic (code : Z).

Arguments Ok {A} a.
Arguments Revert {A} reason.
Arguments Panic {A} code.

#[global] Instance result_ret : MRet result := fun A a => Ok a.
#[global] Instance result_bind : MBind result := fun A B k m =>
  match m with
  | Ok a => k a
  | Revert r => Revert r
  | Panic c => Panic c
  end.

Definition require (cond : bool) (reason : string) : result unit :=
  if cond then Ok tt else Revert reason.

Definition succeeds {A} (r : result A) : Prop := exists a, r = Ok a.

Definition arithmetic_panic : Z := 17.   (* 0x11 *)

Definition checked_add (a b : uint256) : result uint256 :=
  if a + b <=? MAX_UINT256 then Ok (a + b) else Panic arithmetic_panic.

Definition checked_sub (a b : uint256) : result uint256 :=
  if b <=? a then Ok (a - b) else Panic arithmetic_panic.

Definition checked_mul (a b : uint256) : result uint256 :=
  if a * b <=? MAX_UINT256 then Ok (a * b) else Panic arithmetic_panic.

(** Division of a [uint256] by a non-zero constant truncates, which on
    non-negative numbers is [Z.div]; it is written [/] below. *)

(** [mapping(K => bool)] and [mapping(K => uint256)] reads. *)
Definition getb `{Countable K} (m : gmap K bool) (k : K) : bool :=
  default false (m !! k).

Definition getu `{Countable K} (m : gmap K Z) (k : K) : Z :=
  default 0 (m !! k).

(** What a call sees of its transaction. *)
Record env := { msg_sender : address; block_timestamp : uint256 }.

(** A call that fails leaves the state as it was. *)
Definition transact {S} (call : S -> result S) (s : S) : S :=
  match call s with
  | Ok s' => s'
  | _ => s
  end.

(** *** Removing an address from a storage array

    The loop used by [removeMember], [removeSigner], [emergencyRemoveDAO] and
    [emergencyRemoveVault]:
<<
    for (uint256 i = 0; i < list.length; i++) {
        if (list[i] == x) {
            list[i] = list[list.length - 1];
            list.pop();
            break;
        }
    }
>>
    [remove_loop x l i n] runs the loop from index [i] with [n] iterations
    left. *)
Fixpoint remove_loop (x : address) (l : list address) (i n : nat) : list address :=
  match n with
  | O => l
  | S n' =>
      match l !! i with
      | Some y =>
          if y =? x
          then match last l with
               | Some z => removelast (<[i := z]> l)
               | None => l
               end
          else remove_loop x l (S i) n'
      | None => l
      end
  end.

Definition swap_remove (x : address) (l : list address) : list address :=
  remove_loop x l 0 (length l).

(** ** The inherited OpenZeppelin contracts *)

(** Modelled from the spec: OpenZeppelin's Ownable, Pausable and
    ReentrancyGuard (version 4, imported by every contract and not part of the
    repository). The owner is the deployer at construction, can hand over or
    renounce ownership, and alone passes [onlyOwner]; a paused contract
    rejects the operations under [whenNotPaused]; a function under
    [nonReentrant] cannot be entered while another one is running. The revert
    reasons are those of the library. *)
Class Ownable (S : Type) := {
  owner : S -> address;
  _setOwner : address -> S -> S
}.

Class Pausable (S : Type) := {
  paused : S -> bool;
  _setPaused : bool -> S -> S
}.

Class ReentrancyGuard (S : Type) := {
  _entered : S -> bool;
  _setEntered : bool -> S -> S
}.

Section Inherited.
Context {S : Type} `{Ownable S} `{Pausable S} `{ReentrancyGuard S}.

Definition onlyOwner (e : env) (body : S -> result S) : S -> result S :=
  fun s =>
    require (owner s =? msg_sender e) "Ownable: caller is not the owner";;
    body s.

Definition _transferOwnership (newOwner : address) (s : S) : S :=
  _setOwner newOwner s.

Definition transferOwnership (e : env) (newOwner : address) : S -> result S :=
  onlyOwner e (fun s =>
    require (negb (newOwner =? 0)) "Ownable: new owner is the zero address";;
    Ok (_transferOwnership newOwner s)).

Definition renounceOwnership (e : env) : S -> result S :=
  onlyOwner e (fun s => Ok (_transferOwnership 0 s)).

Definition whenNotPaused (body : S -> result S) : S -> result S :=
  fun s => require (negb (paused s)) "Pausable: paused";; body s.

Definition whenPaused (body : S -> result S) : S -> result S :=
  fun s => require (paused s) "Pausable: not paused";; body s.

Definition _pause : S -> result S :=
  whenNotPaused (fun s => Ok (_setPaused true s)).

Definition _unpause : S -> result S :=
  whenPaused (fun s => Ok (_setPaused false s)).

Definition nonReentrant (body : S -> result S) : S -> result S :=
  fun s =>
    require (negb (_entered s)) "ReentrancyGuard: reentrant call";;
    s' ← body (_setEntered true s);
    Ok (_setEntered false s').
End Inherited.

(** ** Contract DAO *)

Module DAO.

Record Proposal := {
  id : uint256;
  title : string;
  description : string;
  yesVotes : uint256;
  noVotes : uint256;
  deadline : uint256;
  executed : bool;
  proposer : address;
  hasVoted : gmap Z bool
}.

Definition empty_proposal : Proposal :=
  {| id := 0; title := ""; description := ""; yesVotes := 0; noVotes := 0;
     deadline := 0; executed := false; proposer := 0; hasVoted := ∅ |}.

Inductive event :=
| ProposalCreated (proposalId : uint256) (by_ : address) (title_ : string) (deadline_ : uint256)
| VoteCast (proposalId : uint256) (voter : address) (support : bool) (weight : uint256)
| MemberAdded (member : address) (addedBy : address)
| MemberRemoved (member : address) (removedBy : address)
| VaultAttached (vaultAddress : address) (attachedBy : address)
| VaultDetached (vaultAddress : address) (detachedBy : address)
| ProposalExecuted (proposalId : uint256) (success : bool).

Record state := {
  name : string;
  members : gmap Z bool;
  proposals : gmap Z Proposal;
  memberList : list address;
  proposalCount : uint256;
  memberCount : uint256;
  attachedVault : address;
  quorumPercentage : uint256;
  _owner : address;
  _paused : bool;
  _status : bool;
  events : list event
}.

Definition VOTING_PERIOD : Z := 7 * 86400.
Definition MIN_PROPOSAL_DURATION : Z := 3600.
Definition MAX_PROPOSAL_DURATION : Z := 30 * 86400.

(** Storage writes, one per state variable. *)
Definition set_name v s :=
  {| name := v; members := members s; proposals := proposals s;
     memberList := memberList s; proposalCount := proposalCount s;
     memberCount := memberCount s; attachedVault := attachedVault s;
     quorumPercentage := quorumPercentage s; _owner := _owner s;
     _paused := _paused s; _status := _status s; events := events s |}.
Definition set_members v s :=
  {| name := name s; members := v; proposals := proposals s;
     memberList := memberList s; proposalCount := proposalCount s;
     memberCount := memberCount s; attachedVault := attachedVault s;
     quorumPercentage := quorumPercentage s; _owner := _owner s;
     _paused := _paused s; _status := _status s; events := events s |}.
Definition set_proposals v s :=
  {| name := name s; members := members s; proposals := v;
     memberList := memberList s; proposalCount := proposalCount s;
     memberCount := memberCount s; attachedVault := attachedVault s;
     quorumPercentage := quorumPercentage s; _owner := _owner s;
     _paused := _paused s; _status := _status s; events := events s |}.
Definition set_memberList v s :=
  {| name := name s; members := members s; proposals := proposals s;
     memberList := v; proposalCount := proposalCount s;
     memberCount := memberCount s; attachedVault := attachedVault s;
     quorumPercentage := quorumPercentage s; _owner := _owner s;
     _paused := _paused s; _status := _status s; events := events s |}.
Definition set_proposalCount v s :=
  {| name := name s; members := members s; proposals := proposals s;
     memberList := memberList s; proposalCount := v;
     memberCount := memberCount s; attachedVault := attachedVault s;
     quorumPercentage := quorumPercentage s; _owner := _owner s;
     _paused := _paused s; _status := _status s; events := events s |}.
Definition set_memberCount v s :=
  {| name := name s; members := members s; proposals := proposals s;
     memberList := memberList s; proposalCount := proposalCount s;
     memberCount := v; attachedVault := attachedVault s;
     quorumPercentage := quorumPercentage s; _owner := _owner s;
     _paused := _paused s; _status := _status s; events := events s |}.
Definition set_attachedVault v s :=
  {| name := name s; members := members s; proposals := proposals s;
     memberList := memberList s; proposalCount := proposalCount s;
     memberCount := memberCount s; attachedVault := v;
     quorumPercentage := quorumPercentage s; _owner := _owner s;
     _paused := _paused s; _status := _status s; events := events s |}.
Definition set_quorumPercentage v s :=
  {| name := name s; members := members s; proposals := proposals s;
     memberList := memberList s; proposalCount := proposalCount s;
     memberCount := memberCount s; attachedVault := attachedVault s;
     quorumPercentage := v; _owner := _owner s;
     _paused := _paused s; _status := _status s; events := events s |}.
Definition set_owner v s :=
  {| name := name s; members := members s; proposals := proposals s;
     memberList := memberList s; proposalCount := proposalCount s;
     memberCount := memberCount s; attachedVault := attachedVault s;
     quorumPercentage := quorumPercentage s; _owner := v;
     _paused := _paused s; _status := _status s; events := events s |}.
Definition set_paused v s :=
  {| name := name s; members := members s; proposals := proposals s;
     memberList := memberList s; proposalCount := proposalCount s;
     memberCount := memberCount s; attachedVault := attachedVault s;
     quorumPercentage := quorumPercentage s; _owner := _owner s;
     _paused := v; _status := _status s; events := events s |}.
Definition set_status v s :=
  {| name := name s; members := members s; proposals := proposals s;
     memberList := memberList s; proposalCount := proposalCount s;
     memberCount := memberCount s; attachedVault := attachedVault s;
     quorumPercentage := quorumPercentage s; _owner := _owner s;
     _paused := _paused s; _status := v; events := events s |}.
Definition emit (ev : event) s :=
  {| name := name s; members := members s; proposals := proposals s;
     memberList := memberList s; proposalCount := proposalCount s;
     memberCount := memberCount s; attachedVault := attachedVault s;
     quorumPercentage := quorumPercentage s; _owner := _owner s;
     _paused := _paused s; _status := _status s; events := events s ++ [ev] |}.

#[global] Instance ownable : Ownable state :=
  {| owner := _owner; _setOwner := set_owner |}.
#[global] Instance pausable : Pausable state :=
  {| paused := _paused; _setPaused := set_paused |}.
#[global] Instance guard : ReentrancyGuard state :=
  {| _entered := _status; _setEntered := set_status |}.

(** [proposals[proposalId]], a storage reference: the zero proposal where
    nothing was written. *)
Definition proposal_at (s : state) (proposalId : uint256) : Proposal :=
  default empty_proposal (proposals s !! proposalId).

Definition store_proposal (proposalId : uint256) (p : Proposal) (s : state) : state :=
  set_proposals (<[proposalId := p]> (proposals s)) s.

(** Modifiers. *)
Definition onlyMember (e : env) (body : state -> result state) : state -> result state :=
  fun s =>
    require (getb (members s) (msg_sender e) || (msg_sender e =? owner s)) "Not a member";;
    body s.

Definition validProposal (proposalId : uint256) (body : state -> result state)
  : state -> result state :=
  fun s =>
    require ((0 <? proposalId) && (proposalId <=? proposalCount s)) "Invalid proposal ID";;
    body s.

(** The state before the constructor body runs: every variable zero,
    [quorumPercentage = 51], the deployer as owner. *)
Definition initial (e : env) : state :=
  {| name := ""; members := ∅; proposals := ∅; memberList := [];
     proposalCount := 0; memberCount := 0; attachedVault := 0;
     quorumPercentage := 51; _owner := msg_sender e;
     _paused := false; _status := false; events := [] |}.

Definition constructor (e : env) (_name : string) (owner_ : address) : result state :=
  let s := initial e in
  require (0 <? Z.of_nat (String.length _name)) "DAO name cannot be empty";;
  require (negb (owner_ =? 0)) "Invalid owner address";;
  let s := set_name _name s in
  let s := _transferOwnership owner_ s in
  let s := set_members (<[owner_ := true]> (members s)) s in
  let s := set_memberList (memberList s ++ [owner_]) s in
  let s := set_memberCount 1 s in
  Ok s.

Definition addMember (e : env) (member : address) : state -> result state :=
  onlyOwner e (whenNotPaused (nonReentrant (fun s =>
    require (negb (member =? 0)) "Invalid member address";;
    require (negb (getb (members s) member)) "Already a member";;
    require (memberCount s <? 1000) "Max members reached";;
    let s := set_members (<[member := true]> (members s)) s in
    let s := set_memberList (memberList s ++ [member]) s in
    n ← checked_add (memberCount s) 1;
    let s := set_memberCount n s in
    Ok (emit (MemberAdded member (msg_sender e)) s)))).

Definition removeMember (e : env) (member : address) : state -> result state :=
  onlyOwner e (whenNotPaused (nonReentrant (fun s =>
    require (negb (member =? 0)) "Invalid member address";;
    require (getb (members s) member) "Not a member";;
    require (negb (member =? owner s)) "Cannot remove owner";;
    let s := set_members (<[member := false]> (members s)) s in
    let s := set_memberList (swap_remove member (memberList s)) s in
    n ← checked_sub (memberCount s) 1;
    let s := set_memberCount n s in
    Ok (emit (MemberRemoved member (msg_sender e)) s)))).

Definition propose (e : env) (title_ description_ : string) (duration : uint256)
  : state -> result (uint256 * state) :=
  fun s0 =>
    let body : state -> result state := fun s =>
      require (0 <? Z.of_nat (String.length title_)) "Title cannot be empty";;
      require (0 <? Z.of_nat (String.length description_)) "Description cannot be empty";;
      require ((MIN_PROPOSAL_DURATION <=? duration) && (duration <=? MAX_PROPOSAL_DURATION))
        "Invalid duration";;
      n ← checked_add (proposalCount s) 1;
      let s := set_proposalCount n s in
      let proposalId := proposalCount s in
      let p := proposal_at s proposalId in
      d ← checked_add (block_timestamp e) duration;
      let p := {| id := proposalId; title := title_; description := description_;
                  yesVotes := yesVotes p; noVotes := noVotes p; deadline := d;
                  executed := executed p; proposer := msg_sender e;
                  hasVoted := hasVoted p |} in
      let s := store_proposal proposalId p s in
      Ok (emit (ProposalCreated proposalId (msg_sender e) title_ (deadline p)) s) in
    s ← onlyMember e (whenNotPaused (nonReentrant body)) s0;
    Ok (proposalCount s, s).

Definition vote (e : env) (proposalId : uint256) (support : bool) : state -> result state :=
  onlyMember e (whenNotPaused (nonReentrant (validProposal proposalId (fun s =>
    let p := proposal_at s proposalId in
    require (block_timestamp e <? deadline p) "Voting period ended";;
    require (negb (getb (hasVoted p) (msg_sender e))) "Already voted";;
    require (negb (executed p)) "Proposal already executed";;
    let voted := <[msg_sender e := true]> (hasVoted p) in
    yes ← (if support then checked_add (yesVotes p) 1 else Ok (yesVotes p));
    no ← (if support then Ok (noVotes p) else checked_add (noVotes p) 1);
    let p := {| id := id p; title := title p; description := description p;
                yesVotes := yes; noVotes := no; deadline := deadline p;
                executed := executed p; proposer := proposer p;
                hasVoted := voted |} in
    let s := store_proposal proposalId p s in
    Ok (emit (VoteCast proposalId (msg_sender e) support 1) s))))).

Definition mark_executed (p : Proposal) : Proposal :=
  {| id := id p; title := title p; description := description p;
     yesVotes := yesVotes p; noVotes := noVotes p; deadline := deadline p;
     executed := true; proposer := proposer p; hasVoted := hasVoted p |}.

Definition executeProposal (e : env) (proposalId : uint256) : state -> result state :=
  whenNotPaused (nonReentrant (validProposal proposalId (fun s =>
    let p := proposal_at s proposalId in
    require (deadline p <=? block_timestamp e) "Voting period not ended";;
    require (negb (executed p)) "Proposal already executed";;
    totalVotes ← checked_add (yesVotes p) (noVotes p);
    product ← checked_mul (memberCount s) (quorumPercentage s);
    let requiredQuorum := product / 100 in
    require (requiredQuorum <=? totalVotes) "Quorum not reached";;
    require (noVotes p <? yesVotes p) "Proposal rejected";;
    let s := store_proposal proposalId (mark_executed p) s in
    Ok (emit (ProposalExecuted proposalId true) s)))).

Definition attachVault (e : env) (vaultAddress : address) : state -> result state :=
  onlyOwner e (whenNotPaused (nonReentrant (fun s =>
    require (negb (vaultAddress =? 0)) "Invalid vault address";;
    require (attachedVault s =? 0) "Vault already attached";;
    let s := set_attachedVault vaultAddress s in
    Ok (emit (VaultAttached vaultAddress (msg_sender e)) s)))).

Definition detachVault (e : env) : state -> result state :=
  onlyOwner e (whenNotPaused (nonReentrant (fun s =>
    require (negb (attachedVault s =? 0)) "No vault attached";;
    let previousVault := attachedVault s in
    let s := set_attachedVault 0 s in
    Ok (emit (VaultDetached previousVault (msg_sender e)) s)))).

Definition getMembers (s : state) : list address := memberList s.

(** The two views under [validProposal]: [getProposal(proposalId)] returns
    the fields of the proposal apart from the [hasVoted] mapping,
    [hasVoted(proposalId, voter)] reads that mapping. *)
Definition getProposal (proposalId : uint256) (s : state)
  : result (uint256 * string * string * uint256 * uint256 * uint256 * bool * address) :=
  require ((0 <? proposalId) && (proposalId <=? proposalCount s)) "Invalid proposal ID";;
  let p := proposal_at s proposalId in
  Ok (id p, title p, description p, yesVotes p, noVotes p, deadline p, executed p,
      proposer p).

Definition hasVoted_view (proposalId : uint256) (voter : address) (s : state)
  : result bool :=
  require ((0 <? proposalId) && (proposalId <=? proposalCount s)) "Invalid proposal ID";;
  Ok (getb (hasVoted (proposal_at s proposalId)) voter).

Definition setQuorumPercentage (e : env) (q : uint256) : state -> result state :=
  onlyOwner e (fun s =>
    require ((0 <? q) && (q <=? 100)) "Invalid quorum percentage";;
    Ok (set_quorumPercentage q s)).

Definition pause (e : env) : state -> result state := onlyOwner e _pause.
Definition unpause (e : env) : state -> result state := onlyOwner e _unpause.

(** The entry points that change state, and a transaction log. *)
Inductive call :=
| AddMember (member : address)
| RemoveMember (member : address)
| Propose (title_ description_ : string) (duration : uint256)
| Vote (proposalId : uint256) (support : bool)
| ExecuteProposal (proposalId : uint256)
| AttachVault (vaultAddress : address)
| DetachVault
| SetQuorumPercentage (q : uint256)
| Pause
| Unpause
| TransferOwnership (newOwner : address)
| RenounceOwnership.

Definition exec (e : env) (c : call) : state -> result state :=
  match c with
  | AddMember m => addMember e m
  | RemoveMember m => removeMember e m
  | Propose t d n => fun s => r ← propose e t d n s; Ok r.2
  | Vote i b => vote e i b
  | ExecuteProposal i => executeProposal e i
  | AttachVault v => attachVault e v
  | DetachVault => detachVault e
  | SetQuorumPercentage q => setQuorumPercentage e q
  | Pause => pause e
  | Unpause => unpause e
  | TransferOwnership a => transferOwnership e a
  | RenounceOwnership => renounceOwnership e
  end.

Definition run (txs : list (env * call)) (s : state) : state :=
  fold_left (fun s tx => transact (exec tx.1 tx.2) s) txs s.

Definition is_membership_call (c : call) : bool :=
  match c with
  | AddMember _ | RemoveMember _ => true
  | _ => false
  end.

Definition keeps_owner (c : call) : bool :=
  match c with
  | TransferOwnership _ | RenounceOwnership => false
  | _ => true
  end.

(** The member set, read off the [members] mapping. *)
Definition member_set (s : state) : gset Z :=
  dom (filter (fun kv => kv.2 = true) (members s)).

End DAO.

(** ** External calls made by the Vault *)

(** The data a reverting callee hands back: none, [Error(reason)] or
    [Panic(code)]. *)
Inductive revert_data :=
| NoData
| ErrorData (reason : string)
| PanicData (code : Z).

(** What a call to a token contract ([transfer], [transferFrom]) comes back
    with: 32 bytes holding a boolean; no data at all (a token that declares
    no return value); data that is no boolean; a revert; or nothing, there
    being no contract at the address. *)
Inductive token_outcome :=
| Returned (ok : bool)
| ReturnedNothing
| ReturnedGarbage
| CallReverted (data : revert_data)
| NoContract.

(** The caller reverts with the data of the callee, or with [errorMessage]
    if there is none. *)
Definition bubble_up {A} (data : revert_data) (errorMessage : string) : result A :=
  match data with
  | NoData => Revert errorMessage
  | ErrorData reason => Revert reason
  | PanicData code => Panic code
  end.

(** Modelled from the spec: OpenZeppelin's SafeERC20 ([safeTransfer],
    [safeTransferFrom], version 4, not part of the repository). The call goes
    through [Address.functionCall], which rejects an address without code and
    hands on the revert of the token; return data, if there is any, must
    decode to [true]. *)
Definition safe_token_call (o : token_outcome) : result unit :=
  match o with
  | Returned true => Ok tt
  | Returned false => Revert "SafeERC20: ERC20 operation did not succeed"
  | ReturnedNothing => Ok tt
  | ReturnedGarbage => Revert ""
  | CallReverted data => bubble_up data "SafeERC20: low-level call failed"
  | NoContract => Revert "Address: call to non-contract"
  end.

(** [try token.transfer(...) { success = true; } catch { success = false; }]:
    the success block runs whenever the call returns a boolean, whatever its
    value, the catch block when the token reverts. The return data is decoded
    by the caller: without a contract at the address, or with return data
    that is no boolean (none at all included), the calling function itself
    reverts, which no [catch] handles. *)
Definition try_token_call (o : token_outcome) : result bool :=
  match o with
  | Returned _ => Ok true
  | CallReverted _ => Ok false
  | ReturnedNothing | ReturnedGarbage | NoContract => Revert ""
  end.

(** ** Contract Vault *)

Module Vault.

Record SpendingProposal := {
  id : uint256;
  token : address;
  amount : uint256;
  recipient : address;
  description : string;
  approvals : uint256;
  deadline : uint256;
  executed : bool;
  hasApproved : gmap Z bool
}.

Definition empty_proposal : SpendingProposal :=
  {| id := 0; token := 0; amount := 0; recipient := 0; description := "";
     approvals := 0; deadline := 0; executed := false; hasApproved := ∅ |}.

Inductive event :=
| Deposit (token_ depositor : address) (amount_ : uint256)
| Withdrawal (token_ recipient_ : address) (amount_ : uint256)
| SpendingProposalCreated (proposalId : uint256) (token_ : address)
    (amount_ : uint256) (recipient_ : address)
| SpendingProposalApproved (proposalId : uint256) (approver : address)
| SpendingProposalExecuted (proposalId : uint256) (success : bool)
| EmergencyPause (pauser : address) (reason : string)
| SignerAdded (signer addedBy : address)
| SignerRemoved (signer removedBy : address)
| WithdrawalLimitUpdated (oldLimit newLimit : uint256).

Record state := {
  daoAddress : address;
  withdrawalLimit : uint256;
  requiredSignatures : uint256;
  spendingProposalCount : uint256;
  authorizedSigners : gmap Z bool;
  spendingProposals : gmap Z SpendingProposal;
  tokenBalances : gmap Z Z;
  signerList : list address;
  supportedTokens : list address;
  _owner : address;
  _paused : bool;
  _status : bool;
  events : list event
}.

Definition MAX_SIGNERS : Z := 20.
Definition MIN_SIGNATURES : Z := 1.
Definition PROPOSAL_DURATION : Z := 7 * 86400.

(** Storage writes, one per state variable. *)
Definition set_withdrawalLimit v s :=
  {| daoAddress := daoAddress s; withdrawalLimit := v;
     requiredSignatures := requiredSignatures s;
     spendingProposalCount := spendingProposalCount s;
     authorizedSigners := authorizedSigners s;
     spendingProposals := spendingProposals s;
     tokenBalances := tokenBalances s; signerList := signerList s;
     supportedTokens := supportedTokens s; _owner := _owner s;
     _paused := _paused s; _status := _status s; events := events s |}.
Definition set_requiredSignatures v s :=
  {| daoAddress := daoAddress s; withdrawalLimit := withdrawalLimit s;
     requiredSignatures := v;
     spendingProposalCount := spendingProposalCount s;
     authorizedSigners := authorizedSigners s;
     spendingProposals := spendingProposals s;
     tokenBalances := tokenBalances s; signerList := signerList s;
     supportedTokens := supportedTokens s; _owner := _owner s;
     _paused := _paused s; _status := _status s; events := events s |}.
Definition set_spendingProposalCount v s :=
  {| daoAddress := daoAddress s; withdrawalLimit := withdrawalLimit s;
     requiredSignatures := requiredSignatures s; spendingProposalCount := v;
     authorizedSigners := authorizedSigners s;
     spendingProposals := spendingProposals s;
     tokenBalances := tokenBalances s; signerList := signerList s;
     supportedTokens := supportedTokens s; _owner := _owner s;
     _paused := _paused s; _status := _status s; events := events s |}.
Definition set_authorizedSigners v s :=
  {| daoAddress := daoAddress s; withdrawalLimit := withdrawalLimit s;
     requiredSignatures := requiredSignatures s;
     spendingProposalCount := spendingProposalCount s;
     authorizedSigners := v; spendingProposals := spendingProposals s;
     tokenBalances := tokenBalances s; signerList := signerList s;
     supportedTokens := supportedTokens s; _owner := _owner s;
     _paused := _paused s; _status := _status s; events := events s |}.
Definition set_spendingProposals v s :=
  {| daoAddress := daoAddress s; withdrawalLimit := withdrawalLimit s;
     requiredSignatures := requiredSignatures s;
     spendingProposalCount := spendingProposalCount s;
     authorizedSigners := authorizedSigners s; spendingProposals := v;
     tokenBalances := tokenBalances s; signerList := signerList s;
     supportedTokens := supportedTokens s; _owner := _owner s;
     _paused := _paused s; _status := _status s; events := events s |}.
Definition set_tokenBalances v s :=
  {| daoAddress := daoAddress s; withdrawalLimit := withdrawalLimit s;
     requiredSignatures := requiredSignatures s;
     spendingProposalCount := spendingProposalCount s;
     authorizedSigners := authorizedSigners s;
     spendingProposals := spendingProposals s; tokenBalances := v;
     signerList := signerList s; supportedTokens := supportedTokens s;
     _owner := _owner s; _paused := _paused s; _status := _status s;
     events := events s |}.
Definition set_signerList v s :=
  {| daoAddress := daoAddress s; withdrawalLimit := withdrawalLimit s;
     requiredSignatures := requiredSignatures s;
     spendingProposalCount := spendingProposalCount s;
     authorizedSigners := authorizedSigners s;
     spendingProposals := spendingProposals s;
     tokenBalances := tokenBalances s; signerList := v;
     supportedTokens := supportedTokens s; _owner := _owner s;
     _paused := _paused s; _status := _status s; events := events s |}.
Definition set_supportedTokens v s :=
  {| daoAddress := daoAddress s; withdrawalLimit := withdrawalLimit s;
     requiredSignatures := requiredSignatures s;
     spendingProposalCount := spendingProposalCount s;
     authorizedSigners := authorizedSigners s;
     spendingProposals := spendingProposals s;
     tokenBalances := tokenBalances s; signerList := signerList s;
     supportedTokens := v; _owner := _owner s; _paused := _paused s;
     _status := _status s; events := events s |}.
Definition set_owner v s :=
  {| daoAddress := daoAddress s; withdrawalLimit := withdrawalLimit s;
     requiredSignatures := requiredSignatures s;
     spendingProposalCount := spendingProposalCount s;
     authorizedSigners := authorizedSigners s;
     spendingProposals := spendingProposals s;
     tokenBalances := tokenBalances s; signerList := signerList s;
     supportedTokens := supportedTokens s; _owner := v; _paused := _paused s;
     _status := _status s; events := events s |}.
Definition set_paused v s :=
  {| daoAddress := daoAddress s; withdrawalLimit := withdrawalLimit s;
     requiredSignatures := requiredSignatures s;
     spendingProposalCount := spendingProposalCount s;
     authorizedSigners := authorizedSigners s;
     spendingProposals := spendingProposals s;
     tokenBalances := tokenBalances s; signerList := signerList s;
     supportedTokens := supportedTokens s; _owner := _owner s; _paused := v;
     _status := _status s; events := events s |}.
Definition set_status v s :=
  {| daoAddress := daoAddress s; withdrawalLimit := withdrawalLimit s;
     requiredSignatures := requiredSignatures s;
     spendingProposalCount := spendingProposalCount s;
     authorizedSigners := authorizedSigners s;
     spendingProposals := spendingProposals s;
     tokenBalances := tokenBalances s; signerList := signerList s;
     supportedTokens := supportedTokens s; _owner := _owner s;
     _paused := _paused s; _status := v; events := events s |}.
Definition emit (ev : event) s :=
  {| daoAddress := daoAddress s; withdrawalLimit := withdrawalLimit s;
     requiredSignatures := requiredSignatures s;
     spendingProposalCount := spendingProposalCount s;
     authorizedSigners := authorizedSigners s;
     spendingProposals := spendingProposals s;
     tokenBalances := tokenBalances s; signerList := signerList s;
     supportedTokens := supportedTokens s; _owner := _owner s;
     _paused := _paused s; _status := _status s;
     events := events s ++ [ev] |}.

#[global] Instance ownable : Ownable state :=
  {| owner := _owner; _setOwner := set_owner |}.
#[global] Instance pausable : Pausable state :=
  {| paused := _paused; _setPaused := set_paused |}.
#[global] Instance guard : ReentrancyGuard state :=
  {| _entered := _status; _setEntered := set_status |}.

Definition proposal_at (s : state) (proposalId : uint256) : SpendingProposal :=
  default empty_proposal (spendingProposals s !! proposalId).

Definition store_proposal (proposalId : uint256) (p : SpendingProposal) (s : state) : state :=
  set_spendingProposals (<[proposalId := p]> (spendingProposals s)) s.

Definition set_executed (b : bool) (p : SpendingProposal) : SpendingProposal :=
  {| id := id p; token := token p; amount := amount p; recipient := recipient p;
     description := description p; approvals := approvals p;
     deadline := deadline p; executed := b; hasApproved := hasApproved p |}.

(** [proposal.hasApproved[approver] = true; proposal.approvals = n] *)
Definition add_approval (approver : address) (n : uint256) (p : SpendingProposal)
  : SpendingProposal :=
  {| id := id p; token := token p; amount := amount p; recipient := recipient p;
     description := description p; approvals := n; deadline := deadline p;
     executed := executed p;
     hasApproved := <[approver := true]> (hasApproved p) |}.

(** [getBalance(token)] *)
Definition getBalance (s : state) (token_ : address) : uint256 :=
  getu (tokenBalances s) token_.

Definition set_balance (token_ : address) (v : uint256) (s : state) : state :=
  set_tokenBalances (<[token_ := v]> (tokenBalances s)) s.

Definition getSigners (s : state) : list address := signerList s.

Definition getSupportedTokens (s : state) : list address := supportedTokens s.

(** Modifiers. *)
Definition onlyDAO (e : env) (body : state -> result state) : state -> result state :=
  fun s =>
    require (msg_sender e =? daoAddress s) "Only DAO can call this function";;
    body s.

Definition onlyAuthorizedSigner (e : env) (body : state -> result state)
  : state -> result state :=
  fun s =>
    require (getb (authorizedSigners s) (msg_sender e) || (msg_sender e =? owner s))
      "Not an authorized signer";;
    body s.

Definition validSpendingProposal (proposalId : uint256) (body : state -> result state)
  : state -> result state :=
  fun s =>
    require ((0 <? proposalId) && (proposalId <=? spendingProposalCount s))
      "Invalid proposal ID";;
    body s.

(** The state before the constructor body runs. *)
Definition initial (e : env) : state :=
  {| daoAddress := 0; withdrawalLimit := 0; requiredSignatures := 0;
     spendingProposalCount := 0; authorizedSigners := ∅; spendingProposals := ∅;
     tokenBalances := ∅; signerList := []; supportedTokens := [];
     _owner := msg_sender e; _paused := false; _status := false; events := [] |}.

Definition constructor (e : env) (_daoAddress : address)
    (_withdrawalLimit _requiredSignatures : uint256) : result state :=
  let s := initial e in
  require (negb (_daoAddress =? 0)) "Invalid DAO address";;
  require (MIN_SIGNATURES <=? _requiredSignatures) "Invalid signature requirement";;
  let s :=
    {| daoAddress := _daoAddress; withdrawalLimit := _withdrawalLimit;
       requiredSignatures := _requiredSignatures;
       spendingProposalCount := spendingProposalCount s;
       authorizedSigners := authorizedSigners s;
       spendingProposals := spendingProposals s;
       tokenBalances := tokenBalances s; signerList := signerList s;
       supportedTokens := supportedTokens s; _owner := _owner s;
       _paused := _paused s; _status := _status s; events := events s |} in
  let s := set_authorizedSigners (<[msg_sender e := true]> (authorizedSigners s)) s in
  let s := set_signerList (signerList s ++ [msg_sender e]) s in
  Ok s.

Definition updateWithdrawalLimit (e : env) (newLimit : uint256) : state -> result state :=
  onlyOwner e (fun s =>
    let oldLimit := withdrawalLimit s in
    let s := set_withdrawalLimit newLimit s in
    Ok (emit (WithdrawalLimitUpdated oldLimit newLimit) s)).

Definition updateRequiredSignatures (e : env) (newRequiredSignatures : uint256)
  : state -> result state :=
  onlyOwner e (fun s =>
    require (MIN_SIGNATURES <=? newRequiredSignatures) "Invalid signature requirement";;
    require (newRequiredSignatures <=? Z.of_nat (length (signerList s)))
      "Required signatures exceed signer count";;
    Ok (set_requiredSignatures newRequiredSignatures s)).

Definition emergencyPause (e : env) (reason : string) : state -> result state :=
  onlyAuthorizedSigner e (fun s =>
    s ← _pause s;
    Ok (emit (EmergencyPause (msg_sender e) reason) s)).

Definition unpause (e : env) : state -> result state := onlyOwner e _unpause.

(** [receive() external payable] *)
Definition receive (e : env) (msg_value : uint256) : state -> result state :=
  fun s =>
    if 0 <? msg_value
    then
      b ← checked_add (getBalance s 0) msg_value;
      let s := set_balance 0 b s in
      Ok (emit (Deposit 0 (msg_sender e) msg_value) s)
    else Ok s.

(** *** Calls back into the vault

    An external call hands control to the callee, which may call the vault
    again before it returns. An entry point under [nonReentrant] reverts
    when entered this way; the ones without the modifier run:
    [updateWithdrawalLimit], [updateRequiredSignatures], [emergencyPause],
    [unpause], [receive] and the inherited [transferOwnership] and
    [renounceOwnership]. None of them reads [block.timestamp] or makes an
    external call of its own. *)
Inductive callback :=
| CallbackUpdateWithdrawalLimit (newLimit : uint256)
| CallbackUpdateRequiredSignatures (newRequiredSignatures : uint256)
| CallbackEmergencyPause (reason : string)
| CallbackUnpause
| CallbackReceive (msg_value : uint256)
| CallbackTransferOwnership (newOwner : address)
| CallbackRenounceOwnership.

Definition exec_callback (e : env) (c : callback) : state -> result state :=
  match c with
  | CallbackUpdateWithdrawalLimit l => updateWithdrawalLimit e l
  | CallbackUpdateRequiredSignatures n => updateRequiredSignatures e n
  | CallbackEmergencyPause r => emergencyPause e r
  | CallbackUnpause => unpause e
  | CallbackReceive v => receive e v
  | CallbackTransferOwnership a => transferOwnership e a
  | CallbackRenounceOwnership => renounceOwnership e
  end.

(** The external call an entry point makes, as the vault sees it: the calls
    the callee makes back into the vault while it runs ([callbacks], each
    with its own [msg.sender] and value), and what comes back, [eth_call]
    from the ETH send [recipient.call{value: amount}("")], [token_call] from
    a token call. *)
Record external := {
  callbacks : list (env * callback);
  eth_call : bool;
  token_call : token_outcome
}.

(** The vault once the callee has returned: its calls back have run in
    order, a failing one rolled back on its own. Where the callee reverts
    instead, they are undone with the rest of what the callee did. *)
Definition reenter (x : external) (s : state) : state :=
  fold_left (fun s cb => transact (exec_callback cb.1 cb.2) s) (callbacks x) s.

Definition depositETH (e : env) (msg_value : uint256) : state -> result state :=
  whenNotPaused (nonReentrant (fun s =>
    require (0 <? msg_value) "Deposit amount must be greater than 0";;
    b ← checked_add (getBalance s 0) msg_value;
    let s := set_balance 0 b s in
    Ok (emit (Deposit 0 (msg_sender e) msg_value) s))).

Definition _addSupportedToken (token_ : address) (s : state) : state :=
  if existsb (fun t => t =? token_) (supportedTokens s)
  then s
  else set_supportedTokens (supportedTokens s ++ [token_]) s.

Definition depositToken (e : env) (x : external) (token_ : address) (amount_ : uint256)
  : state -> result state :=
  whenNotPaused (nonReentrant (fun s =>
    require (negb (token_ =? 0)) "Invalid token address";;
    require (0 <? amount_) "Deposit amount must be greater than 0";;
    safe_token_call (token_call x);;
    let s := reenter x s in
    b ← checked_add (getBalance s token_) amount_;
    let s := set_balance token_ b s in
    let s := _addSupportedToken token_ s in
    Ok (emit (Deposit token_ (msg_sender e) amount_) s))).

Definition withdraw (e : env) (x : external) (token_ : address) (amount_ : uint256)
    (recipient_ : address) : state -> result state :=
  onlyDAO e (whenNotPaused (nonReentrant (fun s =>
    require (0 <? amount_) "Withdrawal amount must be greater than 0";;
    require (negb (recipient_ =? 0)) "Invalid recipient address";;
    require (amount_ <=? withdrawalLimit s) "Amount exceeds withdrawal limit";;
    require (amount_ <=? getBalance s token_) "Insufficient balance";;
    b ← checked_sub (getBalance s token_) amount_;
    let s := set_balance token_ b s in
    (if token_ =? 0
     then require (eth_call x) "ETH transfer failed"
     else safe_token_call (token_call x));;
    let s := reenter x s in
    Ok (emit (Withdrawal token_ recipient_ amount_) s)))).

Definition createSpendingProposal (e : env) (token_ : address) (amount_ : uint256)
    (recipient_ : address) (description_ : string)
  : state -> result (uint256 * state) :=
  fun s0 =>
    let body : state -> result state := fun s =>
      require (withdrawalLimit s <? amount_) "Use direct withdrawal for small amounts";;
      require (negb (recipient_ =? 0)) "Invalid recipient address";;
      require (amount_ <=? getBalance s token_) "Insufficient balance";;
      require (0 <? Z.of_nat (String.length description_)) "Description cannot be empty";;
      n ← checked_add (spendingProposalCount s) 1;
      let s := set_spendingProposalCount n s in
      let proposalId := spendingProposalCount s in
      let p := proposal_at s proposalId in
      d ← checked_add (block_timestamp e) PROPOSAL_DURATION;
      let p := {| id := proposalId; token := token_; amount := amount_;
                  recipient := recipient_; description := description_;
                  approvals := approvals p; deadline := d;
                  executed := executed p; hasApproved := hasApproved p |} in
      let s := store_proposal proposalId p s in
      Ok (emit (SpendingProposalCreated proposalId token_ amount_ recipient_) s) in
    s ← onlyAuthorizedSigner e (whenNotPaused (nonReentrant body)) s0;
    Ok (spendingProposalCount s, s).

(** The [success] flag of [_executeSpendingProposal]: the result of the ETH
    send, or the branch the [try] of the token transfer took. *)
Definition transfer_success (x : external) (token_ : address) : result bool :=
  if token_ =? 0 then Ok (eth_call x) else try_token_call (token_call x).

Definition _executeSpendingProposal (x : external) (proposalId : uint256)
  : state -> result state :=
  fun s =>
    let p := proposal_at s proposalId in
    let s := store_proposal proposalId (set_executed true p) s in
    b ← checked_sub (getBalance s (token p)) (amount p);
    let s := set_balance (token p) b s in
    success ← transfer_success x (token p);
    s ← (if success then Ok (reenter x s)
         else
           let p := proposal_at s proposalId in
           let s := store_proposal proposalId (set_executed false p) s in
           b ← checked_add (getBalance s (token p)) (amount p);
           Ok (set_balance (token p) b s));
    Ok (emit (SpendingProposalExecuted proposalId success) s).

(** [getSpendingProposal(proposalId)], a view under
    [validSpendingProposal]. *)
Definition getSpendingProposal (proposalId : uint256) (s : state)
  : result (uint256 * address * uint256 * address * string * uint256 * uint256 * bool) :=
  require ((0 <? proposalId) && (proposalId <=? spendingProposalCount s))
    "Invalid proposal ID";;
  let p := proposal_at s proposalId in
  Ok (id p, token p, amount p, recipient p, description p, approvals p, deadline p,
      executed p).

Definition approveSpendingProposal (e : env) (x : external) (proposalId : uint256)
  : state -> result state :=
  onlyAuthorizedSigner e (whenNotPaused (nonReentrant
    (validSpendingProposal proposalId (fun s =>
      let p := proposal_at s proposalId in
      require (block_timestamp e <? deadline p) "Proposal expired";;
      require (negb (executed p)) "Proposal already executed";;
      require (negb (getb (hasApproved p) (msg_sender e))) "Already approved";;
      n ← checked_add (approvals p) 1;
      let p := add_approval (msg_sender e) n p in
      let s := store_proposal proposalId p s in
      let s := emit (SpendingProposalApproved proposalId (msg_sender e)) s in
      if requiredSignatures s <=? approvals p
      then _executeSpendingProposal x proposalId s
      else Ok s)))).

Definition executeSpendingProposal (x : external) (proposalId : uint256)
  : state -> result state :=
  whenNotPaused (nonReentrant (validSpendingProposal proposalId (fun s =>
    let p := proposal_at s proposalId in
    require (requiredSignatures s <=? approvals p) "Not enough approvals";;
    require (negb (executed p)) "Proposal already executed";;
    require (amount p <=? getBalance s (token p)) "Insufficient balance";;
    _executeSpendingProposal x proposalId s))).

Definition addSigner (e : env) (signer : address) : state -> result state :=
  onlyOwner e (whenNotPaused (nonReentrant (fun s =>
    require (negb (signer =? 0)) "Invalid signer address";;
    require (negb (getb (authorizedSigners s) signer)) "Already a signer";;
    require (Z.of_nat (length (signerList s)) <? MAX_SIGNERS) "Max signers reached";;
    let s := set_authorizedSigners (<[signer := true]> (authorizedSigners s)) s in
    let s := set_signerList (signerList s ++ [signer]) s in
    Ok (emit (SignerAdded signer (msg_sender e)) s)))).

Definition removeSigner (e : env) (signer : address) : state -> result state :=
  onlyOwner e (whenNotPaused (nonReentrant (fun s =>
    require (negb (signer =? 0)) "Invalid signer address";;
    require (getb (authorizedSigners s) signer) "Not a signer";;
    require (requiredSignatures s <? Z.of_nat (length (signerList s)))
      "Cannot remove signer below required threshold";;
    let s := set_authorizedSigners (<[signer := false]> (authorizedSigners s)) s in
    let s := set_signerList (swap_remove signer (signerList s)) s in
    Ok (emit (SignerRemoved signer (msg_sender e)) s)))).

(** The entry points that change state, and a transaction log. *)
Inductive call :=
| DepositETH (msg_value : uint256)
| DepositToken (x : external) (token_ : address) (amount_ : uint256)
| Withdraw (x : external) (token_ : address) (amount_ : uint256) (recipient_ : address)
| CreateSpendingProposal (token_ : address) (amount_ : uint256)
    (recipient_ : address) (description_ : string)
| ApproveSpendingProposal (x : external) (proposalId : uint256)
| ExecuteSpendingProposal (x : external) (proposalId : uint256)
| AddSigner (signer : address)
| RemoveSigner (signer : address)
| UpdateWithdrawalLimit (newLimit : uint256)
| UpdateRequiredSignatures (newRequiredSignatures : uint256)
| EmergencyPauseCall (reason : string)
| Unpause
| Receive (msg_value : uint256)
| TransferOwnership (newOwner : address)
| RenounceOwnership.

Definition exec (e : env) (c : call) : state -> result state :=
  match c with
  | DepositETH v => depositETH e v
  | DepositToken x t a => depositToken e x t a
  | Withdraw x t a r => withdraw e x t a r
  | CreateSpendingProposal t a r d =>
      fun s => r ← createSpendingProposal e t a r d s; Ok r.2
  | ApproveSpendingProposal x i => approveSpendingProposal e x i
  | ExecuteSpendingProposal x i => executeSpendingProposal x i
  | AddSigner a => addSigner e a
  | RemoveSigner a => removeSigner e a
  | UpdateWithdrawalLimit l => updateWithdrawalLimit e l
  | UpdateRequiredSignatures n => updateRequiredSignatures e n
  | EmergencyPauseCall r => emergencyPause e r
  | Unpause => unpause e
  | Receive v => receive e v
  | TransferOwnership a => transferOwnership e a
  | RenounceOwnership => renounceOwnership e
  end.

Definition run (txs : list (env * call)) (s : state) : state :=
  fold_left (fun s tx => transact (exec tx.1 tx.2) s) txs s.

(** The entry point a call back enters. *)
Definition call_of_callback (c : callback) : call :=
  match c with
  | CallbackUpdateWithdrawalLimit l => UpdateWithdrawalLimit l
  | CallbackUpdateRequiredSignatures n => UpdateRequiredSignatures n
  | CallbackEmergencyPause r => EmergencyPauseCall r
  | CallbackUnpause => Unpause
  | CallbackReceive v => Receive v
  | CallbackTransferOwnership a => TransferOwnership a
  | CallbackRenounceOwnership => RenounceOwnership
  end.

End Vault.

(** [mapping(address => address[])] read. *)
Definition getl `{Countable K} (m : gmap K (list Z)) (k : K) : list Z :=
  default [] (m !! k).

(** ** Contract VaultFactory *)

Module VaultFactory.

Inductive event :=
| VaultCreated (vaultAddress daoAddress creator : address)
    (withdrawalLimit requiredSignatures : uint256)
| VaultTemplateUpdated (oldTemplate newTemplate : address)
| DefaultParametersUpdated (withdrawalLimit requiredSignatures : uint256).

(** The storage of the factory, with two things the chain holds for it: its
    own address [this] and the Vault contracts it deployed with [new Vault]
    ([deployed], keyed by address). *)
Record state := {
  this : address;
  deployed : gmap Z Vault.state;
  daoVaults : gmap Z (list Z);
  vaultToDAO : gmap Z Z;
  allVaults : list address;
  vaultCount : uint256;
  defaultWithdrawalLimit : uint256;
  defaultRequiredSignatures : uint256;
  _owner : address;
  _status : bool;
  events : list event
}.

Definition MAX_VAULTS_PER_DAO : Z := 5.
Definition MIN_WITHDRAWAL_LIMIT : Z := 10 ^ 16.          (* 0.01 ether *)
Definition MAX_WITHDRAWAL_LIMIT : Z := 1000 * 10 ^ 18.   (* 1000 ether *)
Definition MIN_REQUIRED_SIGNATURES : Z := 1.
Definition MAX_REQUIRED_SIGNATURES : Z := 20.

Definition set_deployed v s :=
  {| this := this s; deployed := v; daoVaults := daoVaults s;
     vaultToDAO := vaultToDAO s; allVaults := allVaults s;
     vaultCount := vaultCount s;
     defaultWithdrawalLimit := defaultWithdrawalLimit s;
     defaultRequiredSignatures := defaultRequiredSignatures s;
     _owner := _owner s; _status := _status s; events := events s |}.
Definition set_daoVaults v s :=
  {| this := this s; deployed := deployed s; daoVaults := v;
     vaultToDAO := vaultToDAO s; allVaults := allVaults s;
     vaultCount := vaultCount s;
     defaultWithdrawalLimit := defaultWithdrawalLimit s;
     defaultRequiredSignatures := defaultRequiredSignatures s;
     _owner := _owner s; _status := _status s; events := events s |}.
Definition set_vaultToDAO v s :=
  {| this := this s; deployed := deployed s; daoVaults := daoVaults s;
     vaultToDAO := v; allVaults := allVaults s; vaultCount := vaultCount s;
     defaultWithdrawalLimit := defaultWithdrawalLimit s;
     defaultRequiredSignatures := defaultRequiredSignatures s;
     _owner := _owner s; _status := _status s; events := events s |}.
Definition set_allVaults v s :=
  {| this := this s; deployed := deployed s; daoVaults := daoVaults s;
     vaultToDAO := vaultToDAO s; allVaults := v; vaultCount := vaultCount s;
     defaultWithdrawalLimit := defaultWithdrawalLimit s;
     defaultRequiredSignatures := defaultRequiredSignatures s;
     _owner := _owner s; _status := _status s; events := events s |}.
Definition set_vaultCount v s :=
  {| this := this s; deployed := deployed s; daoVaults := daoVaults s;
     vaultToDAO := vaultToDAO s; allVaults := allVaults s; vaultCount := v;
     defaultWithdrawalLimit := defaultWithdrawalLimit s;
     defaultRequiredSignatures := defaultRequiredSignatures s;
     _owner := _owner s; _status := _status s; events := events s |}.
Definition set_defaultWithdrawalLimit v s :=
  {| this := this s; deployed := deployed s; daoVaults := daoVaults s;
     vaultToDAO := vaultToDAO s; allVaults := allVaults s;
     vaultCount := vaultCount s; defaultWithdrawalLimit := v;
     defaultRequiredSignatures := defaultRequiredSignatures s;
     _owner := _owner s; _status := _status s; events := events s |}.
Definition set_defaultRequiredSignatures v s :=
  {| this := this s; deployed := deployed s; daoVaults := daoVaults s;
     vaultToDAO := vaultToDAO s; allVaults := allVaults s;
     vaultCount := vaultCount s;
     defaultWithdrawalLimit := defaultWithdrawalLimit s;
     defaultRequiredSignatures := v; _owner := _owner s;
     _status := _status s; events := events s |}.
Definition set_owner v s :=
  {| this := this s; deployed := deployed s; daoVaults := daoVaults s;
     vaultToDAO := vaultToDAO s; allVaults := allVaults s;
     vaultCount := vaultCount s;
     defaultWithdrawalLimit := defaultWithdrawalLimit s;
     defaultRequiredSignatures := defaultRequiredSignatures s; _owner := v;
     _status := _status s; events := events s |}.
Definition set_status v s :=
  {| this := this s; deployed := deployed s; daoVaults := daoVaults s;
     vaultToDAO := vaultToDAO s; allVaults := allVaults s;
     vaultCount := vaultCount s;
     defaultWithdrawalLimit := defaultWithdrawalLimit s;
     defaultRequiredSignatures := defaultRequiredSignatures s;
     _owner := _owner s; _status := v; events := events s |}.
Definition emit (ev : event) s :=
  {| this := this s; deployed := deployed s; daoVaults := daoVaults s;
     vaultToDAO := vaultToDAO s; allVaults := allVaults s;
     vaultCount := vaultCount s;
     defaultWithdrawalLimit := defaultWithdrawalLimit s;
     defaultRequiredSignatures := defaultRequiredSignatures s;
     _owner := _owner s; _status := _status s; events := events s ++ [ev] |}.

#[global] Instance ownable : Ownable state :=
  {| owner := _owner; _setOwner := set_owner |}.
#[global] Instance guard : ReentrancyGuard state :=
  {| _entered := _status; _setEntered := set_status |}.

Definition constructor (e : env) (self : address)
    (_defaultWithdrawalLimit _defaultRequiredSignatures : uint256) : result state :=
  require ((MIN_WITHDRAWAL_LIMIT <=? _defaultWithdrawalLimit)
           && (_defaultWithdrawalLimit <=? MAX_WITHDRAWAL_LIMIT))
    "Invalid default withdrawal limit";;
  require ((MIN_REQUIRED_SIGNATURES <=? _defaultRequiredSignatures)
           && (_defaultRequiredSignatures <=? MAX_REQUIRED_SIGNATURES))
    "Invalid default required signatures";;
  Ok {| this := self; deployed := ∅; daoVaults := ∅; vaultToDAO := ∅;
        allVaults := []; vaultCount := 0;
        defaultWithdrawalLimit := _defaultWithdrawalLimit;
        defaultRequiredSignatures := _defaultRequiredSignatures;
        _owner := msg_sender e; _status := false; events := [] |}.

(** [vaultAddress] is the address the chain gives the new contract. The
    Vault constructor and [transferOwnership] run with the factory as
    [msg.sender]. *)
Definition _createVault (e : env) (vaultAddress daoAddress : address)
    (withdrawalLimit requiredSignatures : uint256) : state -> result state :=
  fun s =>
    require (negb (daoAddress =? 0)) "Invalid DAO address";;
    require ((MIN_WITHDRAWAL_LIMIT <=? withdrawalLimit)
             && (withdrawalLimit <=? MAX_WITHDRAWAL_LIMIT))
      "Invalid withdrawal limit";;
    require ((MIN_REQUIRED_SIGNATURES <=? requiredSignatures)
             && (requiredSignatures <=? MAX_REQUIRED_SIGNATURES))
      "Invalid required signatures";;
    require (Z.of_nat (length (getl (daoVaults s) daoAddress)) <? MAX_VAULTS_PER_DAO)
      "Max vaults per DAO exceeded";;
    let from_factory := {| msg_sender := this s; block_timestamp := block_timestamp e |} in
    newVault ← Vault.constructor from_factory daoAddress withdrawalLimit requiredSignatures;
    newVault ← transferOwnership from_factory (msg_sender e) newVault;
    let s := set_deployed (<[vaultAddress := newVault]> (deployed s)) s in
    let s := set_daoVaults
               (<[daoAddress := (getl (daoVaults s) daoAddress ++ [vaultAddress])%list]>
                  (daoVaults s)) s in
    let s := set_vaultToDAO (<[vaultAddress := daoAddress]> (vaultToDAO s)) s in
    let s := set_allVaults (allVaults s ++ [vaultAddress]) s in
    n ← checked_add (vaultCount s) 1;
    let s := set_vaultCount n s in
    Ok (emit (VaultCreated vaultAddress daoAddress (msg_sender e)
                withdrawalLimit requiredSignatures) s).

Definition createVault (e : env) (vaultAddress daoAddress : address)
    (withdrawalLimit : uint256) : state -> result (address * state) :=
  fun s0 =>
    s ← nonReentrant (fun s =>
           _createVault e vaultAddress daoAddress withdrawalLimit
             (defaultRequiredSignatures s) s) s0;
    Ok (vaultAddress, s).

Definition createVaultWithCustomParams (e : env) (vaultAddress daoAddress : address)
    (withdrawalLimit requiredSignatures : uint256) : state -> result (address * state) :=
  fun s0 =>
    s ← nonReentrant
           (_createVault e vaultAddress daoAddress withdrawalLimit requiredSignatures) s0;
    Ok (vaultAddress, s).

Definition createDefaultVault (e : env) (vaultAddress daoAddress : address)
  : state -> result (address * state) :=
  fun s0 =>
    s ← nonReentrant (fun s =>
           _createVault e vaultAddress daoAddress (defaultWithdrawalLimit s)
             (defaultRequiredSignatures s) s) s0;
    Ok (vaultAddress, s).

Definition updateDefaultWithdrawalLimit (e : env) (newWithdrawalLimit : uint256)
  : state -> result state :=
  onlyOwner e (fun s =>
    require ((MIN_WITHDRAWAL_LIMIT <=? newWithdrawalLimit)
             && (newWithdrawalLimit <=? MAX_WITHDRAWAL_LIMIT))
      "Invalid withdrawal limit";;
    let s := set_defaultWithdrawalLimit newWithdrawalLimit s in
    Ok (emit (DefaultParametersUpdated (defaultWithdrawalLimit s)
                (defaultRequiredSignatures s)) s)).

Definition updateDefaultRequiredSignatures (e : env) (newRequiredSignatures : uint256)
  : state -> result state :=
  onlyOwner e (fun s =>
    require ((MIN_REQUIRED_SIGNATURES <=? newRequiredSignatures)
             && (newRequiredSignatures <=? MAX_REQUIRED_SIGNATURES))
      "Invalid required signatures";;
    let s := set_defaultRequiredSignatures newRequiredSignatures s in
    Ok (emit (DefaultParametersUpdated (defaultWithdrawalLimit s)
                (defaultRequiredSignatures s)) s)).

Definition updateDefaultParameters (e : env)
    (newWithdrawalLimit newRequiredSignatures : uint256) : state -> result state :=
  onlyOwner e (fun s =>
    require ((MIN_WITHDRAWAL_LIMIT <=? newWithdrawalLimit)
             && (newWithdrawalLimit <=? MAX_WITHDRAWAL_LIMIT))
      "Invalid withdrawal limit";;
    require ((MIN_REQUIRED_SIGNATURES <=? newRequiredSignatures)
             && (newRequiredSignatures <=? MAX_REQUIRED_SIGNATURES))
      "Invalid required signatures";;
    let s := set_defaultWithdrawalLimit newWithdrawalLimit s in
    let s := set_defaultRequiredSignatures newRequiredSignatures s in
    Ok (emit (DefaultParametersUpdated (defaultWithdrawalLimit s)
                (defaultRequiredSignatures s)) s)).

Definition emergencyRemoveVault (e : env) (vaultAddress : address) : state -> result state :=
  onlyOwner e (fun s =>
    require (negb (vaultAddress =? 0)) "Invalid vault address";;
    require (negb (getu (vaultToDAO s) vaultAddress =? 0)) "Vault not found";;
    let daoAddress := getu (vaultToDAO s) vaultAddress in
    let s := set_daoVaults
               (<[daoAddress := swap_remove vaultAddress (getl (daoVaults s) daoAddress)]>
                  (daoVaults s)) s in
    let s := set_allVaults (swap_remove vaultAddress (allVaults s)) s in
    let s := set_vaultToDAO (delete vaultAddress (vaultToDAO s)) s in
    n ← checked_sub (vaultCount s) 1;
    Ok (set_vaultCount n s)).

Definition getDAOVaults (s : state) (daoAddress : address) : list address :=
  getl (daoVaults s) daoAddress.

Definition getVaultDAO (s : state) (vaultAddress : address) : address :=
  getu (vaultToDAO s) vaultAddress.

Definition getAllVaults (s : state) : list address := allVaults s.

Definition getDAOVaultCount (s : state) (daoAddress : address) : uint256 :=
  Z.of_nat (length (getl (daoVaults s) daoAddress)).

Definition isVaultFromFactory (s : state) (vaultAddress : address) : bool :=
  negb (getu (vaultToDAO s) vaultAddress =? 0).

(** The loop of [getFactoryStats] over [allVaults], from the vaults still to
    visit and the running [daoCount]. *)
Fixpoint count_daos (s : state) (vaults : list address) (daoCount : uint256)
  : result uint256 :=
  match vaults with
  | [] => Ok daoCount
  | v :: vaults' =>
      let daoAddr := getu (vaultToDAO s) v in
      n ← (if negb (daoAddr =? 0) && (0 <? Z.of_nat (length (getl (daoVaults s) daoAddr)))
           then checked_add daoCount 1
           else Ok daoCount);
      count_daos s vaults' n
  end.

(** [getFactoryStats()]: (totalVaults, totalDAOsWithVaults,
    averageVaultsPerDAO). *)
Definition getFactoryStats (s : state) : result (uint256 * uint256 * uint256) :=
  let totalVaults := vaultCount s in
  daoCount ← count_daos s (allVaults s) 0;
  let totalDAOsWithVaults := daoCount in
  let averageVaultsPerDAO := if 0 <? daoCount then totalVaults / daoCount else 0 in
  Ok (totalVaults, totalDAOsWithVaults, averageVaultsPerDAO).

(** The entry points that change state, and a transaction log. The three
    creation calls carry the address the chain gives the new vault. *)
Inductive call :=
| CreateVault (vaultAddress daoAddress : address) (withdrawalLimit : uint256)
| CreateVaultWithCustomParams (vaultAddress daoAddress : address)
    (withdrawalLimit requiredSignatures : uint256)
| CreateDefaultVault (vaultAddress daoAddress : address)
| UpdateDefaultWithdrawalLimit (newWithdrawalLimit : uint256)
| UpdateDefaultRequiredSignatures (newRequiredSignatures : uint256)
| UpdateDefaultParameters (newWithdrawalLimit newRequiredSignatures : uint256)
| EmergencyRemoveVault (vaultAddress : address)
| TransferOwnership (newOwner : address)
| RenounceOwnership.

Definition exec (e : env) (c : call) : state -> result state :=
  match c with
  | CreateVault v d l => fun s => r ← createVault e v d l s; Ok r.2
  | CreateVaultWithCustomParams v d l n =>
      fun s => r ← createVaultWithCustomParams e v d l n s; Ok r.2
  | CreateDefaultVault v d => fun s => r ← createDefaultVault e v d s; Ok r.2
  | UpdateDefaultWithdrawalLimit l => updateDefaultWithdrawalLimit e l
  | UpdateDefaultRequiredSignatures n => updateDefaultRequiredSignatures e n
  | UpdateDefaultParameters l n => updateDefaultParameters e l n
  | EmergencyRemoveVault v => emergencyRemoveVault e v
  | TransferOwnership a => transferOwnership e a
  | RenounceOwnership => renounceOwnership e
  end.

Definition run (txs : list (env * call)) (s : state) : state :=
  fold_left (fun s tx => transact (exec tx.1 tx.2) s) txs s.

(** The address of a contract made by [new] is not zero and holds no
    contract yet: [new_address c s] says so of the address a creation call
    carries. *)
Definition new_address (c : call) (s : state) : bool :=
  match c with
  | CreateVault v _ _ | CreateVaultWithCustomParams v _ _ _ | CreateDefaultVault v _ =>
      negb (v =? 0) && bool_decide (deployed s !! v = None)
  | _ => true
  end.

Fixpoint new_addresses (txs : list (env * call)) (s : state) : bool :=
  match txs with
  | [] => true
  | tx :: txs' => new_address tx.2 s && new_addresses txs' (transact (exec tx.1 tx.2) s)
  end.

End VaultFactory.

(** ** Contract DAOFactory *)

Module DAOFactory.

Inductive event :=
| DAOCreated (daoAddress creator : address) (name : string)
| VaultRegistered (daoAddress vaultAddress : address)
| VaultUnregistered (daoAddress vaultAddress : address).

(** The storage of the factory, with two things the chain holds for it: its
    own address [this] and the DAO contracts it deployed with [new DAO], as
    their constructor left them ([deployed], keyed by address). *)
Record state := {
  this : address;
  deployed : gmap Z DAO.state;
  userDAOs : gmap Z (list Z);
  daoToVault : gmap Z Z;
  vaultToDAO : gmap Z Z;
  allDAOs : list address;
  daoCount : uint256;
  _owner : address;
  _paused : bool;
  _status : bool;
  events : list event
}.

Definition MAX_DAOS_PER_USER : Z := 10.

Definition set_deployed v s :=
  {| this := this s; deployed := v; userDAOs := userDAOs s;
     daoToVault := daoToVault s; vaultToDAO := vaultToDAO s;
     allDAOs := allDAOs s; daoCount := daoCount s; _owner := _owner s;
     _paused := _paused s; _status := _status s; events := events s |}.
Definition set_userDAOs v s :=
  {| this := this s; deployed := deployed s; userDAOs := v;
     daoToVault := daoToVault s; vaultToDAO := vaultToDAO s;
     allDAOs := allDAOs s; daoCount := daoCount s; _owner := _owner s;
     _paused := _paused s; _status := _status s; events := events s |}.
Definition set_daoToVault v s :=
  {| this := this s; deployed := deployed s; userDAOs := userDAOs s;
     daoToVault := v; vaultToDAO := vaultToDAO s; allDAOs := allDAOs s;
     daoCount := daoCount s; _owner := _owner s; _paused := _paused s;
     _status := _status s; events := events s |}.
Definition set_vaultToDAO v s :=
  {| this := this s; deployed := deployed s; userDAOs := userDAOs s;
     daoToVault := daoToVault s; vaultToDAO := v; allDAOs := allDAOs s;
     daoCount := daoCount s; _owner := _owner s; _paused := _paused s;
     _status := _status s; events := events s |}.
Definition set_allDAOs v s :=
  {| this := this s; deployed := deployed s; userDAOs := userDAOs s;
     daoToVault := daoToVault s; vaultToDAO := vaultToDAO s; allDAOs := v;
     daoCount := daoCount s; _owner := _owner s; _paused := _paused s;
     _status := _status s; events := events s |}.
Definition set_daoCount v s :=
  {| this := this s; deployed := deployed s; userDAOs := userDAOs s;
     daoToVault := daoToVault s; vaultToDAO := vaultToDAO s;
     allDAOs := allDAOs s; daoCount := v; _owner := _owner s;
     _paused := _paused s; _status := _status s; events := events s |}.
Definition set_owner v s :=
  {| this := this s; deployed := deployed s; userDAOs := userDAOs s;
     daoToVault := daoToVault s; vaultToDAO := vaultToDAO s;
     allDAOs := allDAOs s; daoCount := daoCount s; _owner := v;
     _paused := _paused s; _status := _status s; events := events s |}.
Definition set_paused v s :=
  {| this := this s; deployed := deployed s; userDAOs := userDAOs s;
     daoToVault := daoToVault s; vaultToDAO := vaultToDAO s;
     allDAOs := allDAOs s; daoCount := daoCount s; _owner := _owner s;
     _paused := v; _status := _status s; events := events s |}.
Definition set_status v s :=
  {| this := this s; deployed := deployed s; userDAOs := userDAOs s;
     daoToVault := daoToVault s; vaultToDAO := vaultToDAO s;
     allDAOs := allDAOs s; daoCount := daoCount s; _owner := _owner s;
     _paused := _paused s; _status := v; events := events s |}.
Definition emit (ev : event) s :=
  {| this := this s; deployed := deployed s; userDAOs := userDAOs s;
     daoToVault := daoToVault s; vaultToDAO := vaultToDAO s;
     allDAOs := allDAOs s; daoCount := daoCount s; _owner := _owner s;
     _paused := _paused s; _status := _status s;
     events := events s ++ [ev] |}.

#[global] Instance ownable : Ownable state :=
  {| owner := _owner; _setOwner := set_owner |}.
#[global] Instance pausable : Pausable state :=
  {| paused := _paused; _setPaused := set_paused |}.
#[global] Instance guard : ReentrancyGuard state :=
  {| _entered := _status; _setEntered := set_status |}.

Definition constructor (e : env) (self : address) : state :=
  {| this := self; deployed := ∅; userDAOs := ∅; daoToVault := ∅; vaultToDAO := ∅;
     allDAOs := []; daoCount := 0; _owner := msg_sender e; _paused := false;
     _status := false; events := [] |}.

(** [daoAddress] is the address the chain gives the new contract; the DAO
    constructor runs with the factory as [msg.sender]. *)
Definition createDAO (e : env) (daoAddress : address) (name : string)
  : state -> result (address * state) :=
  fun s0 =>
    s ← whenNotPaused (nonReentrant (fun s =>
           require (0 <? Z.of_nat (String.length name)) "DAO name cannot be empty";;
           require (Z.of_nat (String.length name) <=? 100) "DAO name too long";;
           require (Z.of_nat (length (getl (userDAOs s) (msg_sender e))) <? MAX_DAOS_PER_USER)
             "Max DAOs per user exceeded";;
           let from_factory :=
             {| msg_sender := this s; block_timestamp := block_timestamp e |} in
           newDAO ← DAO.constructor from_factory name (msg_sender e);
           let s := set_deployed (<[daoAddress := newDAO]> (deployed s)) s in
           let s := set_userDAOs
                      (<[msg_sender e := (getl (userDAOs s) (msg_sender e) ++ [daoAddress])%list]>
                         (userDAOs s)) s in
           let s := set_allDAOs (allDAOs s ++ [daoAddress]) s in
           n ← checked_add (daoCount s) 1;
           let s := set_daoCount n s in
           Ok (emit (DAOCreated daoAddress (msg_sender e) name) s))) s0;
    Ok (daoAddress, s).

(** [DAO(daoAddress).owner()], a static call to whatever contract is at
    [daoAddress] when the factory asks: the address it answers with, or no
    answer (the callee reverts, there is no contract, or what comes back is
    no address), on which the factory reverts. *)
Inductive owner_call :=
| OwnerIs (a : address)
| OwnerCallFailed.

Definition dao_owner (o : owner_call) : result address :=
  match o with
  | OwnerIs a => Ok a
  | OwnerCallFailed => Revert ""
  end.

Definition registerVault (e : env) (x : owner_call) (daoAddress vaultAddress : address)
  : state -> result state :=
  whenNotPaused (nonReentrant (fun s =>
    require (negb (daoAddress =? 0)) "Invalid DAO address";;
    require (negb (vaultAddress =? 0)) "Invalid vault address";;
    require (getu (daoToVault s) daoAddress =? 0) "DAO already has a vault";;
    require (getu (vaultToDAO s) vaultAddress =? 0) "Vault already registered";;
    o ← dao_owner x;
    require (o =? msg_sender e) "Only DAO owner can register vault";;
    let s := set_daoToVault (<[daoAddress := vaultAddress]> (daoToVault s)) s in
    let s := set_vaultToDAO (<[vaultAddress := daoAddress]> (vaultToDAO s)) s in
    Ok (emit (VaultRegistered daoAddress vaultAddress) s))).

Definition unregisterVault (e : env) (x : owner_call) (daoAddress : address)
  : state -> result state :=
  whenNotPaused (nonReentrant (fun s =>
    require (negb (daoAddress =? 0)) "Invalid DAO address";;
    require (negb (getu (daoToVault s) daoAddress =? 0)) "No vault registered for this DAO";;
    o ← dao_owner x;
    require (o =? msg_sender e) "Only DAO owner can unregister vault";;
    let vaultAddress := getu (daoToVault s) daoAddress in
    let s := set_daoToVault (delete daoAddress (daoToVault s)) s in
    let s := set_vaultToDAO (delete vaultAddress (vaultToDAO s)) s in
    Ok (emit (VaultUnregistered daoAddress vaultAddress) s))).

Definition getUserDAOs (s : state) (user : address) : list address :=
  getl (userDAOs s) user.

Definition getDAOVault (s : state) (daoAddress : address) : address :=
  getu (daoToVault s) daoAddress.

Definition getVaultDAO (s : state) (vaultAddress : address) : address :=
  getu (vaultToDAO s) vaultAddress.

Definition getAllDAOs (s : state) : list address := allDAOs s.

Definition pause (e : env) : state -> result state := onlyOwner e _pause.
Definition unpause (e : env) : state -> result state := onlyOwner e _unpause.

Definition emergencyRemoveDAO (e : env) (daoAddress : address) : state -> result state :=
  onlyOwner e (fun s =>
    require (negb (daoAddress =? 0)) "Invalid DAO address";;
    let s := set_allDAOs (swap_remove daoAddress (allDAOs s)) s in
    let vaultAddress := getu (daoToVault s) daoAddress in
    let s :=
      if negb (vaultAddress =? 0)
      then
        let s := set_daoToVault (delete daoAddress (daoToVault s)) s in
        set_vaultToDAO (delete vaultAddress (vaultToDAO s)) s
      else s in
    n ← checked_sub (daoCount s) 1;
    Ok (set_daoCount n s)).

(** The entry points that change state, and a transaction log. *)
Inductive call :=
| CreateDAO (daoAddress : address) (name : string)
| RegisterVault (x : owner_call) (daoAddress vaultAddress : address)
| UnregisterVault (x : owner_call) (daoAddress : address)
| Pause
| Unpause
| EmergencyRemoveDAO (daoAddress : address)
| TransferOwnership (newOwner : address)
| RenounceOwnership.

Definition exec (e : env) (c : call) : state -> result state :=
  match c with
  | CreateDAO a n => fun s => r ← createDAO e a n s; Ok r.2
  | RegisterVault x d v => registerVault e x d v
  | UnregisterVault x d => unregisterVault e x d
  | Pause => pause e
  | Unpause => unpause e
  | EmergencyRemoveDAO d => emergencyRemoveDAO e d
  | TransferOwnership a => transferOwnership e a
  | RenounceOwnership => renounceOwnership e
  end.

Definition run (txs : list (env * call)) (s : state) : state :=
  fold_left (fun s tx => transact (exec tx.1 tx.2) s) txs s.

End DAOFactory.

(** ** Invariants *)

(** The three records of DAO membership agree. *)
Definition members_recorded (s : DAO.state) : Prop :=
  NoDup (DAO.memberList s)
  /\ (forall a, getb (DAO.members s) a = true <-> a ∈ DAO.memberList s)
  /\ DAO.memberCount s = Z.of_nat (length (DAO.memberList s)).

(** The three records of DAO membership agree, and the owner is a member. *)
Definition members_consistent (s : DAO.state) : Prop :=
  NoDup (DAO.memberList s)
  /\ (forall a, getb (DAO.members s) a = true <-> a ∈ DAO.memberList s)
  /\ DAO.memberCount s = Z.of_nat (length (DAO.memberList s))
  /\ getb (DAO.members s) (owner s) = true.

(** What a successful [executeProposal] leaves behind. *)
Definition executed_state (proposalId : uint256) (s : DAO.state) : DAO.state :=
  DAO.emit (DAO.ProposalExecuted proposalId true)
    (DAO.store_proposal proposalId
       (DAO.mark_executed (DAO.proposal_at s proposalId)) s).

(** ** Example deployments *)

Definition at_time (sender : address) (now : uint256) : env :=
  {| msg_sender := sender; block_timestamp := now |}.

(** A DAO owned by address 7 with one proposal, one yes vote of the owner,
    paused by the owner before the deadline (4600). *)
Definition paused_dao : DAO.state :=
  DAO.run
    [(at_time 7 1000, DAO.Propose "T" "D" 3600);
     (at_time 7 1001, DAO.Vote 1 true);
     (at_time 7 1002, DAO.Pause)]
    (transact (fun _ => DAO.constructor (at_time 99 1000) "Test DAO" 7)
       (DAO.initial (at_time 99 1000))).

(** An external call of the vault during which the callee does not call
    back. *)
Definition no_callback (eth : bool) (token : token_outcome) : Vault.external :=
  {| Vault.callbacks := []; Vault.eth_call := eth; Vault.token_call := token |}.

(** The number of authorized signers, [signerList.length]. *)
Definition signer_count (s : Vault.state) : Z :=
  Z.of_nat (length (Vault.signerList s)).

(** [signerList] lists the signers of the [authorizedSigners] mapping, once
    each. *)
Definition signers_consistent (s : Vault.state) : Prop :=
  NoDup (Vault.signerList s)
  /\ (forall a, getb (Vault.authorizedSigners s) a = true <-> a ∈ Vault.signerList s).

(** A vault of owner 1 (also its DAO caller is 50) with signers 1 and 2,
    [requiredSignatures = 1], [withdrawalLimit = 10] and 100 wei. *)
Definition two_signer_vault : Vault.state :=
  Vault.run
    [(at_time 1 0, Vault.AddSigner 2);
     (at_time 9 0, Vault.DepositETH 100)]
    (transact (fun _ => Vault.constructor (at_time 1 0) 50 10 1)
       (Vault.initial (at_time 1 0))).

(** A VaultFactory at address 500, deployed by address 1 with the defaults of
    the deployment script (1 ether, one signature). *)
Definition example_vault_factory : VaultFactory.state :=
  {| VaultFactory.this := 500; VaultFactory.deployed := ∅;
     VaultFactory.daoVaults := ∅; VaultFactory.vaultToDAO := ∅;
     VaultFactory.allVaults := []; VaultFactory.vaultCount := 0;
     VaultFactory.defaultWithdrawalLimit := 10 ^ 18;
     VaultFactory.defaultRequiredSignatures := 1;
     VaultFactory._owner := 1; VaultFactory._status := false;
     VaultFactory.events := [] |}.

(** The vault [v] has the factory as its one authorized signer and the caller
    of the creation as its owner, who is no signer; its parameters are the
    DAO, the limit and the number of signatures of the creation. *)
Definition created_for (factory caller dao : address) (limit r : uint256)
    (v : Vault.state) : Prop :=
  Vault.getSigners v = [factory]
  /\ length (Vault.getSigners v) = 1%nat
  /\ getb (Vault.authorizedSigners v) factory = true
  /\ owner v = caller
  /\ getb (Vault.authorizedSigners v) caller = false
  /\ (caller ∉ Vault.getSigners v)
  /\ Vault.daoAddress v = dao
  /\ Vault.withdrawalLimit v = limit
  /\ Vault.requiredSignatures v = r.

(** A vault of owner and signer 1 ([requiredSignatures = 1],
    [withdrawalLimit = 10], DAO caller 50) holding 100 units of the ERC20
    token at address 5, with spending proposal 1: 50 units to address 77. *)
Definition token_vault : Vault.state :=
  Vault.run
    [(at_time 9 0, Vault.DepositToken (no_callback true (Returned true)) 5 100);
     (at_time 1 1, Vault.CreateSpendingProposal 5 50 77 "grant")]
    (transact (fun _ => Vault.constructor (at_time 1 0) 50 10 1)
       (Vault.initial (at_time 1 0))).

(** The two-signer vault after signer 2 called [emergencyPause]. *)
Definition paused_vault : Vault.state :=
  transact (Vault.emergencyPause (at_time 2 3) "incident") two_signer_vault.

(** Scenario B of the specification: [withdrawalLimit = 10],
    [requiredSignatures = 2], signers 1 and 2, 100 wei, proposal 1 (50 wei
    to address 77) approved by signer 1. *)
Definition scenario_vault : Vault.state :=
  Vault.run
    [(at_time 1 0, Vault.AddSigner 2);
     (at_time 9 0, Vault.DepositETH 100);
     (at_time 1 1, Vault.CreateSpendingProposal 0 50 77 "desc");
     (at_time 1 2, Vault.ApproveSpendingProposal
                     (no_callback true (CallReverted NoData)) 1)]
    (transact (fun _ => Vault.constructor (at_time 1 0) 50 10 2)
       (Vault.initial (at_time 1 0))).

(** A DAOFactory at address 400, deployed by address 1, after user 7 created
    one DAO (given address 700 by the chain). *)
Definition example_dao_factory : DAOFactory.state :=
  DAOFactory.run [(at_time 7 10, DAOFactory.CreateDAO 700 "Test DAO")]
    (DAOFactory.constructor (at_time 1 0) 400).

(** The same factory after user 7 created nine more DAOs (addresses 701 to
    709). *)
Definition full_dao_factory : DAOFactory.state :=
  DAOFactory.run
    (map (fun a => (at_time 7 11, DAOFactory.CreateDAO a "DAO"))
       [701; 702; 703; 704; 705; 706; 707; 708; 709])
    example_dao_factory.

(** A name of 101 bytes. *)
Definition long_name : string := string_of_list_ascii (repeat "a"%char 101).

(** The counters of a DAO stay far from the [uint256] limit, and no vote
    count is negative. *)
Definition counters_in_range (s : DAO.state) : Prop :=
  0 <= DAO.memberCount s <= 1000
  /\ 1 <= DAO.quorumPercentage s <= 100
  /\ (forall i, 0 <= DAO.yesVotes (DAO.proposal_at s i)
                /\ 0 <= DAO.noVotes (DAO.proposal_at s i)).

(** The payouts of spending proposal [i] recorded in the event log: the
    [SpendingProposalExecuted(i, true)] events. *)
Definition is_payout (i : uint256) (ev : Vault.event) : bool :=
  match ev with
  | Vault.SpendingProposalExecuted j true => j =? i
  | _ => false
  end.

Definition payouts (i : uint256) (s : Vault.state) : nat :=
  length (List.filter (is_payout i) (Vault.events s)).

(** A proposal has paid out at most once, and only if it is marked
    executed. *)
Definition payouts_bounded (s : Vault.state) : Prop :=
  forall i, (payouts i s <= if Vault.executed (Vault.proposal_at s i) then 1 else 0)%nat.

(** Addresses are 160-bit numbers. *)
Definition ADDRESS_BOUND : Z := 2 ^ 160.

Definition is_address (a : Z) : Prop := 0 <= a < ADDRESS_BOUND.

(** The votes of a proposal are counted once per voter: the two counters add
    up to the number of addresses recorded in [hasVoted]. *)
Definition votes_counted (p : DAO.Proposal) : Prop :=
  0 <= DAO.yesVotes p /\ 0 <= DAO.noVotes p
  /\ DAO.yesVotes p + DAO.noVotes p = Z.of_nat (size (dom (DAO.hasVoted p)))
  /\ (forall a, a ∈ dom (DAO.hasVoted p) ->
        getb (DAO.hasVoted p) a = true /\ is_address a).

Definition votes_consistent (s : DAO.state) : Prop :=
  forall i, votes_counted (DAO.proposal_at s i).

(** ** Invariants and examples of the further properties *)

(** Proposals beyond the counter are storage never written. *)
Definition proposals_fresh (s : DAO.state) : Prop :=
  0 <= DAO.proposalCount s
  /\ forall i, DAO.proposalCount s < i -> DAO.proposals s !! i = None.

(** A DAO of owner 7 and member 8 with one proposal (deadline 4600) on which
    the owner voted yes. *)
Definition voting_dao : DAO.state :=
  DAO.run
    [(at_time 7 1000, DAO.AddMember 8);
     (at_time 8 1000, DAO.Propose "T" "D" 3600);
     (at_time 7 1001, DAO.Vote 1 true)]
    (transact (fun _ => DAO.constructor (at_time 99 1000) "Test DAO" 7)
       (DAO.initial (at_time 99 1000))).

(** The approvals of a spending proposal are counted once per approver. *)
Definition approvals_counted (p : Vault.SpendingProposal) : Prop :=
  Vault.approvals p = Z.of_nat (size (dom (Vault.hasApproved p)))
  /\ (forall a, a ∈ dom (Vault.hasApproved p) -> getb (Vault.hasApproved p) a = true).

(** How spending proposal [i] may differ between a state and a later one:
    the counter does not go down; an existing proposal keeps its terms;
    approvals are not withdrawn; an executed proposal stays executed with the
    approvals it has; the count of approvals stays right; storage beyond the
    counter stays unwritten. *)
Definition proposal_evolves (i : uint256) (s s' : Vault.state) : Prop :=
  let p := Vault.proposal_at s i in
  let p' := Vault.proposal_at s' i in
  Vault.spendingProposalCount s <= Vault.spendingProposalCount s'
  /\ (i <= Vault.spendingProposalCount s ->
      Vault.id p' = Vault.id p /\ Vault.token p' = Vault.token p
      /\ Vault.amount p' = Vault.amount p /\ Vault.recipient p' = Vault.recipient p
      /\ Vault.description p' = Vault.description p
      /\ Vault.deadline p' = Vault.deadline p)
  /\ (forall a, getb (Vault.hasApproved p) a = true ->
                getb (Vault.hasApproved p') a = true)
  /\ (Vault.executed p = true ->
      Vault.executed p' = true /\ Vault.approvals p' = Vault.approvals p)
  /\ (approvals_counted p -> approvals_counted p')
  /\ (Vault.spendingProposalCount s' < i -> p = Vault.empty_proposal ->
      p' = Vault.empty_proposal).

(** The books of a vault, read off its event log: what an event adds to the
    tracked balance of token [t], and what it takes off. A successful
    execution of a spending proposal takes off the amount of that proposal. *)
Definition credited (t : address) (ev : Vault.event) : Z :=
  match ev with
  | Vault.Deposit t' _ a => if t' =? t then a else 0
  | _ => 0
  end.

Definition debited (s : Vault.state) (t : address) (ev : Vault.event) : Z :=
  match ev with
  | Vault.Withdrawal t' _ a => if t' =? t then a else 0
  | Vault.SpendingProposalExecuted i true =>
      if Vault.token (Vault.proposal_at s i) =? t
      then Vault.amount (Vault.proposal_at s i)
      else 0
  | _ => 0
  end.

Definition ledger_of (s : Vault.state) (t : address) (evs : list Vault.event) : Z :=
  foldr (fun ev acc => credited t ev - debited s t ev + acc) 0 evs.

Definition ledger (s : Vault.state) (t : address) : Z :=
  ledger_of s t (Vault.events s).

(** What a list of events credits to the tracked balance of token [t]. *)
Definition deposited (t : address) (evs : list Vault.event) : Z :=
  foldr (fun ev acc => credited t ev + acc) 0 evs.

(** The events of the entry points a callee can reach while an external call
    of the vault runs: [receive], [updateWithdrawalLimit] and
    [emergencyPause]. *)
Definition is_callback_event (ev : Vault.event) : bool :=
  match ev with
  | Vault.Deposit t _ _ => t =? 0
  | Vault.EmergencyPause _ _ | Vault.WithdrawalLimitUpdated _ _ => true
  | _ => false
  end.

(** What calls back into the vault can do between [s] and [s'], logging
    [evs]: credit plain ETH transfers, move [requiredSignatures] within the
    signer count, change the withdrawal limit, the pause and the owner. The
    proposals, the signers, the token balances, the supported tokens and the
    re-entrancy status stay as they are. *)
Definition reentered (s s' : Vault.state) (evs : list Vault.event) : Prop :=
  Vault.events s' = (Vault.events s ++ evs)%list
  /\ Forall (fun ev => is_callback_event ev = true) evs
  /\ (forall t, Vault.getBalance s' t = Vault.getBalance s t + deposited t evs)
  /\ (forall t, t <> 0 -> deposited t evs = 0)
  /\ Vault.spendingProposals s' = Vault.spendingProposals s
  /\ Vault.spendingProposalCount s' = Vault.spendingProposalCount s
  /\ Vault.authorizedSigners s' = Vault.authorizedSigners s
  /\ Vault.signerList s' = Vault.signerList s
  /\ Vault.supportedTokens s' = Vault.supportedTokens s
  /\ Vault.daoAddress s' = Vault.daoAddress s
  /\ _entered s' = _entered s
  /\ (Vault.requiredSignatures s' = Vault.requiredSignatures s
      \/ 1 <= Vault.requiredSignatures s' <= signer_count s).

(** The tracked balances agree with the log, and the log speaks of existing
    proposals only. *)
Definition books_balance (s : Vault.state) : Prop :=
  (forall t, Vault.getBalance s t = ledger s t)
  /\ (forall i b, Vault.SpendingProposalExecuted i b ∈ Vault.events s ->
                  i <= Vault.spendingProposalCount s).

(** [supportedTokens] lists, once each, the tokens of the [Deposit] events
    other than the native asset. *)
Definition tokens_listed (s : Vault.state) : Prop :=
  NoDup (Vault.supportedTokens s)
  /\ (forall t, t ∈ Vault.supportedTokens s <->
                t <> 0 /\ exists depositor a, Vault.Deposit t depositor a ∈ Vault.events s).

(** The registry of a VaultFactory is consistent: [allVaults] lists without
    repetition the vaults [vaultToDAO] maps to a DAO, [daoVaults] is the
    inverse of [vaultToDAO], [vaultCount] counts [allVaults], every listed
    vault is a contract the factory deployed, and no DAO has more than
    [MAX_VAULTS_PER_DAO] vaults. *)
Definition registry_consistent (s : VaultFactory.state) : Prop :=
  NoDup (VaultFactory.allVaults s)
  /\ (forall v, v ∈ VaultFactory.allVaults s <-> getu (VaultFactory.vaultToDAO s) v <> 0)
  /\ (forall d, NoDup (getl (VaultFactory.daoVaults s) d))
  /\ (forall d v, v ∈ getl (VaultFactory.daoVaults s) d <->
                  d <> 0 /\ getu (VaultFactory.vaultToDAO s) v = d)
  /\ VaultFactory.vaultCount s = Z.of_nat (length (VaultFactory.allVaults s))
  /\ VaultFactory.vaultCount s <= MAX_UINT256
  /\ (forall v, v ∈ VaultFactory.allVaults s -> is_Some (VaultFactory.deployed s !! v))
  /\ (forall d, Z.of_nat (length (getl (VaultFactory.daoVaults s) d))
                <= VaultFactory.MAX_VAULTS_PER_DAO).

(** The defaults of a VaultFactory are within the bounds of the contract, and
    no guarded function is running. *)
Definition defaults_in_range (s : VaultFactory.state) : Prop :=
  VaultFactory.MIN_WITHDRAWAL_LIMIT <= VaultFactory.defaultWithdrawalLimit s
    <= VaultFactory.MAX_WITHDRAWAL_LIMIT
  /\ VaultFactory.MIN_REQUIRED_SIGNATURES <= VaultFactory.defaultRequiredSignatures s
       <= VaultFactory.MAX_REQUIRED_SIGNATURES
  /\ _entered s = false.

(** The example factory after user 7 created two vaults for DAO 50 and one
    for DAO 60. *)
Definition three_vault_factory : VaultFactory.state :=
  VaultFactory.run
    [(at_time 7 10, VaultFactory.CreateDefaultVault 600 50);
     (at_time 7 11, VaultFactory.CreateVault 601 50 (2 * 10 ^ 18));
     (at_time 7 12, VaultFactory.CreateDefaultVault 602 60)]
    example_vault_factory.

(** The two registry mappings of a DAOFactory are inverse to each other. *)
Definition vault_registry_consistent (s : DAOFactory.state) : Prop :=
  forall d v,
    getu (DAOFactory.daoToVault s) d = v /\ v <> 0
    <-> getu (DAOFactory.vaultToDAO s) v = d /\ d <> 0.

(** * Properties *)

(** ** The result monad *)

Lemma bind_Ok_inv {A B} (m : result A) (k : A -> result B) (b : B) :
  (m ≫= k) = Ok b -> exists a, m = Ok a /\ k a = Ok b.
Proof. destruct m; cbn; intros Hk; try discriminate. eauto. Qed.

Lemma require_Ok_inv (c : bool) (msg : string) (u : unit) :
  require c msg = Ok u -> c = true.
Proof. destruct c; cbn; [reflexivity | discriminate]. Qed.

Lemma bind_Ok {A B} (a : A) (k : A -> result B) : (Ok a ≫= k) = k a.
Proof. reflexivity. Qed.

Lemma checked_add_Ok (a b : Z) : a + b <= MAX_UINT256 -> checked_add a b = Ok (a + b).
Proof. intros Hle. unfold checked_add. by replace (a + b <=? MAX_UINT256) with true by lia. Qed.

Lemma checked_sub_Ok (a b : Z) : b <= a -> checked_sub a b = Ok (a - b).
Proof. intros Hle. unfold checked_sub. by replace (b <=? a) with true by lia. Qed.

Lemma checked_add_Ok_inv (a b c : Z) :
  checked_add a b = Ok c -> c = a + b /\ a + b <= MAX_UINT256.
Proof. unfold checked_add. destruct (Z.leb_spec (a + b) MAX_UINT256); naive_solver. Qed.

Lemma checked_sub_Ok_inv (a b c : Z) :
  checked_sub a b = Ok c -> c = a - b /\ b <= a.
Proof. unfold checked_sub. destruct (Z.leb_spec b a); naive_solver. Qed.

Lemma checked_mul_Ok_inv (a b c : Z) :
  checked_mul a b = Ok c -> c = a * b /\ a * b <= MAX_UINT256.
Proof. unfold checked_mul. destruct (Z.leb_spec (a * b) MAX_UINT256); naive_solver. Qed.

(** Take a successful call apart, one [require] or checked operation at a
    time. *)
Ltac inv_call H :=
  cbv beta zeta in H;
  lazymatch type of H with
  | (require _ _ ≫= _) = Ok _ =>
      let c := fresh "Hreq" in
      let u := fresh "u" in
      apply bind_Ok_inv in H as (u & c & H);
      apply require_Ok_inv in c; inv_call H
  | (checked_add _ _ ≫= _) = Ok _ =>
      let c := fresh "Hadd" in
      let n := fresh "n" in
      apply bind_Ok_inv in H as (n & c & H);
      apply checked_add_Ok_inv in c as [-> c]; inv_call H
  | (checked_sub _ _ ≫= _) = Ok _ =>
      let c := fresh "Hsub" in
      let n := fresh "n" in
      apply bind_Ok_inv in H as (n & c & H);
      apply checked_sub_Ok_inv in c as [-> c]; inv_call H
  | (checked_mul _ _ ≫= _) = Ok _ =>
      let c := fresh "Hmul" in
      let n := fresh "n" in
      apply bind_Ok_inv in H as (n & c & H);
      apply checked_mul_Ok_inv in c as [-> c]; inv_call H
  | (_ ≫= _) = Ok _ =>
      let c := fresh "Hcall" in
      let n := fresh "r" in
      apply bind_Ok_inv in H as (n & c & H);
      inv_call c; inv_call H
  | require _ _ = Ok _ => apply require_Ok_inv in H
  | checked_add _ _ = Ok _ =>
      let c := fresh "Hadd" in apply checked_add_Ok_inv in H as [-> c]
  | checked_sub _ _ = Ok _ =>
      let c := fresh "Hsub" in apply checked_sub_Ok_inv in H as [-> c]
  | checked_mul _ _ = Ok _ =>
      let c := fresh "Hmul" in apply checked_mul_Ok_inv in H as [-> c]
  | (if ?b then _ else _) = Ok _ =>
      let c := fresh "Hif" in
      destruct b eqn:c; inv_call H
  | Ok _ = Ok _ => first [injection H as <- | injection H as H]
  | Revert _ = Ok _ => discriminate H
  | Panic _ = Ok _ => discriminate H
  | _ => idtac
  end.

(** ** Mapping reads *)

Lemma getb_insert `{Countable K} (m : gmap K bool) (k k' : K) (b : bool) :
  getb (<[k := b]> m) k' = if decide (k = k') then b else getb m k'.
Proof. unfold getb. rewrite lookup_insert. by case_decide. Qed.

Lemma getu_insert `{Countable K} (m : gmap K Z) (k k' : K) (v : Z) :
  getu (<[k := v]> m) k' = if decide (k = k') then v else getu m k'.
Proof. unfold getu. rewrite lookup_insert. by case_decide. Qed.

Lemma getu_delete `{Countable K} (m : gmap K Z) (k k' : K) :
  getu (delete k m) k' = if decide (k = k') then 0 else getu m k'.
Proof. unfold getu. rewrite lookup_delete. by case_decide. Qed.

(** ** The removal loop *)

Section SwapRemove.
Implicit Types (x y z : Z) (l : list Z).

(** The loop stops at the first index holding [x]. *)
Lemma remove_loop_found x l (k : nat) : forall (n i : nat),
  (forall j : nat, (i <= j < k)%nat -> l !! j <> Some x) ->
  l !! k = Some x -> (i <= k)%nat -> (k < i + n)%nat ->
  remove_loop x l i n =
    match last l with
    | Some z => removelast (<[k := z]> l)
    | None => l
    end.
Proof.
  induction n as [|n IH]; intros i Hbefore Hk Hik Hkn; [lia|].
  cbn [remove_loop].
  destruct (decide (i = k)) as [->|Hne].
  - rewrite Hk, Z.eqb_refl. reflexivity.
  - destruct (l !! i) as [y|] eqn:Hi.
    + destruct (Z.eqb_spec y x) as [->|_].
      * exfalso. apply (Hbefore i); [lia | assumption].
      * apply IH; [|assumption|lia|lia].
        intros j Hj. apply Hbefore. lia.
    + apply lookup_ge_None in Hi. apply lookup_lt_Some in Hk. lia.
Qed.

(** Without [x] in the rest of the array the loop changes nothing. *)
Lemma remove_loop_absent x l : forall (n i : nat),
  (forall j : nat, (i <= j)%nat -> l !! j <> Some x) ->
  remove_loop x l i n = l.
Proof.
  induction n as [|n IH]; intros i Habsent; [reflexivity|].
  cbn [remove_loop].
  destruct (l !! i) as [y|] eqn:Hi; [|reflexivity].
  destruct (Z.eqb_spec y x) as [->|_].
  - exfalso. apply (Habsent i); [lia | assumption].
  - apply IH. intros j Hj. apply Habsent. lia.
Qed.

Lemma swap_remove_absent x l : x ∉ l -> swap_remove x l = l.
Proof.
  intros Hx. apply remove_loop_absent.
  intros j _ Hj. apply Hx. eapply list_elem_of_lookup_2, Hj.
Qed.

(** Removing the first [x] moves the last element into its place. *)
Lemma swap_remove_first x l1 l2 :
  x ∉ l1 -> swap_remove x (l1 ++ x :: l2) ≡ₚ l1 ++ l2.
Proof.
  intros Hx. unfold swap_remove.
  rewrite (remove_loop_found x _ (length l1)).
  - destruct (decide (l2 = [])) as [->|Hl2].
    + rewrite last_snoc, list_insert_id by (by rewrite list_lookup_middle).
      by rewrite removelast_last, app_nil_r.
    + destruct (last l2) as [z|] eqn:Hz; [|by apply last_None in Hz].
      apply last_Some in Hz as [l2' ->].
      rewrite app_comm_cons, app_assoc, last_snoc, <- app_assoc, <- app_comm_cons.
      rewrite insert_app_r_alt, Nat.sub_diag by lia.
      change (<[0%nat := z]> (x :: l2' ++ [z])) with (z :: l2' ++ [z]).
      rewrite app_comm_cons, app_assoc, removelast_last.
      apply Permutation_app_head, Permutation_cons_append.
  - intros j [_ Hj] Hl. rewrite lookup_app_l in Hl by lia.
    apply Hx. eapply list_elem_of_lookup_2, Hl.
  - by rewrite list_lookup_middle.
  - lia.
  - rewrite length_app. cbn. lia.
Qed.

(** On an array without duplicates the loop removes exactly [x]. *)
Lemma swap_remove_NoDup x l :
  NoDup l -> x ∈ l ->
  NoDup (swap_remove x l)
  /\ (forall y, y ∈ swap_remove x l <-> y ∈ l /\ y <> x)
  /\ S (length (swap_remove x l)) = length l.
Proof.
  intros Hnd Hx.
  apply list_elem_of_split_l in Hx as (l1 & l2 & -> & Hx1).
  pose proof (swap_remove_first x l1 l2 Hx1) as Hp.
  apply NoDup_app in Hnd as (Hnd1 & Hdisj & Hnd2).
  apply NoDup_cons in Hnd2 as [Hx2 Hnd2].
  split; [|split].
  - rewrite Hp. apply NoDup_app. split; [assumption|]. split; [|assumption].
    intros y Hy1 Hy2. apply (Hdisj y Hy1). by right.
  - intros y. rewrite Hp. rewrite !elem_of_app, elem_of_cons. split.
    + intros [Hy|Hy]; (split; [tauto|]); intros ->; tauto.
    + intros [[Hy|[Hy|Hy]] Hne]; tauto.
  - rewrite Hp. rewrite !length_app. cbn. lia.
Qed.

(** Whatever the array holds, the loop removes at most one element. *)
Lemma swap_remove_length x l :
  (length l <= S (length (swap_remove x l)))%nat
  /\ (length (swap_remove x l) <= length l)%nat.
Proof.
  destruct (decide (x ∈ l)) as [Hx|Hx].
  - apply list_elem_of_split_l in Hx as (l1 & l2 & -> & Hx1).
    rewrite (swap_remove_first x l1 l2 Hx1), !length_app. cbn. lia.
  - rewrite swap_remove_absent by assumption. lia.
Qed.
End SwapRemove.

(** ** The example deployments *)

Lemma paused_dao_state :
  paused paused_dao = true /\ owner paused_dao = 7
  /\ DAO.memberList paused_dao = [7] /\ DAO.memberCount paused_dao = 1
  /\ DAO.quorumPercentage paused_dao = 51 /\ DAO.proposalCount paused_dao = 1
  /\ DAO.yesVotes (DAO.proposal_at paused_dao 1) = 1
  /\ DAO.noVotes (DAO.proposal_at paused_dao 1) = 0
  /\ DAO.deadline (DAO.proposal_at paused_dao 1) = 4600
  /\ DAO.executed (DAO.proposal_at paused_dao 1) = false.
Proof. vm_compute. repeat split. Qed.

Lemma two_signer_vault_state :
  Vault.signerList two_signer_vault = [1; 2] /\ owner two_signer_vault = 1
  /\ Vault.requiredSignatures two_signer_vault = 1
  /\ Vault.withdrawalLimit two_signer_vault = 10
  /\ Vault.getBalance two_signer_vault 0 = 100
  /\ paused two_signer_vault = false
  /\ paused paused_vault = true
  /\ Vault.getBalance paused_vault 0 = 100.
Proof. vm_compute. repeat split. Qed.

Lemma token_vault_state :
  Vault.signerList token_vault = [1] /\ owner token_vault = 1
  /\ Vault.requiredSignatures token_vault = 1
  /\ Vault.withdrawalLimit token_vault = 10
  /\ Vault.getBalance token_vault 5 = 100
  /\ Vault.spendingProposalCount token_vault = 1
  /\ Vault.token (Vault.proposal_at token_vault 1) = 5
  /\ Vault.amount (Vault.proposal_at token_vault 1) = 50
  /\ Vault.approvals (Vault.proposal_at token_vault 1) = 0
  /\ Vault.executed (Vault.proposal_at token_vault 1) = false.
Proof. vm_compute. repeat split. Qed.

Lemma scenario_vault_state :
  Vault.signerList scenario_vault = [1; 2]
  /\ Vault.requiredSignatures scenario_vault = 2
  /\ Vault.withdrawalLimit scenario_vault = 10
  /\ Vault.getBalance scenario_vault 0 = 100
  /\ Vault.amount (Vault.proposal_at scenario_vault 1) = 50
  /\ Vault.approvals (Vault.proposal_at scenario_vault 1) = 1
  /\ Vault.executed (Vault.proposal_at scenario_vault 1) = false.
Proof. vm_compute. repeat split. Qed.

Lemma example_dao_factory_state :
  owner example_dao_factory = 1
  /\ DAOFactory.allDAOs example_dao_factory = [700]
  /\ DAOFactory.getUserDAOs example_dao_factory 7 = [700]
  /\ DAOFactory.daoCount example_dao_factory = 1.
Proof. vm_compute. repeat split. Qed.

(** ** The scenarios of the specification and the tests of the repository,
    run on the embedding *)

Section Scenarios.

(** Scenario A: propose, vote once, vote again, execute after the deadline
  with one member and a quorum of 51%. *)
Example scenario_A :
let s := transact (DAO.unpause (at_time 7 1003)) paused_dao in
DAO.deadline (DAO.proposal_at s 1) = 1000 + 3600
/\ DAO.vote (at_time 7 1004) 1 true s = Revert "Already voted"
/\ DAO.memberCount s * DAO.quorumPercentage s / 100 = 0
/\ succeeds (DAO.executeProposal (at_time 7 4600) 1 s)
/\ DAO.executed
     (DAO.proposal_at (transact (DAO.executeProposal (at_time 7 4600) 1) s) 1) = true.
Proof.
cbv zeta. repeat split; try (vm_compute; reflexivity).
eexists. vm_compute. reflexivity.
Qed.

(** Scenario B: the second approval executes the proposal and the balance
  goes from 100 to 50. *)
Example scenario_B :
let x := no_callback true (CallReverted NoData) in
let s := transact (Vault.approveSpendingProposal (at_time 2 3) x 1) scenario_vault in
Vault.approvals (Vault.proposal_at s 1) = 2
/\ Vault.executed (Vault.proposal_at s 1) = true
/\ Vault.getBalance s 0 = 50
/\ last (Vault.events s) = Some (Vault.SpendingProposalExecuted 1 true)
/\ Vault.approveSpendingProposal (at_time 1 4) x 1 scenario_vault
     = Revert "Already approved".
Proof. vm_compute. repeat split. Qed.

(** Scenario C: the eleventh [createDAO] of one user. *)
Example scenario_C :
length (DAOFactory.getUserDAOs full_dao_factory 7) = 10%nat
/\ DAOFactory.createDAO (at_time 7 12) 710 "DAO 11" full_dao_factory
     = Revert "Max DAOs per user exceeded"
/\ length (DAOFactory.getUserDAOs
             (DAOFactory.run [(at_time 7 12, DAOFactory.CreateDAO 710 "DAO 11")]
                full_dao_factory) 7) = 10%nat.
Proof. vm_compute. repeat split. Qed.

(** Scenario D and the vault registry tests. *)
Example scenario_D :
let s := example_dao_factory in
let x := DAOFactory.OwnerIs 7 in
DAOFactory.registerVault (at_time 8 20) x 700 900 s
  = Revert "Only DAO owner can register vault"
/\ DAOFactory.getDAOVault
     (transact (DAOFactory.registerVault (at_time 8 20) x 700 900) s) 700 = 0
/\ DAOFactory.registerVault (at_time 7 20) x 700 0 s = Revert "Invalid vault address"
/\ DAOFactory.registerVault (at_time 7 20) x 0 900 s = Revert "Invalid DAO address"
/\ (let s1 := transact (DAOFactory.registerVault (at_time 7 20) x 700 900) s in
    DAOFactory.getDAOVault s1 700 = 900 /\ DAOFactory.getVaultDAO s1 900 = 700
    /\ (let s2 := transact (DAOFactory.unregisterVault (at_time 7 21) x 700) s1 in
        DAOFactory.getDAOVault s2 700 = 0 /\ DAOFactory.getVaultDAO s2 900 = 0)).
Proof. vm_compute. repeat split. Qed.

(** The creation and pause tests of the DAOFactory. *)
Example factory_tests :
let s := DAOFactory.constructor (at_time 1 0) 400 in
owner s = 1 /\ DAOFactory.daoCount s = 0
/\ DAOFactory.createDAO (at_time 7 10) 700 "" s = Revert "DAO name cannot be empty"
/\ DAOFactory.createDAO (at_time 7 10) 700 long_name s = Revert "DAO name too long"
/\ (let s1 := transact (DAOFactory.pause (at_time 1 5)) s in
    paused s1 = true
    /\ DAOFactory.createDAO (at_time 7 10) 700 "Test DAO" s1 = Revert "Pausable: paused"
    /\ paused (transact (DAOFactory.unpause (at_time 1 6)) s1) = false)
/\ (let s2 := DAOFactory.run [(at_time 7 10, DAOFactory.CreateDAO 700 "DAO 1");
                              (at_time 7 11, DAOFactory.CreateDAO 701 "DAO 2");
                              (at_time 8 12, DAOFactory.CreateDAO 702 "DAO 3")] s in
    DAOFactory.getAllDAOs s2 = [700; 701; 702]
    /\ DAOFactory.getUserDAOs s2 7 = [700; 701]
    /\ DAOFactory.getUserDAOs s2 8 = [702]
    /\ DAOFactory.daoCount s2 = 3).
Proof. vm_compute. repeat split. Qed.
End Scenarios.

(** ** DAO: membership *)

Section DAOMembership.
Import DAO.

Lemma DAO_run_invariant (P : state -> Prop) (ok : call -> bool) :
  (forall e c s s', ok c = true -> P s -> exec e c s = Ok s' -> P s') ->
  forall txs s, Forall (fun tx => ok tx.2 = true) txs -> P s -> P (run txs s).
Proof.
  intros Hstep txs. induction txs as [|[e c] txs IH]; intros s Hok Hs; [assumption|].
  apply Forall_cons in Hok as [Hc Hok]. cbn [run fold_left]. apply IH; [assumption|].
  unfold transact. cbn [fst snd] in *.
  destruct (exec e c s) eqn:Hcall; eauto.
Qed.

Lemma elem_of_member_set (s : state) (a : Z) :
  a ∈ member_set s <-> getb (members s) a = true.
Proof.
  unfold member_set, getb. rewrite elem_of_dom. split.
  - intros [b Hb]. apply map_lookup_filter_Some in Hb as [Hb Ht].
    cbn in Ht. by rewrite Hb, Ht.
  - destruct (members s !! a) as [b|] eqn:Hb; cbn; [|discriminate].
    intros ->. exists true. by apply map_lookup_filter_Some.
Qed.

Lemma member_set_list (s : state) :
  members_consistent s ->
  member_set s = list_to_set (memberList s)
  /\ Z.of_nat (size (member_set s)) = memberCount s.
Proof.
  intros (Hnd & Hagree & Hcount & _).
  assert (member_set s = list_to_set (memberList s)) as Hset.
  { apply set_eq. intros a.
    by rewrite elem_of_member_set, elem_of_list_to_set, Hagree. }
  split; [assumption|].
  by rewrite Hset, size_list_to_set, Hcount.
Qed.

Lemma DAO_constructor_consistent (e : env) (nm : string) (own : address) (s : state) :
  constructor e nm own = Ok s -> members_consistent s /\ owner s = own.
Proof.
  unfold constructor. intros Hc. inv_call Hc.
  split; [|reflexivity]. unfold members_consistent. cbn. split; [|split; [|split]].
  - apply NoDup_singleton.
  - intros a. rewrite getb_insert. case_decide as Ha.
    + subst a. split; [intros _; apply list_elem_of_here | reflexivity].
    + split; [discriminate|]. intros Hin. apply list_elem_of_singleton in Hin. congruence.
  - reflexivity.
  - rewrite getb_insert. by case_decide.
Qed.

Lemma addMember_consistent (e : env) (m : address) (s s' : state) :
  members_consistent s -> addMember e m s = Ok s' ->
  members_consistent s' /\ owner s' = owner s.
Proof.
  intros (Hnd & Hagree & Hcount & Hown) Hc.
  unfold addMember, onlyOwner, whenNotPaused, nonReentrant in Hc.
  inv_call Hc. cbn in *.
  split; [|reflexivity]. unfold members_consistent. cbn. split; [|split; [|split]].
  - apply NoDup_app. split; [assumption|]. split; [|apply NoDup_singleton].
    intros a Ha Hm. apply list_elem_of_singleton in Hm. subst a.
    apply Hagree in Ha. rewrite Ha in *. discriminate.
  - intros a. rewrite getb_insert, elem_of_app, list_elem_of_singleton, <- Hagree.
    case_decide; intuition congruence.
  - rewrite length_app, Hcount. cbn. lia.
  - rewrite getb_insert. by case_decide.
Qed.

Lemma removeMember_consistent (e : env) (m : address) (s s' : state) :
  members_consistent s -> removeMember e m s = Ok s' ->
  members_consistent s' /\ owner s' = owner s.
Proof.
  intros (Hnd & Hagree & Hcount & Hown) Hc.
  unfold removeMember, onlyOwner, whenNotPaused, nonReentrant in Hc.
  inv_call Hc. cbn in *.
  assert (m ∈ memberList s) as Hin by (by apply Hagree).
  destruct (swap_remove_NoDup m (memberList s) Hnd Hin) as (Hnd' & Hmem' & Hlen').
  split; [|reflexivity]. unfold members_consistent. cbn. split; [|split; [|split]].
  - assumption.
  - intros a. rewrite getb_insert, Hmem', <- Hagree.
    case_decide; [subst a|]; intuition congruence.
  - lia.
  - rewrite getb_insert. case_decide; [lia | assumption].
Qed.

(** A call to [removeMember] aimed at the owner fails, whoever makes it. *)
Lemma removeMember_owner_fails (e : env) (s : state) :
  exists reason, removeMember e (owner s) s = Revert reason.
Proof.
  unfold removeMember, onlyOwner, whenNotPaused, nonReentrant, require. cbn.
  repeat (match goal with |- context [if ?c then _ else _] => destruct c eqn:? end;
          cbn; eauto).
  rewrite Z.eqb_refl in *. discriminate.
Qed.

(** The agreement of the three membership records does not depend on who
    the owner is: [addMember] and [removeMember] keep it. *)
Lemma addMember_recorded (e : env) (m : address) (s s' : state) :
  members_recorded s -> addMember e m s = Ok s' -> members_recorded s'.
Proof.
  intros (Hnd & Hagree & Hcount) Hc.
  unfold addMember, onlyOwner, whenNotPaused, nonReentrant in Hc.
  inv_call Hc. cbn in *.
  unfold members_recorded. cbn. split; [|split].
  - apply NoDup_app. split; [assumption|]. split; [|apply NoDup_singleton].
    intros a Ha Hm. apply list_elem_of_singleton in Hm. subst a.
    apply Hagree in Ha. rewrite Ha in *. discriminate.
  - intros a. rewrite getb_insert, elem_of_app, list_elem_of_singleton, <- Hagree.
    case_decide; intuition congruence.
  - rewrite length_app, Hcount. cbn. lia.
Qed.

Lemma removeMember_recorded (e : env) (m : address) (s s' : state) :
  members_recorded s -> removeMember e m s = Ok s' -> members_recorded s'.
Proof.
  intros (Hnd & Hagree & Hcount) Hc.
  unfold removeMember, onlyOwner, whenNotPaused, nonReentrant in Hc.
  inv_call Hc. cbn in *.
  assert (m ∈ memberList s) as Hin by (by apply Hagree).
  destruct (swap_remove_NoDup m (memberList s) Hnd Hin) as (Hnd' & Hmem' & Hlen').
  unfold members_recorded. cbn. split; [|split].
  - assumption.
  - intros a. rewrite getb_insert, Hmem', <- Hagree.
    case_decide; [subst a|]; intuition congruence.
  - lia.
Qed.

Lemma member_set_recorded (s : state) :
  members_recorded s ->
  member_set s = list_to_set (memberList s)
  /\ Z.of_nat (size (member_set s)) = memberCount s.
Proof.
  intros (Hnd & Hagree & Hcount).
  assert (member_set s = list_to_set (memberList s)) as Hset.
  { apply set_eq. intros a.
    by rewrite elem_of_member_set, elem_of_list_to_set, Hagree. }
  split; [assumption|].
  by rewrite Hset, size_list_to_set, Hcount.
Qed.
End DAOMembership.

(** ** DAO: the other calls *)

Section DAOFrame.
Import DAO.

(** Apart from a transfer of ownership, no call disturbs the membership
    records or the owner. *)
Lemma DAO_exec_consistent (e : env) (c : call) (s s' : state) :
  keeps_owner c = true ->
  members_consistent s ->
  exec e c s = Ok s' ->
  members_consistent s' /\ owner s' = owner s.
Proof.
  intros Hk Hinv Hc.
  destruct c; try discriminate Hk; cbn [exec] in Hc.
  1: exact (addMember_consistent e member s s' Hinv Hc).
  1: exact (removeMember_consistent e member s s' Hinv Hc).
  all: unfold propose, vote, executeProposal, attachVault, detachVault,
         setQuorumPercentage, pause, unpause, _pause, _unpause, onlyOwner,
         onlyMember, whenNotPaused, whenPaused, nonReentrant, validProposal in Hc;
       inv_call Hc; split; try reflexivity; exact Hinv.
Qed.

Lemma DAO_membership_reachable (e0 : env) (nm : string) (own : address)
    (s0 : state) (txs : list (env * call)) :
  constructor e0 nm own = Ok s0 ->
  Forall (fun tx => keeps_owner tx.2 = true) txs ->
  members_consistent (run txs s0) /\ owner (run txs s0) = own.
Proof.
  intros Hc Htxs. apply DAO_constructor_consistent in Hc.
  revert Htxs Hc.
  apply (DAO_run_invariant (fun s => members_consistent s /\ owner s = own) keeps_owner).
  intros e c s s' Hk [Hinv Ho] Hstep.
  destruct (DAO_exec_consistent e c s s' Hk Hinv Hstep) as [Hinv' Ho'].
  split; [assumption | congruence].
Qed.

(** The counters of a DAO built by the constructor stay in range, whatever
    is called. *)
Lemma DAO_exec_counters (e : env) (c : call) (s s' : state) :
  counters_in_range s -> exec e c s = Ok s' -> counters_in_range s'.
Proof.
  intros (Hm & Hq & Hv) Hc. unfold counters_in_range.
  destruct c; cbn [exec] in Hc;
    unfold addMember, removeMember, propose, vote, executeProposal, attachVault,
      detachVault, setQuorumPercentage, pause, unpause, _pause, _unpause,
      transferOwnership, renounceOwnership, onlyOwner,
      onlyMember, whenNotPaused, whenPaused, nonReentrant, validProposal in Hc;
    inv_call Hc; cbn in *;
    try (repeat split; try lia; apply Hv).
  - (* propose *)
    repeat split; try lia; unfold proposal_at; cbn;
      rewrite lookup_insert; case_decide; cbn; apply Hv.
  - (* vote yes *)
    repeat split; try lia; unfold proposal_at; cbn;
      rewrite lookup_insert; case_decide; cbn; try apply Hv.
    all: pose proof (Hv proposalId) as [Hy Hn]; unfold proposal_at in *; cbn in *; lia.
  - (* vote no *)
    repeat split; try lia; unfold proposal_at; cbn;
      rewrite lookup_insert; case_decide; cbn; try apply Hv.
    all: pose proof (Hv proposalId) as [Hy Hn]; unfold proposal_at in *; cbn in *; lia.
  - (* executeProposal *)
    repeat split; try lia; unfold proposal_at; cbn;
      rewrite lookup_insert; case_decide; cbn; try apply Hv.
    all: pose proof (Hv proposalId) as [Hy Hn]; unfold proposal_at in *; cbn in *; lia.
Qed.

Lemma DAO_counters_reachable (e0 : env) (nm : string) (own : address) (s0 : state)
    (txs : list (env * call)) :
  constructor e0 nm own = Ok s0 -> counters_in_range (run txs s0).
Proof.
  intros Hc.
  apply (DAO_run_invariant counters_in_range (fun _ => true)).
  - intros e c s s' _. apply DAO_exec_counters.
  - by apply Forall_forall.
  - unfold constructor in Hc. inv_call Hc. unfold counters_in_range, proposal_at. cbn.
    repeat split; try lia; rewrite lookup_empty; cbn; lia.
Qed.

(** A transfer of ownership (inherited from Ownable) does not touch the
    membership records: the new owner need not be a member. *)
Lemma transferOwnership_leaves_members :
  let s := transact (transferOwnership (at_time 7 1003) 8)
             (transact (unpause (at_time 7 1003)) paused_dao) in
  owner s = 8 /\ memberList s = [7] /\ getb (members s) 8 = false.
Proof. vm_compute. repeat split. Qed.

(** In range, the quorum product cannot overflow. *)
Lemma counters_in_range_quorum (s : state) :
  counters_in_range s ->
  0 <= memberCount s * quorumPercentage s <= 100000
  /\ memberCount s * quorumPercentage s <= MAX_UINT256.
Proof.
  intros (Hm & Hq & _).
  assert (0 <= memberCount s * quorumPercentage s <= 100000) as Hp by nia.
  split; [exact Hp|]. unfold MAX_UINT256. lia.
Qed.
End DAOFrame.

(** ** DAO: the membership records and the owner *)

Section DAOMembershipRecords.
Import DAO.

(** No call makes the three membership records disagree, and none makes
    the zero address a member. *)
Lemma DAO_exec_recorded (e : env) (c : call) (s s' : state) :
  members_recorded s /\ getb (members s) 0 = false ->
  exec e c s = Ok s' ->
  members_recorded s' /\ getb (members s') 0 = false.
Proof.
  intros [Hinv Hzero] Hc.
  destruct c; cbn [exec] in Hc.
  1: { split; [exact (addMember_recorded e member s s' Hinv Hc)|].
       unfold addMember, onlyOwner, whenNotPaused, nonReentrant in Hc.
       inv_call Hc. cbn in *. rewrite getb_insert. case_decide; [lia | assumption]. }
  1: { split; [exact (removeMember_recorded e member s s' Hinv Hc)|].
       unfold removeMember, onlyOwner, whenNotPaused, nonReentrant in Hc.
       inv_call Hc. cbn in *. rewrite getb_insert. by case_decide. }
  all: unfold propose, vote, executeProposal, attachVault, detachVault,
         setQuorumPercentage, pause, unpause, _pause, _unpause,
         transferOwnership, renounceOwnership, onlyOwner,
         onlyMember, whenNotPaused, whenPaused, nonReentrant, validProposal in Hc;
       inv_call Hc; split; assumption.
Qed.

Lemma DAO_recorded_reachable (e0 : env) (nm : string) (own : address)
    (s0 : state) (txs : list (env * call)) :
  constructor e0 nm own = Ok s0 ->
  members_recorded (run txs s0) /\ getb (members (run txs s0)) 0 = false.
Proof.
  intros Hc.
  apply (DAO_run_invariant
           (fun s => members_recorded s /\ getb (members s) 0 = false) (fun _ => true)).
  - intros e c s s' _. apply DAO_exec_recorded.
  - by apply Forall_forall.
  - destruct (DAO_constructor_consistent _ _ _ _ Hc) as [(Hnd & Hagree & Hcount & _) _].
    split; [exact (conj Hnd (conj Hagree Hcount))|].
    unfold constructor in Hc. inv_call Hc. cbn. rewrite getb_insert.
    case_decide; [lia | reflexivity].
Qed.

(** C4, as the code has it: however a DAO is driven after its construction
    (any calls, from any senders, successful or not), [memberCount] is the
    number of addresses in the member set and [memberList] lists exactly
    that set without repetition; [removeMember] aimed at the current owner
    fails. The owner is the address given to the constructor and a member
    as long as ownership is not handed over: a call other than
    [transferOwnership] and [renounceOwnership] keeps the owner a member,
    [transferOwnership] leaves a member as owner exactly when the new owner
    already is one, and after [renounceOwnership] the owner is the zero
    address, which is never a member. *)
Theorem membership_bookkeeping (e0 : env) (nm : string) (own : address)
    (s0 : state) (txs : list (env * call)) :
  constructor e0 nm own = Ok s0 ->
  let s := run txs s0 in
  (memberCount s = Z.of_nat (size (member_set s))
   /\ member_set s = list_to_set (memberList s)
   /\ NoDup (memberList s)
   /\ memberCount s = Z.of_nat (length (memberList s)))
  /\ (forall e, exists reason, removeMember e (owner s) s = Revert reason)
  /\ (Forall (fun tx => keeps_owner tx.2 = true) txs ->
      owner s = own /\ own ∈ member_set s)
  /\ (forall e c s', keeps_owner c = true -> exec e c s = Ok s' ->
        owner s ∈ member_set s -> owner s' ∈ member_set s')
  /\ (forall e a s', transferOwnership e a s = Ok s' ->
        owner s' = a /\ (owner s' ∈ member_set s' <-> a ∈ member_set s))
  /\ (forall e s', renounceOwnership e s = Ok s' ->
        owner s' = 0 /\ owner s' ∉ member_set s').
Proof.
  intros Hc s.
  destruct (DAO_recorded_reachable e0 nm own s0 txs Hc) as [Hrec Hzero].
  fold s in Hrec, Hzero.
  destruct (member_set_recorded s Hrec) as [Hset Hsize].
  pose proof Hrec as (Hnd & Hagree & Hcount).
  split; [repeat split; (assumption || congruence)|].
  split; [intros e; apply removeMember_owner_fails|].
  split; [|split; [|split]].
  - intros Htxs.
    destruct (DAO_membership_reachable e0 nm own s0 txs Hc Htxs)
      as [(_ & _ & _ & Hom) Ho].
    fold s in Hom, Ho. split; [exact Ho|].
    apply elem_of_member_set. by rewrite <- Ho.
  - intros e c s' Hk Hstep Hin. apply elem_of_member_set in Hin.
    destruct (DAO_exec_consistent e c s s' Hk) as [(_ & _ & _ & Hom) Ho];
      [exact (conj Hnd (conj Hagree (conj Hcount Hin))) | exact Hstep |].
    by apply elem_of_member_set.
  - intros e a s' Hstep. unfold transferOwnership, onlyOwner in Hstep.
    inv_call Hstep. cbn. split; [reflexivity|].
    by rewrite !elem_of_member_set.
  - intros e s' Hstep. unfold renounceOwnership, onlyOwner in Hstep.
    inv_call Hstep. cbn. split; [reflexivity|].
    rewrite elem_of_member_set. cbn. by rewrite Hzero.
Qed.

Lemma membership_bookkeeping_witness :
  let txs := [(at_time 7 1000, AddMember 8); (at_time 7 1001, AddMember 9);
              (at_time 8 1002, Propose "T" "D" 3600);
              (at_time 7 1003, RemoveMember 8)] in
  exists s0, constructor (at_time 99 1000) "Test DAO" 7 = Ok s0
    /\ memberList (run txs s0) = [7; 9]
    /\ memberCount (run txs s0) = Z.of_nat (size (member_set (run txs s0)))
    /\ owner (run txs s0) = 7
    /\ 7 ∈ member_set (run txs s0).
Proof.
  eexists. split; [reflexivity|]. split; [reflexivity|].
  pose proof (membership_bookkeeping (at_time 99 1000) "Test DAO" 7 _
    [(at_time 7 1000, AddMember 8); (at_time 7 1001, AddMember 9);
     (at_time 8 1002, Propose "T" "D" 3600);
     (at_time 7 1003, RemoveMember 8)] eq_refl) as Hb.
  cbv zeta in Hb.
  destruct Hb as ((H1 & _) & _ & H2 & _).
  destruct H2 as [Ho Hin]; [repeat constructor|].
  split; [exact H1|]. split; assumption.
Defined.

(** C4 as stated fails once ownership moves: after the owner hands the DAO
    to address 8, which is no member, the new owner removes the old one;
    the owner is then not in the member set, which is empty. *)
Lemma owner_not_member_counterexample :
  let txs := [(at_time 7 1000, TransferOwnership 8);
              (at_time 8 1001, RemoveMember 7)] in
  exists s0, constructor (at_time 99 1000) "Test DAO" 7 = Ok s0
    /\ owner (run txs s0) = 8
    /\ memberList (run txs s0) = []
    /\ memberCount (run txs s0) = 0
    /\ owner (run txs s0) ∉ member_set (run txs s0).
Proof.
  eexists. split; [reflexivity|]. split; [reflexivity|].
  split; [reflexivity|]. split; [reflexivity|].
  rewrite elem_of_member_set. vm_compute. discriminate.
Qed.
End DAOMembershipRecords.

(** ** DAO: one vote per address *)

Section DAOVotes.
Import DAO.

Lemma DAO_run_invariant_tx (P : state -> Prop) (Q : env * call -> Prop) :
  (forall e c s s', Q (e, c) -> P s -> exec e c s = Ok s' -> P s') ->
  forall txs s, Forall Q txs -> P s -> P (run txs s).
Proof.
  intros Hstep txs. induction txs as [|[e c] txs IH]; intros s Hok Hs; [assumption|].
  apply Forall_cons in Hok as [Hc Hok]. cbn [run fold_left]. apply IH; [assumption|].
  unfold transact. cbn [fst snd].
  destruct (exec e c s) eqn:Hcall; eauto.
Qed.

(** A set of numbers below [N] has at most [N] elements. *)
Lemma gset_size_bound (X : gset Z) (N : Z) :
  (forall x, x ∈ X -> 0 <= x < N) -> Z.of_nat (size X) <= Z.max 0 N.
Proof.
  intros Hx.
  assert (X ⊆ list_to_set (seqZ 0 N)) as Hsub.
  { intros x Hin. apply elem_of_list_to_set, elem_of_seqZ. specialize (Hx x Hin). lia. }
  apply subseteq_size in Hsub.
  rewrite size_list_to_set, length_seqZ in Hsub by apply NoDup_seqZ. lia.
Qed.

Lemma votes_counted_bound (p : Proposal) :
  votes_counted p -> 0 <= yesVotes p + noVotes p <= ADDRESS_BOUND.
Proof.
  intros (Hy & Hn & Hsum & Hdom). split; [lia|]. rewrite Hsum.
  pose proof (gset_size_bound (dom (hasVoted p)) ADDRESS_BOUND) as Hb.
  unfold is_address in Hdom.
  assert (Z.max 0 ADDRESS_BOUND = ADDRESS_BOUND) as Hmax by (unfold ADDRESS_BOUND; lia).
  rewrite Hmax in Hb. apply Hb. intros x Hin. by apply Hdom.
Qed.

Lemma votes_counted_vote (p : Proposal) (voter : address) (support : bool) :
  votes_counted p -> is_address voter -> getb (hasVoted p) voter = false ->
  votes_counted
    {| id := id p; title := title p; description := description p;
       yesVotes := if support then yesVotes p + 1 else yesVotes p;
       noVotes := if support then noVotes p else noVotes p + 1;
       deadline := deadline p; executed := executed p; proposer := proposer p;
       hasVoted := <[voter := true]> (hasVoted p) |}.
Proof.
  intros (Hy & Hn & Hsum & Hdom) Hv Hnot. unfold votes_counted. cbn.
  assert (voter ∉ dom (hasVoted p)) as Hfresh.
  { intros Hin. apply Hdom in Hin as [Hin _]. congruence. }
  assert ({[voter]} ## dom (hasVoted p)) as Hdisj.
  { intros a Ha Hin. apply elem_of_singleton in Ha. by subst a. }
  rewrite dom_insert_L, size_union, size_singleton by exact Hdisj.
  split; [destruct support; lia|]. split; [destruct support; lia|].
  split; [destruct support; lia|].
  intros a Hin. rewrite getb_insert.
  apply elem_of_union in Hin as [Hin|Hin].
  - apply elem_of_singleton in Hin. subst a. by rewrite decide_True.
  - destruct (Hdom a Hin) as [Ha1 Ha2]. by case_decide.
Qed.

Lemma DAO_exec_votes (e : env) (c : call) (s s' : state) :
  is_address (msg_sender e) -> votes_consistent s -> exec e c s = Ok s' ->
  votes_consistent s'.
Proof.
  intros Hsender Hv Hc i.
  destruct c; cbn [exec] in Hc;
    unfold addMember, removeMember, propose, vote, executeProposal, attachVault,
      detachVault, setQuorumPercentage, pause, unpause, _pause, _unpause,
      transferOwnership, renounceOwnership, onlyOwner,
      onlyMember, whenNotPaused, whenPaused, nonReentrant, validProposal in Hc;
    inv_call Hc; try apply (Hv i).
  - (* propose *)
    unfold proposal_at. cbn. rewrite lookup_insert. case_decide; [|apply (Hv i)].
    apply (Hv (proposalCount s + 1)).
  - (* vote yes *)
    unfold proposal_at. cbn. rewrite lookup_insert. case_decide; [|apply (Hv i)].
    apply (votes_counted_vote (proposal_at s proposalId) (msg_sender e) true);
      [apply Hv | assumption|].
    match goal with
    | H : negb (getb _ _) = true |- _ => apply negb_true_iff in H; exact H
    end.
  - (* vote no *)
    unfold proposal_at. cbn. rewrite lookup_insert. case_decide; [|apply (Hv i)].
    apply (votes_counted_vote (proposal_at s proposalId) (msg_sender e) false);
      [apply Hv | assumption|].
    match goal with
    | H : negb (getb _ _) = true |- _ => apply negb_true_iff in H; exact H
    end.
  - (* executeProposal *)
    unfold proposal_at. cbn. rewrite lookup_insert. case_decide; [|apply (Hv i)].
    apply (Hv proposalId).
Qed.

(** In a DAO driven from its constructor by callers with 160-bit addresses,
    the vote counters of a proposal never add up to more than the number of
    addresses, far below the [uint256] limit. *)
Lemma DAO_votes_reachable (e0 : env) (nm : string) (own : address) (s0 : state)
    (txs : list (env * call)) (i : uint256) :
  constructor e0 nm own = Ok s0 ->
  Forall (fun tx => is_address (msg_sender tx.1)) txs ->
  let p := proposal_at (run txs s0) i in
  0 <= yesVotes p + noVotes p <= MAX_UINT256.
Proof.
  intros Hc Htxs p.
  assert (votes_consistent (run txs s0)) as Hv.
  { apply (DAO_run_invariant_tx votes_consistent
             (fun tx => is_address (msg_sender tx.1))).
    - intros e c s s' Hs. by apply DAO_exec_votes.
    - exact Htxs.
    - unfold constructor in Hc. inv_call Hc. intros j.
      unfold votes_counted, proposal_at. cbn. rewrite lookup_empty. cbn.
      rewrite dom_empty_L, size_empty.
      split; [lia|]. split; [lia|]. split; [reflexivity|].
      intros a Ha. by apply not_elem_of_empty in Ha. }
  pose proof (votes_counted_bound p (Hv i)) as Hb.
  unfold ADDRESS_BOUND, MAX_UINT256 in *. lia.
Qed.

(** Between transactions no guarded function is running. *)
Lemma DAO_exec_status (e : env) (c : call) (s s' : state) :
  _entered s = false -> exec e c s = Ok s' -> _entered s' = false.
Proof.
  intros He Hc.
  destruct c; cbn [exec] in Hc;
    unfold addMember, removeMember, propose, vote, executeProposal, attachVault,
      detachVault, setQuorumPercentage, pause, unpause, _pause, _unpause,
      transferOwnership, renounceOwnership, onlyOwner,
      onlyMember, whenNotPaused, whenPaused, nonReentrant, validProposal in Hc;
    inv_call Hc; first [reflexivity | exact He].
Qed.

Lemma DAO_status_reachable (e0 : env) (nm : string) (own : address) (s0 : state)
    (txs : list (env * call)) :
  constructor e0 nm own = Ok s0 -> _entered (run txs s0) = false.
Proof.
  intros Hc.
  apply (DAO_run_invariant (fun s => _entered s = false) (fun _ => true)).
  - intros e c s s' _. apply DAO_exec_status.
  - by apply Forall_forall.
  - unfold constructor in Hc. by inv_call Hc.
Qed.
End DAOVotes.

(** ** DAO: executing a proposal *)

Section DAOExecute.
Import DAO.

Lemma executeProposal_paused (e : env) (proposalId : uint256) (s : state) :
  paused s = true -> executeProposal e proposalId s = Revert "Pausable: paused".
Proof.
  intros Hp. unfold executeProposal, whenNotPaused. by rewrite Hp.
Qed.

(** The four checks of the body, in the order of the source, for a call
    that passes the modifiers and whose counters are in range. *)
Lemma executeProposal_body (e : env) (proposalId : uint256) (s : state) :
  paused s = false -> _entered s = false ->
  0 < proposalId <= proposalCount s ->
  let p := proposal_at s proposalId in
  yesVotes p + noVotes p <= MAX_UINT256 ->
  memberCount s * quorumPercentage s <= MAX_UINT256 ->
  executeProposal e proposalId s =
    if block_timestamp e <? deadline p then Revert "Voting period not ended"
    else if executed p then Revert "Proposal already executed"
    else if yesVotes p + noVotes p <? memberCount s * quorumPercentage s / 100
         then Revert "Quorum not reached"
    else if yesVotes p <=? noVotes p then Revert "Proposal rejected"
    else Ok (executed_state proposalId s).
Proof.
  intros Hp He Hid p Hvotes Hquorum.
  unfold executeProposal, whenNotPaused, nonReentrant, validProposal.
  rewrite Hp, He. cbn.
  replace ((0 <? proposalId) && (proposalId <=? proposalCount s)) with true by lia.
  cbn. change (proposal_at (set_status true s) proposalId) with p.
  destruct (Z.ltb_spec (block_timestamp e) (deadline p)) as [Hd|Hd].
  { replace (deadline p <=? block_timestamp e) with false by lia. reflexivity. }
  replace (deadline p <=? block_timestamp e) with true by lia. cbn.
  destruct (executed p) eqn:Hex; [reflexivity|]. cbn.
  unfold checked_add, checked_mul.
  replace (yesVotes p + noVotes p <=? MAX_UINT256) with true by lia. cbn.
  replace (memberCount s * quorumPercentage s <=? MAX_UINT256) with true by lia. cbn.
  destruct (Z.ltb_spec (yesVotes p + noVotes p)
              (memberCount s * quorumPercentage s / 100)) as [Hq|Hq].
  { replace (memberCount s * quorumPercentage s / 100 <=? yesVotes p + noVotes p)
      with false by lia. reflexivity. }
  replace (memberCount s * quorumPercentage s / 100 <=? yesVotes p + noVotes p)
    with true by lia. cbn.
  destruct (Z.leb_spec (yesVotes p) (noVotes p)) as [Hr|Hr].
  { replace (noVotes p <? yesVotes p) with false by lia. reflexivity. }
  replace (noVotes p <? yesVotes p) with true by lia. cbn.
  unfold executed_state.
  change (proposal_at (set_status true s) proposalId) with p. fold p. f_equal.
  destruct s. cbn in *. subst. reflexivity.
Qed.

(** The outcome of [executeProposal] in any state, for a proposal id in
    range, counters that do not overflow and no guarded function running. *)
Lemma executeProposal_cases (e : env) (proposalId : uint256) (s : state) :
  _entered s = false ->
  0 < proposalId <= proposalCount s ->
  let p := proposal_at s proposalId in
  let now := block_timestamp e in
  let requiredQuorum := memberCount s * quorumPercentage s / 100 in
  yesVotes p + noVotes p <= MAX_UINT256 ->
  memberCount s * quorumPercentage s <= MAX_UINT256 ->
  (paused s = true -> executeProposal e proposalId s = Revert "Pausable: paused")
  /\ (paused s = false ->
      (succeeds (executeProposal e proposalId s) <->
         deadline p <= now /\ executed p = false
         /\ requiredQuorum <= yesVotes p + noVotes p /\ noVotes p < yesVotes p)
      /\ (forall s', executeProposal e proposalId s = Ok s' ->
            s' = executed_state proposalId s
            /\ executed (proposal_at s' proposalId) = true)
      /\ (now < deadline p ->
            executeProposal e proposalId s = Revert "Voting period not ended")
      /\ (deadline p <= now -> executed p = true ->
            executeProposal e proposalId s = Revert "Proposal already executed")
      /\ (deadline p <= now -> executed p = false ->
          yesVotes p + noVotes p < requiredQuorum ->
            executeProposal e proposalId s = Revert "Quorum not reached")
      /\ (deadline p <= now -> executed p = false ->
          requiredQuorum <= yesVotes p + noVotes p -> yesVotes p <= noVotes p ->
            executeProposal e proposalId s = Revert "Proposal rejected")).
Proof.
  intros He Hid p now requiredQuorum Hvotes Hquorum.
  split; [apply executeProposal_paused|]. intros Hp.
  rewrite (executeProposal_body e proposalId s Hp He Hid Hvotes Hquorum).
  fold p now requiredQuorum. unfold succeeds.
  destruct (Z.ltb_spec now (deadline p)) as [Hd|Hd];
    [|destruct (executed p) eqn:Hex;
      [|destruct (Z.ltb_spec (yesVotes p + noVotes p) requiredQuorum) as [Hq|Hq];
        [|destruct (Z.leb_spec (yesVotes p) (noVotes p)) as [Hr|Hr]]]].
  1-4: split;
    [split; [intros [? ?]; discriminate
            | intros (? & ? & ? & ?); exfalso; (lia || congruence)]
    | repeat split; intros; first [congruence | lia | reflexivity]].
  split; [|repeat split; intros; first [congruence | lia | reflexivity | idtac]].
  - split; [intros _; repeat split; (lia || reflexivity) | eauto].
  - match goal with H : Ok _ = Ok _ |- _ => injection H as <- end.
    unfold executed_state, proposal_at. cbn. by rewrite lookup_insert_eq.
Qed.

(** C1, as the code has it: in every state a DAO reaches from its
    constructor (called by 160-bit addresses) and for every proposal id in
    range, [executeProposal] on a paused DAO fails with the reason of
    [whenNotPaused]; on a DAO that is not paused it succeeds exactly when
    the deadline is reached, the proposal is not executed, the votes reach
    [memberCount * quorumPercentage / 100] and yes beats no; a success marks
    the proposal executed, and each failure carries the reason of the first
    check that fails. *)
Theorem executeProposal_spec (e0 : env) (nm : string) (own : address)
    (s0 : state) (txs : list (env * call)) (e : env) (proposalId : uint256) :
  constructor e0 nm own = Ok s0 ->
  Forall (fun tx => is_address (msg_sender tx.1)) txs ->
  let s := run txs s0 in
  0 < proposalId <= proposalCount s ->
  let p := proposal_at s proposalId in
  let now := block_timestamp e in
  let requiredQuorum := memberCount s * quorumPercentage s / 100 in
  (paused s = true -> executeProposal e proposalId s = Revert "Pausable: paused")
  /\ (paused s = false ->
      (succeeds (executeProposal e proposalId s) <->
         deadline p <= now /\ executed p = false
         /\ requiredQuorum <= yesVotes p + noVotes p /\ noVotes p < yesVotes p)
      /\ (forall s', executeProposal e proposalId s = Ok s' ->
            s' = executed_state proposalId s
            /\ executed (proposal_at s' proposalId) = true)
      /\ (now < deadline p ->
            executeProposal e proposalId s = Revert "Voting period not ended")
      /\ (deadline p <= now -> executed p = true ->
            executeProposal e proposalId s = Revert "Proposal already executed")
      /\ (deadline p <= now -> executed p = false ->
          yesVotes p + noVotes p < requiredQuorum ->
            executeProposal e proposalId s = Revert "Quorum not reached")
      /\ (deadline p <= now -> executed p = false ->
          requiredQuorum <= yesVotes p + noVotes p -> yesVotes p <= noVotes p ->
            executeProposal e proposalId s = Revert "Proposal rejected")).
Proof.
  intros Hc Htxs s Hid.
  apply executeProposal_cases.
  - by eapply DAO_status_reachable.
  - exact Hid.
  - by eapply (DAO_votes_reachable e0 nm own s0 txs proposalId).
  - eapply counters_in_range_quorum, DAO_counters_reachable, Hc.
Qed.

Lemma executeProposal_spec_witness :
  let txs := [(at_time 7 1000, Propose "T" "D" 3600); (at_time 7 1001, Vote 1 true)] in
  exists s0, constructor (at_time 99 1000) "Test DAO" 7 = Ok s0
    /\ succeeds (executeProposal (at_time 5 4600) 1 (run txs s0))
    /\ executeProposal (at_time 5 4599) 1 (run txs s0)
         = Revert "Voting period not ended".
Proof.
  eexists. split; [reflexivity|].
  assert (Forall (fun tx : env * call => is_address (msg_sender tx.1))
            [(at_time 7 1000, Propose "T" "D" 3600); (at_time 7 1001, Vote 1 true)])
    as Hsenders by (repeat constructor; vm_compute; congruence).
  destruct (executeProposal_spec (at_time 99 1000) "Test DAO" 7 _
              [(at_time 7 1000, Propose "T" "D" 3600); (at_time 7 1001, Vote 1 true)]
              (at_time 5 4600) 1 eq_refl Hsenders)
    as (_ & Hrun); [vm_compute; split; congruence|].
  destruct (executeProposal_spec (at_time 99 1000) "Test DAO" 7 _
              [(at_time 7 1000, Propose "T" "D" 3600); (at_time 7 1001, Vote 1 true)]
              (at_time 5 4599) 1 eq_refl Hsenders)
    as (_ & Hrun'); [vm_compute; split; congruence|].
  destruct Hrun as (Hiff & _); [vm_compute; reflexivity|].
  destruct Hrun' as (_ & _ & Hearly & _); [vm_compute; reflexivity|].
  split.
  - apply Hiff. vm_compute. repeat split; congruence.
  - apply Hearly. vm_compute. reflexivity.
Defined.

(** C1 as stated fails on a paused DAO: the four conditions hold and the
    call is rejected by [whenNotPaused]. *)
Lemma executeProposal_paused_counterexample :
  let e := at_time 5 4600 in
  let s := paused_dao in
  let p := proposal_at s 1 in
  (deadline p <= block_timestamp e /\ executed p = false
   /\ memberCount s * quorumPercentage s / 100 <= yesVotes p + noVotes p
   /\ noVotes p < yesVotes p)
  /\ executeProposal e 1 s = Revert "Pausable: paused"
  /\ ~ succeeds (executeProposal e 1 s).
Proof.
  cbv zeta. split; [|split].
  - vm_compute. repeat split; congruence.
  - vm_compute. reflexivity.
  - intros [s' Hs']. vm_compute in Hs'. discriminate.
Qed.
End DAOExecute.

(** ** Vault: calls back into the vault *)

Section VaultCallbacks.
Import Vault.

Lemma deposited_app (t : address) (evs1 evs2 : list event) :
  deposited t (evs1 ++ evs2) = deposited t evs1 + deposited t evs2.
Proof.
  unfold deposited. induction evs1 as [|ev evs1 IH]; cbn; [reflexivity | rewrite IH; lia].
Qed.

Lemma reentered_refl (s : state) : reentered s s [].
Proof.
  unfold reentered. rewrite app_nil_r. cbn.
  repeat split; first [reflexivity | by constructor | by left | (intros; unfold getBalance; cbn; lia)].
Qed.

Lemma reentered_trans (s1 s2 s3 : state) (evs1 evs2 : list event) :
  reentered s1 s2 evs1 -> reentered s2 s3 evs2 -> reentered s1 s3 (evs1 ++ evs2).
Proof.
  intros (Hev1 & Hcb1 & Hbal1 & Hz1 & Hp1 & Hc1 & Ha1 & Hl1 & Ht1 & Hd1 & He1 & Hr1)
         (Hev2 & Hcb2 & Hbal2 & Hz2 & Hp2 & Hc2 & Ha2 & Hl2 & Ht2 & Hd2 & He2 & Hr2).
  unfold reentered, signer_count in *.
  rewrite Hev2, Hev1, Hp2, Hc2, Ha2, Hl2, Ht2, Hd2, He2, <- app_assoc.
  repeat split; try assumption.
  - by apply Forall_app.
  - intros t. rewrite Hbal2, Hbal1, deposited_app. lia.
  - intros t Ht. rewrite deposited_app, Hz1, Hz2 by assumption. reflexivity.
  - rewrite Hl1 in Hr2. lia.
Qed.

(** One call back into the vault. *)
Lemma exec_callback_reentered (e : env) (c : callback) (s s' : state) :
  exec_callback e c s = Ok s' -> exists evs, reentered s s' evs.
Proof.
  destruct c; cbn [exec_callback]; intros Hc;
    unfold updateWithdrawalLimit, updateRequiredSignatures, emergencyPause, unpause,
      receive, transferOwnership, renounceOwnership, _pause, _unpause, onlyOwner,
      onlyAuthorizedSigner, whenNotPaused, whenPaused in Hc;
    inv_call Hc;
    try (exists []; apply reentered_refl).
  - (* updateWithdrawalLimit *)
    eexists [_]. unfold reentered. cbn.
    repeat split; first [reflexivity | by repeat constructor | by left | (intros; unfold getBalance; cbn; lia)].
  - (* updateRequiredSignatures *)
    exists []. unfold reentered. rewrite app_nil_r. cbn.
    repeat split; first [reflexivity | by constructor | (intros; unfold getBalance; cbn; lia) | idtac].
    right. unfold signer_count, MIN_SIGNATURES in *. lia.
  - (* emergencyPause *)
    eexists [_]. unfold reentered. cbn.
    repeat split; first [reflexivity | by repeat constructor | by left | (intros; unfold getBalance; cbn; lia)].
  - (* unpause *)
    exists []. unfold reentered. rewrite app_nil_r. cbn.
    repeat split; first [reflexivity | by constructor | by left | (intros; unfold getBalance; cbn; lia)].
  - (* receive *)
    eexists [_]. unfold reentered, getBalance. cbn.
    repeat split; first [reflexivity | by repeat constructor | by left | idtac].
    + intros t. rewrite getu_insert. case_decide; [subst t|].
      * cbn. unfold getBalance. lia.
      * unfold credited. replace (0 =? t) with false by lia. lia.
    + intros t Ht. unfold credited. replace (0 =? t) with false by lia. reflexivity.
  - (* transferOwnership *)
    exists []. unfold reentered. rewrite app_nil_r. cbn.
    repeat split; first [reflexivity | by constructor | by left | (intros; unfold getBalance; cbn; lia)].
  - (* renounceOwnership *)
    exists []. unfold reentered. rewrite app_nil_r. cbn.
    repeat split; first [reflexivity | by constructor | by left | (intros; unfold getBalance; cbn; lia)].
Qed.

(** All of them, in order. *)
Lemma reenter_reentered (x : external) (s : state) :
  exists evs, reentered s (reenter x s) evs.
Proof.
  unfold reenter. generalize (callbacks x). intros cbs. revert s.
  induction cbs as [|[e c] cbs IH]; intros s; cbn [fold_left].
  - exists []. apply reentered_refl.
  - destruct (IH (transact (exec_callback e c) s)) as (evs2 & H2).
    unfold transact in *. cbn [fst snd] in *.
    destruct (exec_callback e c s) as [s1| |] eqn:Hc; eauto.
    apply exec_callback_reentered in Hc as (evs1 & H1).
    exists (evs1 ++ evs2)%list. by eapply reentered_trans.
Qed.

(** A call back runs the entry point it enters; every other entry point is
    under [nonReentrant] and cannot be entered while an external call of
    the vault runs. *)
Lemma exec_callback_exec (e : env) (c : callback) (s : state) :
  exec_callback e c s = exec e (call_of_callback c) s.
Proof. by destruct c. Qed.

Lemma guarded_reentry_fails (e : env) (c : call) (s : state) :
  _entered s = true ->
  (exists c', c = call_of_callback c')
  \/ (exists reason, exec e c s = Revert reason).
Proof.
  intros He.
  destruct c;
    try (left;
         first [by eexists (CallbackUpdateWithdrawalLimit _)
               | by eexists (CallbackUpdateRequiredSignatures _)
               | by eexists (CallbackEmergencyPause _)
               | by exists CallbackUnpause
               | by eexists (CallbackReceive _)
               | by eexists (CallbackTransferOwnership _)
               | by exists CallbackRenounceOwnership]);
    right; cbn [exec];
    unfold depositETH, depositToken, withdraw, createSpendingProposal,
      approveSpendingProposal, executeSpendingProposal, addSigner, removeSigner,
      onlyOwner, onlyDAO, onlyAuthorizedSigner, whenNotPaused, nonReentrant, require;
    rewrite He; cbn;
    repeat (match goal with |- context [if ?c then _ else _] => destruct c end;
            cbn; eauto).
Qed.

(** The parts of the state no call back reaches. *)
Lemma reenter_frame (x : external) (s : state) :
  spendingProposals (reenter x s) = spendingProposals s
  /\ spendingProposalCount (reenter x s) = spendingProposalCount s
  /\ authorizedSigners (reenter x s) = authorizedSigners s
  /\ signerList (reenter x s) = signerList s
  /\ supportedTokens (reenter x s) = supportedTokens s
  /\ daoAddress (reenter x s) = daoAddress s
  /\ _status (reenter x s) = _status s.
Proof.
  destruct (reenter_reentered x s)
    as (evs & _ & _ & _ & _ & Hp & Hc & Ha & Hl & Ht & Hd & He & _).
  by repeat split.
Qed.

Lemma spendingProposals_reenter (x : external) (s : state) :
  spendingProposals (reenter x s) = spendingProposals s.
Proof. apply reenter_frame. Qed.

Lemma spendingProposalCount_reenter (x : external) (s : state) :
  spendingProposalCount (reenter x s) = spendingProposalCount s.
Proof. apply reenter_frame. Qed.

Lemma authorizedSigners_reenter (x : external) (s : state) :
  authorizedSigners (reenter x s) = authorizedSigners s.
Proof. apply reenter_frame. Qed.

Lemma signerList_reenter (x : external) (s : state) :
  signerList (reenter x s) = signerList s.
Proof. apply reenter_frame. Qed.

Lemma supportedTokens_reenter (x : external) (s : state) :
  supportedTokens (reenter x s) = supportedTokens s.
Proof. apply reenter_frame. Qed.

Lemma daoAddress_reenter (x : external) (s : state) :
  daoAddress (reenter x s) = daoAddress s.
Proof. apply reenter_frame. Qed.

Lemma _status_reenter (x : external) (s : state) :
  _status (reenter x s) = _status s.
Proof. apply reenter_frame. Qed.

Lemma proposal_at_reenter (x : external) (s : state) (i : uint256) :
  proposal_at (reenter x s) i = proposal_at s i.
Proof. unfold proposal_at. by rewrite spendingProposals_reenter. Qed.

Lemma getBalance_reenter (x : external) (s : state) (t : address) :
  t <> 0 -> getBalance (reenter x s) t = getBalance s t.
Proof.
  intros Ht. destruct (reenter_reentered x s) as (evs & _ & _ & Hb & Hz & _).
  rewrite Hb, Hz by assumption. lia.
Qed.

Lemma reenter_no_callback (eth : bool) (o : token_outcome) (s : state) :
  reenter (no_callback eth o) s = s.
Proof. reflexivity. Qed.
End VaultCallbacks.

(** Name what the calls back of an external call did, and forget the calls
    themselves. *)
Ltac forget_reenter :=
  repeat match goal with
         | |- context [Vault.reenter ?x ?s0] =>
             let evs := fresh "evs" in
             let Hre := fresh "Hre" in
             let r := fresh "r" in
             destruct (reenter_reentered x s0) as (evs & Hre);
             set (r := Vault.reenter x s0) in *; clearbody r
         | H : context [Vault.reenter ?x ?s0] |- _ =>
             let evs := fresh "evs" in
             let Hre := fresh "Hre" in
             let r := fresh "r" in
             destruct (reenter_reentered x s0) as (evs & Hre);
             set (r := Vault.reenter x s0) in *; clearbody r
         end.

(** ** Vault: signers and the signature threshold *)

Section VaultSigners.
Import Vault.

(** What any successful call does to the threshold and the signer count. *)
Lemma Vault_exec_threshold (e : env) (c : call) (s s' : state) :
  exec e c s = Ok s' ->
  (requiredSignatures s' = requiredSignatures s
   \/ 1 <= requiredSignatures s' <= signer_count s')
  /\ (signer_count s <= signer_count s'
      \/ (requiredSignatures s' = requiredSignatures s
          /\ requiredSignatures s <= signer_count s')).
Proof.
  unfold signer_count.
  destruct c; cbn [exec]; intros Hc;
    unfold depositETH, depositToken, withdraw, createSpendingProposal,
      approveSpendingProposal, executeSpendingProposal, _executeSpendingProposal,
      addSigner, removeSigner, updateWithdrawalLimit, updateRequiredSignatures,
      emergencyPause, unpause, receive, transferOwnership, renounceOwnership,
      _pause, _unpause, onlyOwner, onlyDAO, onlyAuthorizedSigner,
      whenNotPaused, whenPaused, nonReentrant, validSpendingProposal,
      _addSupportedToken in Hc;
    inv_call Hc; forget_reenter; cbn;
    repeat match goal with
           | H : reentered _ _ _ |- _ =>
               let Hl := fresh "Hl" in
               let Hr := fresh "Hr" in
               destruct H as (_ & _ & _ & _ & _ & _ & _ & Hl & _ & _ & _ & Hr);
               unfold signer_count in Hr; cbn in Hl, Hr; try rewrite Hl
           end;
    repeat match goal with
           | |- context [if ?b then _ else _] => destruct b
           end; cbn;
    try (split; left; (reflexivity || lia));
    repeat match goal with
           | H : signerList _ = signerList _ |- _ => try rewrite H; clear H
           end;
    try lia.
  - (* addSigner *) split; [by left|]. left. rewrite length_app. cbn. lia.
  - (* removeSigner *) split; [by left|]. right. split; [reflexivity|].
    pose proof (swap_remove_length signer (signerList s)). cbn in *. lia.
  - (* updateRequiredSignatures *) split; [right; unfold MIN_SIGNATURES in *; lia | by left].
Qed.

Lemma Vault_run_invariant (P : state -> Prop) :
  (forall e c s s', P s -> exec e c s = Ok s' -> P s') ->
  forall txs s, P s -> P (run txs s).
Proof.
  intros Hstep txs. induction txs as [|[e c] txs IH]; intros s Hs; [assumption|].
  cbn [run fold_left]. apply IH. unfold transact. cbn [fst snd].
  destruct (exec e c s) eqn:Hc; eauto.
Qed.

Lemma Vault_constructor_state (e : env) (dao : address) (limit r : uint256) (s : state) :
  constructor e dao limit r = Ok s ->
  signerList s = [msg_sender e]
  /\ authorizedSigners s = {[msg_sender e := true]}
  /\ requiredSignatures s = r /\ 1 <= r
  /\ withdrawalLimit s = limit /\ daoAddress s = dao /\ dao <> 0
  /\ owner s = msg_sender e /\ paused s = false.
Proof.
  unfold constructor. intros Hc. inv_call Hc. cbn.
  unfold MIN_SIGNATURES in *. repeat split; try done; lia.
Qed.

Lemma Vault_constructor_signers_consistent (e : env) (dao : address) (limit r : uint256)
    (s : state) :
  constructor e dao limit r = Ok s -> signers_consistent s.
Proof.
  intros Hc. apply Vault_constructor_state in Hc as (Hl & Hm & _).
  unfold signers_consistent. rewrite Hl, Hm. split; [apply NoDup_singleton|].
  intros a. rewrite list_elem_of_singleton. unfold getb.
  destruct (decide (a = msg_sender e)) as [->|Hne].
  - by rewrite lookup_singleton_eq.
  - rewrite lookup_singleton_ne by congruence. cbn. split; [discriminate | congruence].
Qed.

Lemma Vault_exec_signers_consistent (e : env) (c : call) (s s' : state) :
  signers_consistent s -> exec e c s = Ok s' -> signers_consistent s'.
Proof.
  intros [Hnd Hagree].
  destruct c; cbn [exec]; intros Hc;
    unfold depositETH, depositToken, withdraw, createSpendingProposal,
      approveSpendingProposal, executeSpendingProposal, _executeSpendingProposal,
      addSigner, removeSigner, updateWithdrawalLimit, updateRequiredSignatures,
      emergencyPause, unpause, receive, transferOwnership, renounceOwnership,
      _pause, _unpause, onlyOwner, onlyDAO, onlyAuthorizedSigner,
      whenNotPaused, whenPaused, nonReentrant, validSpendingProposal,
      _addSupportedToken in Hc;
    inv_call Hc; unfold signers_consistent; cbn in *;
    repeat match goal with
           | |- context [if ?b then _ else _] => destruct b
           end; cbn;
    rewrite ?signerList_reenter, ?authorizedSigners_reenter; cbn;
    try (split; assumption).
  - (* addSigner *) split.
    + apply NoDup_app. split; [assumption|]. split; [|apply NoDup_singleton].
      intros a Ha Hm. apply list_elem_of_singleton in Hm. subst a.
      apply Hagree in Ha. rewrite Ha in *. discriminate.
    + intros a. rewrite getb_insert, elem_of_app, list_elem_of_singleton, <- Hagree.
      case_decide; intuition congruence.
  - (* removeSigner *)
    assert (signer ∈ signerList s) as Hin by (by apply Hagree).
    destruct (swap_remove_NoDup signer (signerList s) Hnd Hin) as (Hnd' & Hmem' & _).
    split; [assumption|].
    intros a. rewrite getb_insert, Hmem', <- Hagree.
    case_decide; [subst a|]; intuition congruence.
Qed.

Lemma Vault_signers_reachable (e0 : env) (dao : address) (limit r : uint256)
    (s0 : state) (txs : list (env * call)) :
  constructor e0 dao limit r = Ok s0 -> signers_consistent (run txs s0).
Proof.
  intros Hc. apply Vault_run_invariant.
  - intros e c s s'. apply Vault_exec_signers_consistent.
  - by eapply Vault_constructor_signers_consistent.
Qed.

(** C3, as the code has it: in every state a vault reaches from its
    constructor, [requiredSignatures] is at least 1 and the signer list is
    not empty; no call after construction can leave [requiredSignatures]
    above the signer count if it was not above it before, so the bound holds
    throughout for a vault constructed with [requiredSignatures = 1], and in
    general as soon as it held once. The constructor itself only checks the
    lower bound: until then [requiredSignatures] is the constructor
    argument. *)
Theorem requiredSignatures_bounds (e0 : env) (dao : address) (limit r : uint256)
    (s0 : state) (txs : list (env * call)) :
  constructor e0 dao limit r = Ok s0 ->
  let s := run txs s0 in
  1 <= requiredSignatures s
  /\ 1 <= signer_count s
  /\ (requiredSignatures s <= signer_count s \/ requiredSignatures s = r)
  /\ (r = 1 -> requiredSignatures s <= signer_count s)
  /\ (forall e c s', requiredSignatures s <= signer_count s ->
        exec e c s = Ok s' -> requiredSignatures s' <= signer_count s').
Proof.
  intros Hc s.
  apply Vault_constructor_state in Hc as (Hl & _ & Hr & Hr1 & _).
  assert (1 <= requiredSignatures s /\ 1 <= signer_count s
          /\ (requiredSignatures s <= signer_count s \/ requiredSignatures s = r))
    as (H1 & H2 & H3).
  { subst s. apply Vault_run_invariant.
    - intros e c s1 s2 (I1 & I2 & I3) Hstep.
      destruct (Vault_exec_threshold e c s1 s2 Hstep) as [A B]. lia.
    - unfold signer_count. rewrite Hl, Hr. cbn. lia. }
  repeat split; try assumption; try lia.
  intros e c s' Hle Hstep. destruct (Vault_exec_threshold e c s s' Hstep) as [A B]. lia.
Qed.

Lemma requiredSignatures_bounds_witness :
  let s := run [(at_time 1 0, AddSigner 2);
                (at_time 1 1, UpdateRequiredSignatures 2);
                (at_time 1 2, RemoveSigner 2)]
               (transact (fun _ => constructor (at_time 1 0) 50 10 1)
                  (initial (at_time 1 0))) in
  requiredSignatures s = 2 /\ signer_count s = 2
  /\ 1 <= requiredSignatures s <= signer_count s.
Proof.
  cbv zeta.
  destruct (requiredSignatures_bounds (at_time 1 0) 50 10 1
              (transact (fun _ => constructor (at_time 1 0) 50 10 1)
                 (initial (at_time 1 0)))
              [(at_time 1 0, AddSigner 2);
               (at_time 1 1, UpdateRequiredSignatures 2);
               (at_time 1 2, RemoveSigner 2)] eq_refl)
    as (H1 & _ & _ & H4 & _).
  split; [reflexivity|]. split; [reflexivity|]. split; [exact H1 | exact (H4 eq_refl)].
Defined.

(** C3 as stated fails at construction: the constructor accepts
    [requiredSignatures = 2] for a vault whose only signer is the
    deployer. *)
Lemma constructor_requiredSignatures_counterexample :
  exists s, constructor (at_time 1 0) 50 10 2 = Ok s
    /\ requiredSignatures s = 2 /\ signer_count s = 1
    /\ ~ requiredSignatures s <= signer_count s.
Proof.
  eexists. split; [reflexivity|]. vm_compute. repeat split; congruence.
Qed.
End VaultSigners.

(** ** Vault: removing a signer, updating the parameters *)

Section VaultAdmin.
Import Vault.

(** C7, as the code has it: [removeSigner] fails whenever the signer count
    is not above [requiredSignatures], that is whenever the removal would
    drop the count strictly below it; a removal that succeeds leaves the
    count at or above [requiredSignatures] (one less than before when the
    signer list is consistent with the mapping). *)
Theorem removeSigner_threshold (e : env) (signer : address) (s : state) :
  (signer_count s <= requiredSignatures s ->
     exists reason, removeSigner e signer s = Revert reason)
  /\ (owner s = msg_sender e -> paused s = false -> _entered s = false ->
      signer <> 0 -> getb (authorizedSigners s) signer = true ->
      signer_count s <= requiredSignatures s ->
        removeSigner e signer s =
          Revert "Cannot remove signer below required threshold")
  /\ (forall s', removeSigner e signer s = Ok s' ->
        requiredSignatures s < signer_count s
        /\ requiredSignatures s' = requiredSignatures s
        /\ requiredSignatures s' <= signer_count s'
        /\ (signers_consistent s -> signer_count s' = signer_count s - 1)).
Proof.
  unfold signer_count. split; [|split].
  - intros Hle.
    unfold removeSigner, onlyOwner, whenNotPaused, nonReentrant, require. cbn.
    repeat (match goal with |- context [if ?c then _ else _] => destruct c eqn:? end;
            cbn; eauto).
    lia.
  - intros Ho Hp He Hs Ha Hle.
    unfold removeSigner, onlyOwner, whenNotPaused, nonReentrant.
    rewrite Ho, Hp, He, Z.eqb_refl. cbn. rewrite Ha.
    replace (signer =? 0) with false by lia. cbn.
    replace (requiredSignatures s <? Z.of_nat (length (signerList s)))
      with false by lia.
    reflexivity.
  - intros s' Hc.
    unfold removeSigner, onlyOwner, whenNotPaused, nonReentrant in Hc.
    inv_call Hc. cbn in *.
    pose proof (swap_remove_length signer (signerList s)) as Hlen.
    repeat split; try lia.
    intros [Hnd Hagree].
    assert (signer ∈ signerList s) as Hin by (by apply Hagree).
    destruct (swap_remove_NoDup signer (signerList s) Hnd Hin) as (_ & _ & Hl). lia.
Qed.

Lemma removeSigner_threshold_witness :
  let s := transact (removeSigner (at_time 1 5) 2) two_signer_vault in
  signerList s = [1]
  /\ removeSigner (at_time 1 6) 1 s =
       Revert "Cannot remove signer below required threshold".
Proof.
  cbv zeta. split; [reflexivity|].
  destruct (removeSigner_threshold (at_time 1 6) 1
              (transact (removeSigner (at_time 1 5) 2) two_signer_vault))
    as (_ & Hfail & _).
  apply Hfail; vm_compute; congruence.
Defined.

(** C7 as stated fails: with two signers and [requiredSignatures = 1] the
    removal drops the count to 1, a value at [requiredSignatures], and
    succeeds. *)
Lemma removeSigner_at_threshold_counterexample :
  let s := two_signer_vault in
  let s' := transact (removeSigner (at_time 1 5) 2) s in
  signer_count s - 1 <= requiredSignatures s
  /\ succeeds (removeSigner (at_time 1 5) 2 s)
  /\ signer_count s' = requiredSignatures s'
  /\ ~ (requiredSignatures s' < signer_count s').
Proof.
  cbv zeta. split; [|split; [|split]].
  - vm_compute. congruence.
  - eexists. vm_compute. reflexivity.
  - reflexivity.
  - vm_compute. congruence.
Qed.

(** C6, as the code has it: both updates are owner-only.
    [updateWithdrawalLimit] stores whatever limit the owner passes, without
    any bounds check. [updateRequiredSignatures] succeeds exactly for values
    in [1, signer count]; other values fail with their reason and change
    nothing. *)
Theorem parameter_updates (e : env) (s : state) :
  (forall newLimit,
     (owner s <> msg_sender e ->
        updateWithdrawalLimit e newLimit s = Revert "Ownable: caller is not the owner")
     /\ (owner s = msg_sender e ->
           updateWithdrawalLimit e newLimit s =
             Ok (emit (WithdrawalLimitUpdated (withdrawalLimit s) newLimit)
                   (set_withdrawalLimit newLimit s))
           /\ withdrawalLimit (transact (updateWithdrawalLimit e newLimit) s) = newLimit))
  /\ (forall n,
        (owner s <> msg_sender e ->
           updateRequiredSignatures e n s = Revert "Ownable: caller is not the owner")
        /\ (owner s = msg_sender e -> n < 1 ->
              updateRequiredSignatures e n s = Revert "Invalid signature requirement")
        /\ (owner s = msg_sender e -> 1 <= n -> signer_count s < n ->
              updateRequiredSignatures e n s =
                Revert "Required signatures exceed signer count")
        /\ (owner s = msg_sender e -> 1 <= n <= signer_count s ->
              updateRequiredSignatures e n s = Ok (set_requiredSignatures n s))
        /\ (forall s', updateRequiredSignatures e n s = Ok s' ->
              requiredSignatures s' = n
              /\ 1 <= requiredSignatures s' <= signer_count s')
        /\ (~ (1 <= n <= signer_count s) ->
              transact (updateRequiredSignatures e n) s = s)).
Proof.
  unfold signer_count. split.
  - intros newLimit. unfold transact, updateWithdrawalLimit, onlyOwner. split.
    + intros Ho. replace (owner s =? msg_sender e) with false by lia. reflexivity.
    + intros Ho. rewrite Ho, Z.eqb_refl. cbn. split; reflexivity.
  - intros n. unfold transact, updateRequiredSignatures, onlyOwner, MIN_SIGNATURES.
    split; [|split; [|split; [|split; [|split]]]].
    + intros Ho. replace (owner s =? msg_sender e) with false by lia. reflexivity.
    + intros Ho Hn. rewrite Ho, Z.eqb_refl. cbn.
      replace (1 <=? n) with false by lia. reflexivity.
    + intros Ho Hn Hc. rewrite Ho, Z.eqb_refl. cbn.
      replace (1 <=? n) with true by lia. cbn.
      replace (n <=? Z.of_nat (length (signerList s))) with false by lia. reflexivity.
    + intros Ho Hn. rewrite Ho, Z.eqb_refl. cbn.
      replace (1 <=? n) with true by lia. cbn.
      replace (n <=? Z.of_nat (length (signerList s))) with true by lia. reflexivity.
    + intros s' Hc. inv_call Hc. cbn. split; [reflexivity | lia].
    + intros Hn.
      destruct (require (owner s =? msg_sender e) "Ownable: caller is not the owner")
        as [[]| |]; cbn; try reflexivity.
      destruct (Z.leb_spec 1 n); cbn; try reflexivity.
      destruct (Z.leb_spec n (Z.of_nat (length (signerList s)))); cbn; try reflexivity.
      lia.
Qed.

Lemma parameter_updates_witness :
  let s := two_signer_vault in
  updateRequiredSignatures (at_time 1 5) 2 s = Ok (set_requiredSignatures 2 s)
  /\ updateRequiredSignatures (at_time 1 5) 3 s =
       Revert "Required signatures exceed signer count"
  /\ updateRequiredSignatures (at_time 2 5) 2 s =
       Revert "Ownable: caller is not the owner".
Proof.
  cbv zeta.
  destruct (parameter_updates (at_time 1 5) two_signer_vault) as [_ Hsig].
  destruct (parameter_updates (at_time 2 5) two_signer_vault) as [_ Hother].
  destruct (Hsig 2) as (_ & _ & _ & Hok & _).
  destruct (Hsig 3) as (_ & _ & Hhigh & _).
  destruct (Hother 2) as (Hno & _).
  split; [|split].
  - apply Hok; vm_compute; [reflexivity | split; congruence].
  - apply Hhigh; vm_compute; congruence.
  - apply Hno. vm_compute. congruence.
Defined.

(** C6 as stated fails: the owner can set a withdrawal limit of 0, or of
    2000 ether, both outside [0.01 ether, 1000 ether]. *)
Lemma updateWithdrawalLimit_unbounded_counterexample :
  let s := two_signer_vault in
  let low := transact (updateWithdrawalLimit (at_time 1 5) 0) s in
  let high := transact (updateWithdrawalLimit (at_time 1 5) (2000 * 10 ^ 18)) s in
  succeeds (updateWithdrawalLimit (at_time 1 5) 0 s)
  /\ withdrawalLimit low = 0
  /\ ~ (VaultFactory.MIN_WITHDRAWAL_LIMIT <= withdrawalLimit low)
  /\ succeeds (updateWithdrawalLimit (at_time 1 5) (2000 * 10 ^ 18) s)
  /\ ~ (withdrawalLimit high <= VaultFactory.MAX_WITHDRAWAL_LIMIT).
Proof.
  cbv zeta. repeat split.
  - eexists. vm_compute. reflexivity.
  - vm_compute. congruence.
  - eexists. vm_compute. reflexivity.
  - vm_compute. congruence.
Qed.
End VaultAdmin.

(** ** VaultFactory: the vault it creates *)

Section VaultFactoryCreation.
Import VaultFactory.

Lemma example_vault_factory_constructed :
  constructor (at_time 1 0) 500 (10 ^ 18) 1 = Ok example_vault_factory.
Proof. vm_compute. reflexivity. Qed.

(** The vault a successful [_createVault] leaves on the chain. *)
Lemma _createVault_deployed (e : env) (vaultAddress dao : address)
    (limit r : uint256) (s s' : state) :
  _createVault e vaultAddress dao limit r s = Ok s' ->
  this s' = this s
  /\ exists v, deployed s' !! vaultAddress = Some v
       /\ Vault.signerList v = [this s]
       /\ Vault.authorizedSigners v = {[this s := true]}
       /\ owner v = msg_sender e
       /\ Vault.requiredSignatures v = r
       /\ Vault.withdrawalLimit v = limit
       /\ Vault.daoAddress v = dao
       /\ 1 <= r <= 20.
Proof.
  unfold _createVault. intros Hc. inv_call Hc.
  apply Vault_constructor_state in Hcall
    as (Hl & Hm & Hr & _ & Hlim & Hdao & _ & Ho & _).
  unfold transferOwnership, onlyOwner in Hcall0. inv_call Hcall0.
  cbn in *. split; [reflexivity|].
  eexists. split; [apply lookup_insert_eq|]. cbn.
  unfold MIN_REQUIRED_SIGNATURES, MAX_REQUIRED_SIGNATURES in *.
  repeat split; try assumption; lia.
Qed.

(** [_createVault] goes through when its five checks pass, the caller is
    not the zero address and the vault counter can grow. *)
Lemma _createVault_Ok (e : env) (vaultAddress dao : address) (limit r : uint256)
    (s : state) :
  dao <> 0 -> msg_sender e <> 0 ->
  MIN_WITHDRAWAL_LIMIT <= limit <= MAX_WITHDRAWAL_LIMIT ->
  MIN_REQUIRED_SIGNATURES <= r <= MAX_REQUIRED_SIGNATURES ->
  getDAOVaultCount s dao < MAX_VAULTS_PER_DAO ->
  vaultCount s < MAX_UINT256 ->
  exists s', _createVault e vaultAddress dao limit r s = Ok s'.
Proof.
  intros Hd Hsender Hl Hr Hcap Hcount. unfold getDAOVaultCount in Hcap.
  unfold _createVault.
  replace (negb (dao =? 0)) with true by lia. cbn.
  replace ((MIN_WITHDRAWAL_LIMIT <=? limit) && (limit <=? MAX_WITHDRAWAL_LIMIT))
    with true by lia.
  cbn.
  replace ((MIN_REQUIRED_SIGNATURES <=? r) && (r <=? MAX_REQUIRED_SIGNATURES))
    with true by lia.
  cbn.
  replace (Z.of_nat (length (getl (daoVaults s) dao)) <? MAX_VAULTS_PER_DAO)
    with true by lia.
  cbn. unfold Vault.constructor, Vault.MIN_SIGNATURES. cbn.
  replace (negb (dao =? 0)) with true by lia. cbn.
  unfold MIN_REQUIRED_SIGNATURES in Hr.
  replace (1 <=? r) with true by lia. cbn.
  unfold transferOwnership, onlyOwner. cbn. rewrite Z.eqb_refl. cbn.
  replace (negb (msg_sender e =? 0)) with true by lia. cbn.
  rewrite checked_add_Ok by lia. cbn. by eexists.
Qed.

(** The vault of a completed [_createVault], for a caller other than the
    factory. *)
Lemma _createVault_created_for (e : env) (vaultAddress dao : address)
    (limit r : uint256) (s s' : state) :
  msg_sender e <> this s ->
  _createVault e vaultAddress dao limit r s = Ok s' ->
  exists v, deployed s' !! vaultAddress = Some v
    /\ created_for (this s) (msg_sender e) dao limit r v.
Proof.
  intros Hne Hc.
  apply _createVault_deployed in Hc as (_ & v & Hv & Hl & Hm & Ho & Hr & Hlim & Hdao & _).
  exists v. split; [assumption|].
  unfold created_for, Vault.getSigners. rewrite Hl, Hm. unfold getb.
  rewrite lookup_singleton_eq, lookup_singleton_ne by congruence. cbn.
  repeat split; try assumption.
  rewrite list_elem_of_singleton. assumption.
Qed.

(** C9: each of the three creation paths, called by an address other than
    the factory itself, succeeds when the factory is not already creating
    a vault, the DAO address and the caller are not zero, the DAO has fewer
    than five vaults, the vault counter can grow and the limit and number
    of signatures it passes on are within the bounds of the factory; it
    returns the address of the new vault, whose signer list is the
    factory's address alone, whose owner is the caller, and the caller is
    no authorized signer. No creation succeeds in another way. *)
Theorem created_vault_signers (e : env) (vaultAddress dao : address)
    (limit r : uint256) (s : state) :
  msg_sender e <> this s ->
  let created (lim sig : uint256) (res : result (address * state)) :=
    (_entered s = false -> dao <> 0 -> msg_sender e <> 0 ->
     getDAOVaultCount s dao < MAX_VAULTS_PER_DAO -> vaultCount s < MAX_UINT256 ->
     MIN_WITHDRAWAL_LIMIT <= lim <= MAX_WITHDRAWAL_LIMIT ->
     MIN_REQUIRED_SIGNATURES <= sig <= MAX_REQUIRED_SIGNATURES ->
     succeeds res)
    /\ (forall a s', res = Ok (a, s') ->
          a = vaultAddress
          /\ exists v, deployed s' !! a = Some v
               /\ created_for (this s) (msg_sender e) dao lim sig v) in
  created limit (defaultRequiredSignatures s)
    (createVault e vaultAddress dao limit s)
  /\ created limit r
       (createVaultWithCustomParams e vaultAddress dao limit r s)
  /\ created (defaultWithdrawalLimit s) (defaultRequiredSignatures s)
       (createDefaultVault e vaultAddress dao s).
Proof.
  intros Hne created.
  assert (forall lim sig res,
            res = (s1 ← nonReentrant (_createVault e vaultAddress dao lim sig) s;
                   Ok (vaultAddress, s1)) ->
            created lim sig res) as Hpath.
  { intros lim sig res ->. split.
    - intros He Hd Hsender Hcap Hcount Hl Hr.
      destruct (_createVault_Ok e vaultAddress dao lim sig (_setEntered true s))
        as [s1 Hs1]; try assumption.
      unfold nonReentrant. rewrite He. cbn in *. rewrite Hs1. cbn. by eexists.
    - intros a s' Hc. unfold nonReentrant in Hc. inv_call Hc.
      split; [reflexivity|].
      match goal with
      | H : _createVault _ _ _ _ _ _ = Ok _ |- _ =>
          apply _createVault_created_for in H as (v & Hv & Hfor); [|exact Hne]
      end.
      subst s'. exists v. split; [exact Hv | exact Hfor]. }
  split; [|split]; apply Hpath; reflexivity.
Qed.

Lemma created_vault_signers_witness :
  let s := example_vault_factory in
  (exists s' v,
     createVault (at_time 7 10) 600 50 (2 * 10 ^ 18) s = Ok (600, s')
     /\ deployed s' !! 600 = Some v
     /\ Vault.getSigners v = [500] /\ owner v = 7
     /\ getb (Vault.authorizedSigners v) 7 = false)
  /\ (exists s' v,
        createVaultWithCustomParams (at_time 7 10) 600 50 (2 * 10 ^ 18) 3 s = Ok (600, s')
        /\ deployed s' !! 600 = Some v
        /\ Vault.getSigners v = [500] /\ owner v = 7
        /\ getb (Vault.authorizedSigners v) 7 = false)
  /\ (exists s' v,
        createDefaultVault (at_time 7 10) 600 50 s = Ok (600, s')
        /\ deployed s' !! 600 = Some v
        /\ Vault.getSigners v = [500] /\ owner v = 7
        /\ getb (Vault.authorizedSigners v) 7 = false).
Proof.
  cbv zeta.
  destruct (created_vault_signers (at_time 7 10) 600 50 (2 * 10 ^ 18) 3
              example_vault_factory ltac:(vm_compute; congruence))
    as ((Hok1 & Hres1) & (Hok2 & Hres2) & (Hok3 & Hres3)).
  split; [|split].
  - destruct Hok1 as [[a s'] Hc]; try (vm_compute; (reflexivity || congruence));
      try (split; vm_compute; congruence).
    destruct (Hres1 a s' Hc) as (-> & v & Hv & Hl & _ & _ & Ho & Ha & _).
    exists s', v. repeat split; assumption.
  - destruct Hok2 as [[a s'] Hc]; try (vm_compute; (reflexivity || congruence));
      try (split; vm_compute; congruence).
    destruct (Hres2 a s' Hc) as (-> & v & Hv & Hl & _ & _ & Ho & Ha & _).
    exists s', v. repeat split; assumption.
  - destruct Hok3 as [[a s'] Hc]; try (vm_compute; (reflexivity || congruence));
      try (split; vm_compute; congruence).
    destruct (Hres3 a s' Hc) as (-> & v & Hv & Hl & _ & _ & Ho & Ha & _).
    exists s', v. repeat split; assumption.
Defined.

(** The factory accepts up to 20 required signatures for the one-signer
    vault it creates. *)
Lemma factory_requiredSignatures_above_signer_count :
  exists s' v,
    createVaultWithCustomParams (at_time 7 10) 600 50 (10 ^ 18) 3 example_vault_factory
      = Ok (600, s')
    /\ deployed s' !! 600 = Some v
    /\ Vault.requiredSignatures v = 3 /\ signer_count v = 1.
Proof.
  eexists _, _. split; [vm_compute; reflexivity|].
  split; [vm_compute; reflexivity|]. split; reflexivity.
Qed.
End VaultFactoryCreation.

(** ** Vault: spending proposals *)

Section VaultSpending.
Import Vault.

Lemma set_executed_same (b : bool) (p : SpendingProposal) :
  executed p = b -> set_executed b p = p.
Proof. destruct p. cbn. by intros ->. Qed.

Lemma proposal_at_store (proposalId : uint256) (p : SpendingProposal) (s : state) :
  proposal_at (store_proposal proposalId p s) proposalId = p.
Proof. unfold proposal_at. cbn. by rewrite lookup_insert_eq. Qed.

Lemma proposal_at_set_balance (t : address) (v j : uint256) (s : state) :
  proposal_at (set_balance t v s) j = proposal_at s j.
Proof. reflexivity. Qed.

Lemma getBalance_store (proposalId : uint256) (p : SpendingProposal) (s : state)
    (t : address) :
  getBalance (store_proposal proposalId p s) t = getBalance s t.
Proof. reflexivity. Qed.

Lemma getBalance_set_balance (t t' : address) (v : uint256) (s : state) :
  getBalance (set_balance t v s) t' = if decide (t = t') then v else getBalance s t'.
Proof. unfold getBalance. cbn. apply getu_insert. Qed.

Lemma reentered_no_callback (x : external) (s : state) (evs : list event) :
  callbacks x = [] -> reentered s (reenter x s) evs -> evs = [].
Proof.
  intros Hx (Hev & _). unfold reenter in Hev. rewrite Hx in Hev. cbn in Hev.
  apply (app_inv_head (events s)). by rewrite app_nil_r.
Qed.

(** What a completed [_executeSpendingProposal] did: [success] is the flag
    of the transfer and [evs] what the callee had the vault log by calling
    back while the transfer ran. *)
Lemma _executeSpendingProposal_inv (x : external) (proposalId : uint256)
    (s s' : state) (p : SpendingProposal) :
  proposal_at s proposalId = p ->
  _executeSpendingProposal x proposalId s = Ok s' ->
  exists success evs,
    transfer_success x (token p) = Ok success
    /\ amount p <= getBalance s (token p)
    /\ events s' = (events s ++ evs ++ [SpendingProposalExecuted proposalId success])%list
    /\ Forall (fun ev => is_callback_event ev = true) evs
    /\ (success = false \/ callbacks x = [] -> evs = [])
    /\ proposal_at s' proposalId = set_executed success p
    /\ (forall j, j <> proposalId -> proposal_at s' j = proposal_at s j)
    /\ (forall t, getBalance s' t =
          (if success && bool_decide (t = token p)
           then getBalance s t - amount p else getBalance s t) + deposited t evs)
    /\ (forall t, t <> 0 -> deposited t evs = 0)
    /\ (requiredSignatures s' = requiredSignatures s
        \/ 1 <= requiredSignatures s' <= signer_count s)
    /\ signerList s' = signerList s
    /\ authorizedSigners s' = authorizedSigners s
    /\ supportedTokens s' = supportedTokens s
    /\ daoAddress s' = daoAddress s
    /\ _entered s' = _entered s
    /\ spendingProposalCount s' = spendingProposalCount s
    /\ (success = false ->
        paused s' = paused s /\ owner s' = owner s
        /\ withdrawalLimit s' = withdrawalLimit s
        /\ requiredSignatures s' = requiredSignatures s).
Proof.
  intros <- Hc. unfold _executeSpendingProposal in Hc. cbv beta zeta in Hc.
  set (p := proposal_at s proposalId) in *.
  apply bind_Ok_inv in Hc as (b & Hsub & Hc).
  apply checked_sub_Ok_inv in Hsub as [-> Hle].
  apply bind_Ok_inv in Hc as (success & Hts & Hc).
  exists success. destruct success.
  - (* the transfer went through: the calls back of the callee stay *)
    cbn in Hc. injection Hc as <-.
    match goal with
    | |- context [reenter x ?s1] =>
        pose proof (reenter_reentered x s1) as (evs & Hre);
        pose proof (reentered_no_callback x s1 evs) as Hnone;
        destruct Hre as (Hev & Hcb & Hbal & Hz & Hp & Hcnt & Ha & Hl & Ht & Hd & He & Hr);
        specialize (Hnone) ; set (r := reenter x s1) in *
    end.
    exists evs. cbn in Hev, Hp, Hcnt, Ha, Hl, Ht, Hd, He, Hr.
    split; [exact Hts|]. split; [exact Hle|].
    split; [cbn; by rewrite Hev, <- app_assoc|].
    split; [exact Hcb|].
    split.
    { intros [Hf|Hx]; [discriminate|]. apply Hnone; [exact Hx|].
      unfold reentered. by repeat split. }
    split; [unfold proposal_at; cbn; rewrite Hp; cbn; by rewrite lookup_insert_eq|].
    split.
    { intros j Hj. unfold proposal_at. cbn. rewrite Hp. cbn.
      by rewrite lookup_insert_ne. }
    split.
    { intros t. change (getBalance (emit _ r) t) with (getBalance r t).
      rewrite Hbal, getBalance_set_balance, getBalance_store. cbn.
      case_bool_decide; case_decide; try congruence; reflexivity. }
    split; [exact Hz|].
    split; [exact Hr|].
    repeat split; try assumption. all: discriminate.
  - (* the transfer failed: the two writes are undone *)
    exists []. inv_call Hc. cbn.
    split; [exact Hts|]. split; [exact Hle|].
    split; [reflexivity|]. split; [constructor|]. split; [reflexivity|].
    split; [unfold proposal_at; cbn; by rewrite !lookup_insert_eq|].
    split.
    { intros j Hj. unfold proposal_at. cbn. by rewrite !lookup_insert_ne. }
    split.
    { intros t. unfold getBalance, proposal_at. cbn.
      rewrite !lookup_insert_eq. cbn. rewrite !getu_insert.
      repeat case_decide; subst; try congruence; unfold getBalance; lia. }
    split; [reflexivity|]. split; [by left|].
    repeat split; reflexivity.
Qed.



(** *** The two policies on a failed transfer *)

(** [withdraw]: a failed transfer fails the call, and nothing persists. *)
Lemma withdraw_failed_transfer (e : env) (x : external) (token_ : address)
    (amount_ : uint256) (recipient_ : address) (s : state) :
  (if token_ =? 0 then eth_call x = false
   else token_call x <> Returned true /\ token_call x <> ReturnedNothing) ->
  ~ succeeds (withdraw e x token_ amount_ recipient_ s)
  /\ transact (withdraw e x token_ amount_ recipient_) s = s.
Proof.
  intros Hfail.
  assert (~ succeeds (withdraw e x token_ amount_ recipient_ s)) as Hno.
  { intros [s' Hc]. unfold withdraw, onlyDAO, whenNotPaused, nonReentrant in Hc.
    inv_call Hc.
    - congruence.
    - destruct Hfail as [H1 H2].
      destruct (token_call x) as [[|]| | |[]|]; cbn in *; congruence. }
  split; [assumption|]. unfold transact.
  destruct (withdraw e x token_ amount_ recipient_ s) eqn:Hc; try reflexivity.
  exfalso. apply Hno. by eexists.
Qed.

(** [_executeSpendingProposal]: when the success flag is false the call
    completes and both writes are undone. *)
Lemma _executeSpendingProposal_soft_failure (x : external) (proposalId : uint256)
    (s : state) :
  let p := proposal_at s proposalId in
  amount p <= getBalance s (token p) <= MAX_UINT256 ->
  transfer_success x (token p) = Ok false ->
  exists s', _executeSpendingProposal x proposalId s = Ok s'
    /\ (forall t, getBalance s' t = getBalance s t)
    /\ proposal_at s' proposalId = set_executed false p
    /\ events s' = (events s ++ [SpendingProposalExecuted proposalId false])%list.
Proof.
  intros p [Hle Hmax] Hfail.
  assert (exists s', _executeSpendingProposal x proposalId s = Ok s') as [s' Hc].
  { unfold _executeSpendingProposal. fold p. cbv beta zeta.
    rewrite getBalance_store, checked_sub_Ok, bind_Ok, Hfail, bind_Ok by lia.
    rewrite proposal_at_set_balance, proposal_at_store. cbn [token amount set_executed].
    rewrite getBalance_store, getBalance_set_balance, decide_True by reflexivity.
    rewrite checked_add_Ok by lia. do 2 rewrite bind_Ok. eauto. }
  exists s'. split; [assumption|].
  apply (_executeSpendingProposal_inv _ _ _ _ p eq_refl) in Hc
    as (success & evs & Hts & _ & Hev & _ & Hnone & Hp & _ & Hbal & _).
  fold p in Hfail. rewrite Hfail in Hts. injection Hts as <-.
  rewrite (Hnone (or_introl eq_refl)) in *. cbn in Hbal, Hev.
  repeat split; try assumption. intros t. rewrite Hbal. lia.
Qed.

(** [executeSpendingProposal] with a failed transfer completes, leaves every
    balance and the proposal as they were, and can be called again. *)
Lemma executeSpendingProposal_soft_failure (x : external) (proposalId : uint256)
    (s : state) :
  let p := proposal_at s proposalId in
  paused s = false -> _entered s = false ->
  0 < proposalId <= spendingProposalCount s ->
  requiredSignatures s <= approvals p -> executed p = false ->
  amount p <= getBalance s (token p) <= MAX_UINT256 ->
  transfer_success x (token p) = Ok false ->
  exists s', executeSpendingProposal x proposalId s = Ok s'
    /\ (forall t, getBalance s' t = getBalance s t)
    /\ proposal_at s' proposalId = p
    /\ events s' = (events s ++ [SpendingProposalExecuted proposalId false])%list
    /\ paused s' = false /\ _entered s' = false
    /\ spendingProposalCount s' = spendingProposalCount s
    /\ requiredSignatures s' = requiredSignatures s.
Proof.
  intros p Hp He Hid Happ Hex Hbal Hfail.
  destruct (_executeSpendingProposal_soft_failure x proposalId (_setEntered true s))
    as (s1 & Hc & Hb1 & Hp1 & Hev1); [exact Hbal | exact Hfail |].
  pose proof (_executeSpendingProposal_inv x proposalId (_setEntered true s) s1 p
                eq_refl Hc)
    as (success & evs & Hts & _ & _ & _ & _ & _ & _ & _ & _ & _ & _ & _ & _ & _ & _
        & Hcount & Hsame).
  fold p in Hfail. rewrite Hfail in Hts. injection Hts as <-.
  destruct (Hsame eq_refl) as (Hpaused & _ & _ & Hreq).
  exists (_setEntered false s1). split.
  - unfold executeSpendingProposal, whenNotPaused, nonReentrant, validSpendingProposal.
    rewrite Hp, He. cbn.
    replace ((0 <? proposalId) && (proposalId <=? spendingProposalCount s))
      with true by lia.
    cbn. change (proposal_at (set_status true s) proposalId) with p.
    replace (requiredSignatures s <=? approvals p) with true by lia. cbn.
    rewrite Hex. cbn.
    change (getBalance (set_status true s) (token p)) with (getBalance s (token p)).
    replace (amount p <=? getBalance s (token p)) with true by lia. cbn.
    cbn in Hc. by rewrite Hc.
  - change (proposal_at (_setEntered true s) proposalId) with p in Hp1.
    rewrite (set_executed_same false p Hex) in Hp1.
    cbn in *. repeat split; try assumption; congruence.
Qed.

(** The auto-execute path with a failed transfer: the approval is kept, the
    execution is undone. *)
Lemma approveSpendingProposal_soft_failure (e : env) (x : external)
    (proposalId : uint256) (s s' : state) :
  let p := proposal_at s proposalId in
  approveSpendingProposal e x proposalId s = Ok s' ->
  transfer_success x (token p) = Ok false ->
  executed (proposal_at s' proposalId) = false
  /\ approvals (proposal_at s' proposalId) = approvals p + 1
  /\ (forall t, getBalance s' t = getBalance s t).
Proof.
  intros p Hc Hfail.
  unfold approveSpendingProposal, onlyAuthorizedSigner, whenNotPaused,
    nonReentrant, validSpendingProposal in Hc.
  inv_call Hc; change (proposal_at (_setEntered true s) proposalId) with p in *.
  - match goal with
    | H : _executeSpendingProposal _ _ _ = Ok _ |- _ =>
        eapply (_executeSpendingProposal_inv _ _ _ _
                  (add_approval (msg_sender e) (approvals p + 1) p)) in H
          as (success & evs & Hts & _ & _ & _ & Hnone & Hp & _ & Hbal & _);
        [|unfold proposal_at; cbn; by rewrite lookup_insert_eq]
    end.
    cbn in Hts, Hp, Hbal. rewrite Hfail in Hts. injection Hts as <-.
    rewrite (Hnone (or_introl eq_refl)) in Hbal.
    unfold proposal_at in Hp |- *. cbn. rewrite Hp. cbn.
    repeat split. intros t. etransitivity; [apply Hbal|].
    unfold getBalance. cbn. lia.
  - unfold proposal_at. cbn. rewrite lookup_insert_eq. cbn.
    change (default empty_proposal (spendingProposals s !! proposalId)) with p.
    repeat split. by destruct (executed p).
Qed.

(** C2 at a token whose [transfer] returns [false] without reverting: the
    [try] of [_executeSpendingProposal] takes its success branch, so the
    proposal is marked executed and the balance stays decremented, while
    [withdraw], which goes through [safeTransfer], fails on the same
    outcome. *)
Theorem token_false_return_taken_as_success :
  let x := no_callback false (Returned false) in
  let s := token_vault in
  let s' := transact (approveSpendingProposal (at_time 1 5) x 1) s in
  succeeds (approveSpendingProposal (at_time 1 5) x 1 s)
  /\ executed (proposal_at s' 1) = true
  /\ getBalance s 5 = 100 /\ getBalance s' 5 = 50
  /\ last (events s') = Some (SpendingProposalExecuted 1 true)
  /\ (exists reason, executeSpendingProposal x 1 s' = Revert reason)
  /\ withdraw (at_time 50 5) x 5 5 77 s =
       Revert "SafeERC20: ERC20 operation did not succeed".
Proof.
  cbv zeta. repeat split; try (vm_compute; reflexivity).
  - eexists. vm_compute. reflexivity.
  - eexists. vm_compute. reflexivity.
Qed.
End VaultSpending.

(** ** Vault: the pause *)

Section VaultPause.
Import Vault.

(** A paused vault rejects the guarded entry points. *)
Lemma paused_vault_rejects (e : env) (x : external) (s : state) :
  paused s = true ->
  (forall v, depositETH e v s = Revert "Pausable: paused")
  /\ (forall t a, depositToken e x t a s = Revert "Pausable: paused")
  /\ (forall t a r, exists reason, withdraw e x t a r s = Revert reason)
  /\ (forall t a r d, exists reason, createSpendingProposal e t a r d s = Revert reason)
  /\ (forall i, exists reason, approveSpendingProposal e x i s = Revert reason)
  /\ (forall i, executeSpendingProposal x i s = Revert "Pausable: paused").
Proof.
  intros Hp.
  unfold depositETH, depositToken, withdraw, createSpendingProposal,
    approveSpendingProposal, executeSpendingProposal, onlyDAO,
    onlyAuthorizedSigner, whenNotPaused.
  rewrite Hp. cbn. repeat split; intros;
    match goal with
    | |- context [require ?c ?m] => destruct c; cbn; eauto
    end.
Qed.

(** While the vault is paused, the only call that changes a tracked balance
    is the plain ETH transfer handled by [receive]. *)
Lemma paused_vault_balances (e : env) (c : call) (s s' : state) :
  paused s = true -> exec e c s = Ok s' ->
  (forall t, getBalance s' t = getBalance s t)
  \/ (exists v, c = Receive v /\ 0 < v /\ getBalance s' 0 = getBalance s 0 + v).
Proof.
  intros Hp.
  destruct c; cbn [exec]; intros Hc;
    unfold depositETH, depositToken, withdraw, createSpendingProposal,
      approveSpendingProposal, executeSpendingProposal,
      addSigner, removeSigner, updateWithdrawalLimit, updateRequiredSignatures,
      emergencyPause, unpause, receive, transferOwnership, renounceOwnership,
      _pause, _unpause, onlyOwner, onlyDAO, onlyAuthorizedSigner,
      whenNotPaused, whenPaused, nonReentrant, validSpendingProposal in Hc;
    inv_call Hc; cbn in *;
    try match goal with
        | H : negb (_paused s) = true |- _ => rewrite Hp in H; discriminate H
        end;
    try (by left).
  right. exists msg_value. unfold getBalance. cbn. rewrite getu_insert.
  repeat split; try lia.
Qed.

(** C8 at a plain ETH transfer to a paused vault: [depositETH] is rejected
    by [whenNotPaused], [receive] has no such guard and credits the tracked
    native balance. *)
Theorem receive_credits_paused_vault :
  let s := paused_vault in
  let s' := transact (receive (at_time 9 4) 5) s in
  paused s = true
  /\ depositETH (at_time 9 4) 5 s = Revert "Pausable: paused"
  /\ succeeds (receive (at_time 9 4) 5 s)
  /\ getBalance s 0 = 100 /\ getBalance s' 0 = 105
  /\ paused s' = true.
Proof.
  cbv zeta. repeat split; try (vm_compute; reflexivity).
  eexists. vm_compute. reflexivity.
Qed.
End VaultPause.

(** ** Vault: no proposal pays out twice *)

Section VaultPayouts.
Import Vault.

Lemma payouts_emit (i : uint256) (ev : event) (s : state) :
  payouts i (emit ev s) = (payouts i s + if is_payout i ev then 1 else 0)%nat.
Proof.
  unfold payouts. cbn. rewrite List.filter_app, length_app. cbn.
  by destruct (is_payout i ev).
Qed.

Lemma payouts_events (i : uint256) (s s' : state) :
  events s' = events s -> payouts i s' = payouts i s.
Proof. unfold payouts. by intros ->. Qed.

Lemma payouts_bounded_frame (s s' : state) (evs : list event) :
  payouts_bounded s ->
  events s' = (events s ++ evs)%list ->
  (forall i, List.filter (is_payout i) evs = []) ->
  (forall i, executed (proposal_at s' i) = executed (proposal_at s i)) ->
  payouts_bounded s'.
Proof.
  intros Hb Hev Hno Hex i. unfold payouts. rewrite Hev, List.filter_app, Hno, app_nil_r.
  rewrite Hex. apply Hb.
Qed.

(** What a call back logs is no payout. *)
Lemma callback_events_no_payout (i : uint256) (evs : list event) :
  Forall (fun ev => is_callback_event ev = true) evs ->
  List.filter (is_payout i) evs = [].
Proof.
  induction 1 as [|ev evs Hev _ IH]; [reflexivity|].
  cbn. rewrite IH. by destruct ev.
Qed.

(** Running [_executeSpendingProposal] on a proposal that is not executed
    keeps the bound. *)
Lemma _executeSpendingProposal_payouts (x : external) (proposalId : uint256)
    (s s' : state) :
  payouts_bounded s ->
  executed (proposal_at s proposalId) = false ->
  _executeSpendingProposal x proposalId s = Ok s' ->
  payouts_bounded s'.
Proof.
  intros Hb Hex Hc i.
  apply (_executeSpendingProposal_inv _ _ _ _ _ eq_refl) in Hc
    as (success & evs & _ & _ & Hev & Hcb & _ & Hp & Hother & _).
  unfold payouts.
  rewrite Hev, !List.filter_app, (callback_events_no_payout i evs Hcb), !length_app.
  destruct (decide (i = proposalId)) as [->|Hne].
  - pose proof (Hb proposalId) as Hi. rewrite Hex in Hi. unfold payouts in Hi.
    rewrite Hp. cbn. rewrite Z.eqb_refl.
    destruct success; cbn; lia.
  - rewrite (Hother i Hne). pose proof (Hb i) as Hi. unfold payouts in Hi.
    replace (List.filter (is_payout i) [SpendingProposalExecuted proposalId success])
      with (@nil event); [cbn; lia|].
    cbn. destruct success; [|reflexivity].
    by replace (proposalId =? i) with false by lia.
Qed.

Lemma Vault_exec_payouts (e : env) (c : call) (s s' : state) :
  payouts_bounded s -> exec e c s = Ok s' -> payouts_bounded s'.
Proof.
  intros Hb.
  destruct c; cbn [exec]; intros Hc;
    unfold depositETH, depositToken, withdraw, createSpendingProposal,
      approveSpendingProposal, executeSpendingProposal,
      addSigner, removeSigner, updateWithdrawalLimit, updateRequiredSignatures,
      emergencyPause, unpause, receive, transferOwnership, renounceOwnership,
      _pause, _unpause, onlyOwner, onlyDAO, onlyAuthorizedSigner,
      whenNotPaused, whenPaused, nonReentrant, validSpendingProposal,
      _addSupportedToken in Hc;
    inv_call Hc;
    try match goal with
        | |- context [existsb ?f ?l] => destruct (existsb f l)
        end;
    try (by (eapply (payouts_bounded_frame s _ [_]); [exact Hb | | | ];
               [reflexivity | reflexivity | reflexivity]));
    try (by (eapply (payouts_bounded_frame s _ []); [exact Hb | | | ];
               [cbn; by rewrite app_nil_r | reflexivity | reflexivity]));
    try (by (forget_reenter;
             match goal with
             | Hre : reentered _ _ ?evs |- _ =>
                 destruct Hre as (Hev & Hcb & _ & _ & Hp & _);
                 cbn in Hev, Hp;
                 eapply (payouts_bounded_frame s _ (evs ++ [_]));
                   [exact Hb
                   | cbn; rewrite Hev; by rewrite <- app_assoc
                   | intros i; rewrite List.filter_app,
                       (callback_events_no_payout _ _ Hcb); reflexivity
                   | intros i; unfold proposal_at; cbn; by rewrite Hp]
             end)).
  - (* createSpendingProposal *)
    eapply (payouts_bounded_frame s _ [_]); [exact Hb | reflexivity | reflexivity |].
    intros i. unfold proposal_at. cbn. rewrite lookup_insert. by case_decide; subst.
  - (* approveSpendingProposal, threshold reached *)
    intros i. cbn.
    match goal with
    | H : _executeSpendingProposal _ _ ?s1 = Ok ?r |- _ =>
        assert (payouts_bounded r) as Hr;
        [eapply (_executeSpendingProposal_payouts _ _ s1 r); [| |exact H]|]
    end.
    + eapply (payouts_bounded_frame s _ [_]); [exact Hb | reflexivity | reflexivity |].
      intros j. unfold proposal_at. cbn. rewrite lookup_insert. by case_decide; subst.
    + unfold proposal_at. cbn. rewrite lookup_insert_eq. cbn.
      change (default empty_proposal (spendingProposals s !! proposalId))
        with (proposal_at (_setEntered true s) proposalId).
      by destruct (executed (proposal_at (_setEntered true s) proposalId)).
    + exact (Hr i).
  - (* approveSpendingProposal, below the threshold *)
    eapply (payouts_bounded_frame s _ [_]); [exact Hb | reflexivity | reflexivity |].
    intros i. unfold proposal_at. cbn. rewrite lookup_insert. by case_decide; subst.
  - (* executeSpendingProposal *)
    intros i. cbn.
    match goal with
    | H : _executeSpendingProposal _ _ ?s1 = Ok ?r |- _ =>
        assert (payouts_bounded r) as Hr;
        [eapply (_executeSpendingProposal_payouts _ _ s1 r); [| |exact H]|]
    end.
    + exact Hb.
    + by destruct (executed (proposal_at (_setEntered true s) proposalId)).
    + exact (Hr i).
Qed.

(** However a vault is driven after its construction, the log holds at most
    one payout for each spending proposal. *)
Lemma no_double_payout (e0 : env) (dao : address) (limit r : uint256)
    (s0 : state) (txs : list (env * call)) (i : uint256) :
  constructor e0 dao limit r = Ok s0 -> (payouts i (run txs s0) <= 1)%nat.
Proof.
  intros Hc.
  assert (payouts_bounded (run txs s0)) as Hb.
  { apply Vault_run_invariant; [intros e c s s'; apply Vault_exec_payouts|].
    unfold constructor in Hc. inv_call Hc. intros j. cbn. lia. }
  specialize (Hb i). destruct (executed (proposal_at (run txs s0) i)); lia.
Qed.
End VaultPayouts.

(** ** DAOFactory: emergency removal *)

Section DAOFactoryRemoval.
Import DAOFactory.

(** [createDAO] is rejected for a user who already has ten entries in
    [userDAOs]. *)
Lemma createDAO_cap (e : env) (daoAddress : address) (nm : string) (s : state) :
  10 <= Z.of_nat (length (getUserDAOs s (msg_sender e))) ->
  (exists reason, createDAO e daoAddress nm s = Revert reason)
  /\ (paused s = false -> _entered s = false ->
      (0 < String.length nm <= 100)%nat ->
      createDAO e daoAddress nm s = Revert "Max DAOs per user exceeded").
Proof.
  intros Hcap. unfold getUserDAOs in Hcap.
  unfold createDAO, whenNotPaused, nonReentrant, MAX_DAOS_PER_USER. split.
  - unfold require. cbn.
    repeat (match goal with |- context [if ?c then _ else _] => destruct c eqn:? end;
            cbn; eauto).
    lia.
  - intros -> -> Hlen. cbn.
    replace (0 <? Z.of_nat (String.length nm)) with true by lia. cbn.
    replace (Z.of_nat (String.length nm) <=? 100) with true by lia. cbn.
    replace (Z.of_nat (length (getl (userDAOs s) (msg_sender e))) <? 10)
      with false by lia.
    reflexivity.
Qed.

(** C10: [emergencyRemoveDAO] never touches [userDAOs], so [getUserDAOs] is
    the same for every user after the call and a creator at the cap stays
    at the cap; a successful call changes [allDAOs], the registry entries
    of the removed DAO and of its vault, and [daoCount], which goes down by
    one also when the address is not in [allDAOs]. *)
Theorem emergencyRemoveDAO_frame (e : env) (daoAddress : address) (s : state) :
  let s' := transact (emergencyRemoveDAO e daoAddress) s in
  userDAOs s' = userDAOs s
  /\ (forall user, getUserDAOs s' user = getUserDAOs s user)
  /\ (forall e' a nm,
        10 <= Z.of_nat (length (getUserDAOs s (msg_sender e'))) ->
        exists reason, createDAO e' a nm s' = Revert reason)
  /\ (forall s1, emergencyRemoveDAO e daoAddress s = Ok s1 ->
        daoCount s1 = daoCount s - 1
        /\ allDAOs s1 = swap_remove daoAddress (allDAOs s)
        /\ (daoAddress ∉ allDAOs s -> allDAOs s1 = allDAOs s)
        /\ (forall d, getDAOVault s1 d =
              if decide (d = daoAddress) then 0 else getDAOVault s d)
        /\ (forall v, getVaultDAO s1 v =
              if decide (v = getDAOVault s daoAddress /\ v <> 0)
              then 0 else getVaultDAO s v)
        /\ deployed s1 = deployed s /\ this s1 = this s /\ owner s1 = owner s
        /\ paused s1 = paused s /\ _entered s1 = _entered s
        /\ events s1 = events s)
  /\ (owner s = msg_sender e -> daoAddress <> 0 -> 1 <= daoCount s ->
        succeeds (emergencyRemoveDAO e daoAddress s)).
Proof.
  intros s'.
  assert (forall s1, emergencyRemoveDAO e daoAddress s = Ok s1 ->
            userDAOs s1 = userDAOs s) as Huser.
  { intros s1 Hc. unfold emergencyRemoveDAO, onlyOwner in Hc. inv_call Hc.
    cbn. by destruct (getu (daoToVault s) daoAddress =? 0). }
  assert (userDAOs s' = userDAOs s) as Hsame.
  { subst s'. unfold transact.
    destruct (emergencyRemoveDAO e daoAddress s) eqn:Hc; eauto. }
  split; [exact Hsame|]. split; [|split; [|split]].
  - intros user. unfold getUserDAOs. by rewrite Hsame.
  - intros e' a nm Hcap. apply createDAO_cap.
    unfold getUserDAOs in *. by rewrite Hsame.
  - intros s1 Hc. unfold emergencyRemoveDAO, onlyOwner in Hc. inv_call Hc.
    unfold getDAOVault, getVaultDAO. cbn.
    destruct (Z.eqb_spec (getu (daoToVault s) daoAddress) 0) as [Hz|Hz]; cbn;
      repeat split; try reflexivity.
    + intros Hnot. by apply swap_remove_absent.
    + intros d. case_decide; congruence.
    + intros v. case_decide as Hv; [|reflexivity]. destruct Hv. congruence.
    + intros Hnot. by apply swap_remove_absent.
    + intros d. rewrite getu_delete. case_decide; case_decide; congruence.
    + intros v. rewrite getu_delete.
      case_decide; case_decide as Hv; try reflexivity; try congruence.
      * exfalso. apply Hv. split; congruence.
      * destruct Hv. congruence.
  - intros Ho Hd Hcount. unfold emergencyRemoveDAO, onlyOwner.
    rewrite Ho, Z.eqb_refl. cbn.
    replace (daoAddress =? 0) with false by lia. cbn.
    rewrite checked_sub_Ok.
    + eexists. reflexivity.
    + by destruct (getu (daoToVault s) daoAddress =? 0).
Qed.

Lemma emergencyRemoveDAO_frame_witness :
  let s := example_dao_factory in
  let s' := transact (emergencyRemoveDAO (at_time 1 20) 555) s in
  getUserDAOs s 7 = [700] /\ getUserDAOs s' 7 = [700]
  /\ allDAOs s' = [700] /\ daoCount s = 1 /\ daoCount s' = 0.
Proof.
  cbv zeta.
  destruct (emergencyRemoveDAO_frame (at_time 1 20) 555 example_dao_factory)
    as (_ & Hget & _ & Hok & Hsucc).
  destruct Hsucc as [s1 Hs1]; try (vm_compute; congruence).
  destruct (Hok s1 Hs1) as (Hcount & _ & Hall & _).
  unfold transact. rewrite Hs1.
  assert (getUserDAOs example_dao_factory 7 = [700]) as Hbefore
    by (vm_compute; reflexivity).
  assert (daoCount example_dao_factory = 1) as Hone by (vm_compute; reflexivity).
  split; [exact Hbefore|]. split.
  - specialize (Hget 7). unfold transact in Hget. rewrite Hs1 in Hget.
    by rewrite Hget.
  - split; [|split; [exact Hone|]].
    + rewrite Hall; [vm_compute; reflexivity|].
      vm_compute. intros Hin. apply list_elem_of_singleton in Hin. discriminate.
    + rewrite Hcount, Hone. reflexivity.
Defined.

(** A creator at the cap stays at the cap after one of its DAOs is
    removed. *)
Example removed_dao_still_counts :
  let s := transact (emergencyRemoveDAO (at_time 1 20) 700) full_dao_factory in
  allDAOs s = [709; 701; 702; 703; 704; 705; 706; 707; 708]
  /\ daoCount s = 9
  /\ length (getUserDAOs s 7) = 10%nat
  /\ createDAO (at_time 7 21) 710 "DAO 11" s = Revert "Max DAOs per user exceeded".
Proof. vm_compute. repeat split. Qed.
End DAOFactoryRemoval.

(** ** DAO: the life of a proposal *)

Section DAOProposals.
Import DAO.

Ltac dao_cases c Hc :=
  destruct c; cbn [exec] in Hc;
  unfold addMember, removeMember, propose, vote, executeProposal, attachVault,
    detachVault, setQuorumPercentage, pause, unpause, _pause, _unpause,
    transferOwnership, renounceOwnership, onlyOwner,
    onlyMember, whenNotPaused, whenPaused, nonReentrant, validProposal in Hc;
  inv_call Hc.

(** What one successful call can do to proposal [i]. *)
Lemma DAO_exec_proposal (e : env) (c : call) (s s' : state) (i : uint256) :
  exec e c s = Ok s' ->
  let p := proposal_at s i in
  let p' := proposal_at s' i in
  proposalCount s <= proposalCount s'
  /\ (i <= proposalCount s ->
      id p' = id p /\ title p' = title p /\ description p' = description p
      /\ deadline p' = deadline p /\ proposer p' = proposer p)
  /\ (forall a, getb (hasVoted p) a = true -> getb (hasVoted p') a = true)
  /\ (executed p = true ->
      executed p' = true /\ yesVotes p' = yesVotes p /\ noVotes p' = noVotes p).
Proof.
  intros Hc. cbv zeta.
  dao_cases c Hc; try (split; [cbn; lia | by repeat split]).
  - (* propose *)
    split; [cbn; lia|]. unfold proposal_at. cbn. rewrite lookup_insert.
    case_decide as Hi; [subst i; cbn | by repeat split].
    split; [lia|]. by repeat split.
  - (* vote yes *)
    split; [cbn; lia|]. unfold proposal_at. cbn. rewrite lookup_insert.
    case_decide as Hi; [subst i; cbn | by repeat split].
    fold (proposal_at s proposalId).
    split; [by repeat split|]. split.
    + intros a Ha. rewrite getb_insert. by case_decide.
    + intros Hex.
      match goal with
      | H : negb (executed _) = true |- _ =>
          change (proposal_at (_setEntered true s) proposalId)
            with (proposal_at s proposalId) in H;
          rewrite Hex in H; discriminate H
      end.
  - (* vote no *)
    split; [cbn; lia|]. unfold proposal_at. cbn. rewrite lookup_insert.
    case_decide as Hi; [subst i; cbn | by repeat split].
    fold (proposal_at s proposalId).
    split; [by repeat split|]. split.
    + intros a Ha. rewrite getb_insert. by case_decide.
    + intros Hex.
      match goal with
      | H : negb (executed _) = true |- _ =>
          change (proposal_at (_setEntered true s) proposalId)
            with (proposal_at s proposalId) in H;
          rewrite Hex in H; discriminate H
      end.
  - (* executeProposal *)
    split; [cbn; lia|]. unfold proposal_at. cbn. rewrite lookup_insert.
    case_decide as Hi; [subst i; cbn | by repeat split].
    by repeat split.
Qed.

Lemma DAO_run_proposal (txs : list (env * call)) (i : uint256) : forall s : state,
  let p := proposal_at s i in
  let p' := proposal_at (run txs s) i in
  proposalCount s <= proposalCount (run txs s)
  /\ (i <= proposalCount s ->
      id p' = id p /\ title p' = title p /\ description p' = description p
      /\ deadline p' = deadline p /\ proposer p' = proposer p)
  /\ (forall a, getb (hasVoted p) a = true -> getb (hasVoted p') a = true)
  /\ (executed p = true ->
      executed p' = true /\ yesVotes p' = yesVotes p /\ noVotes p' = noVotes p).
Proof.
  induction txs as [|[e c] txs IH]; intros s; cbv zeta.
  - split; [cbn; lia|]. by repeat split.
  - cbn [run fold_left fst snd]. fold (run txs (transact (exec e c) s)).
    specialize (IH (transact (exec e c) s)). cbv zeta in IH.
    unfold transact in *.
    destruct (exec e c s) as [s1| |] eqn:Hc; try exact IH.
    pose proof (DAO_exec_proposal e c s s1 i Hc) as Hstep. cbv zeta in Hstep.
    destruct IH as (IH1 & IH2 & IH3 & IH4).
    destruct Hstep as (H1 & H2 & H3 & H4).
    split; [lia|]. split; [|split].
    + intros Hi. destruct (H2 Hi) as (? & ? & ? & ? & ?).
      destruct IH2 as (? & ? & ? & ? & ?); [lia|]. repeat split; congruence.
    + intros a Ha. by apply IH3, H3.
    + intros Hex. destruct (H4 Hex) as (Hex1 & ? & ?).
      destruct (IH4 Hex1) as (? & ? & ?). repeat split; congruence.
Qed.

(** X1: a vote is cast once and for all. After a successful [vote], in
    every later state of the DAO the [hasVoted] view answers true for the
    voter, and no [vote] of that address on the same proposal succeeds,
    whatever happened in between. *)
Theorem vote_once (e e' : env) (proposalId : uint256) (support support' : bool)
    (s s1 : state) (txs : list (env * call)) :
  vote e proposalId support s = Ok s1 ->
  msg_sender e' = msg_sender e ->
  hasVoted_view proposalId (msg_sender e) (run txs s1) = Ok true
  /\ ~ succeeds (vote e' proposalId support' (run txs s1)).
Proof.
  intros Hv Hsender.
  assert (0 < proposalId <= proposalCount s1
          /\ getb (hasVoted (proposal_at s1 proposalId)) (msg_sender e) = true)
    as [Hid Hvoted].
  { unfold vote, onlyMember, whenNotPaused, nonReentrant, validProposal in Hv.
    inv_call Hv; (split; [cbn in *; lia|]); unfold proposal_at; cbn;
      rewrite lookup_insert_eq; cbn; rewrite getb_insert; by rewrite decide_True. }
  destruct (DAO_run_proposal txs proposalId s1) as (Hcount & _ & Hmono & _).
  specialize (Hmono _ Hvoted). split.
  - unfold hasVoted_view.
    replace ((0 <? proposalId) && (proposalId <=? proposalCount (run txs s1)))
      with true by lia.
    cbn. by rewrite Hmono.
  - intros [s2 Hv2].
    unfold vote, onlyMember, whenNotPaused, nonReentrant, validProposal in Hv2.
    inv_call Hv2;
      match goal with
      | H : negb (getb _ _) = true |- _ =>
          change (proposal_at (_setEntered true (run txs s1)) proposalId)
            with (proposal_at (run txs s1) proposalId) in H;
          rewrite Hsender, Hmono in H; discriminate H
      end.
Qed.

Lemma vote_once_witness :
  hasVoted_view 1 7 (run [(at_time 7 1010, AddMember 8)] voting_dao) = Ok true
  /\ ~ succeeds (vote (at_time 7 1011) 1 false
                   (run [(at_time 7 1010, AddMember 8)] voting_dao)).
Proof.
  exact (vote_once (at_time 7 1001) (at_time 7 1011) 1 true false
           (run [(at_time 7 1000, AddMember 8); (at_time 8 1000, Propose "T" "D" 3600)]
              (transact (fun _ => constructor (at_time 99 1000) "Test DAO" 7)
                 (initial (at_time 99 1000))))
           voting_dao [(at_time 7 1010, AddMember 8)]
           ltac:(vm_compute; reflexivity) eq_refl).
Defined.

Lemma DAO_votes_consistent_reachable (e0 : env) (nm : string) (own : address)
    (s0 : state) (txs : list (env * call)) :
  constructor e0 nm own = Ok s0 ->
  Forall (fun tx => is_address (msg_sender tx.1)) txs ->
  votes_consistent (run txs s0).
Proof.
  intros Hc Htxs.
  apply (DAO_run_invariant_tx votes_consistent
           (fun tx => is_address (msg_sender tx.1))).
  - intros e c s s' Hs. by apply DAO_exec_votes.
  - exact Htxs.
  - unfold constructor in Hc. inv_call Hc. intros j.
    unfold votes_counted, proposal_at. cbn. rewrite lookup_empty. cbn.
    rewrite dom_empty_L, size_empty.
    split; [lia|]. split; [lia|]. split; [reflexivity|].
    intros a Ha. by apply not_elem_of_empty in Ha.
Qed.

(** X2: the tally of a proposal is the number of its voters. In every state
    a DAO reaches from its constructor, [yesVotes + noVotes] of a proposal
    equals the number of addresses for which [hasVoted] is true. *)
Theorem tally_counts_voters (e0 : env) (nm : string) (own : address) (s0 : state)
    (txs : list (env * call)) (i : uint256) :
  constructor e0 nm own = Ok s0 ->
  Forall (fun tx => is_address (msg_sender tx.1)) txs ->
  let p := proposal_at (run txs s0) i in
  yesVotes p + noVotes p = Z.of_nat (size (dom (hasVoted p)))
  /\ (forall a, a ∈ dom (hasVoted p) <-> getb (hasVoted p) a = true).
Proof.
  intros Hc Htxs p. subst p.
  destruct (DAO_votes_consistent_reachable e0 nm own s0 txs Hc Htxs i)
    as (_ & _ & Hsum & Hdom).
  split; [exact Hsum|]. intros a. split.
  - intros Ha. by apply Hdom.
  - unfold getb. intros Ha. apply elem_of_dom.
    destruct (hasVoted (proposal_at (run txs s0) i) !! a); [eauto | discriminate].
Qed.

Lemma tally_counts_voters_witness :
  yesVotes (proposal_at voting_dao 1) + noVotes (proposal_at voting_dao 1)
    = Z.of_nat (size (dom (hasVoted (proposal_at voting_dao 1))))
  /\ (forall a, a ∈ dom (hasVoted (proposal_at voting_dao 1))
                <-> getb (hasVoted (proposal_at voting_dao 1)) a = true).
Proof.
  apply (tally_counts_voters (at_time 99 1000) "Test DAO" 7
           (transact (fun _ => constructor (at_time 99 1000) "Test DAO" 7)
              (initial (at_time 99 1000)))
           [(at_time 7 1000, AddMember 8);
            (at_time 8 1000, Propose "T" "D" 3600);
            (at_time 7 1001, Vote 1 true)] 1).
  - vm_compute. reflexivity.
  - repeat constructor; unfold is_address, ADDRESS_BOUND; cbn; lia.
Defined.

Lemma DAO_exec_fresh (e : env) (c : call) (s s' : state) :
  proposals_fresh s -> exec e c s = Ok s' -> proposals_fresh s'.
Proof.
  intros [Hn Hf] Hc. unfold proposals_fresh.
  dao_cases c Hc; cbn in *; try (split; [lia | exact Hf]).
  - (* propose *)
    split; [lia|]. intros i Hi. rewrite lookup_insert_ne by lia. apply Hf. lia.
  - (* vote yes *)
    split; [lia|]. intros i Hi. rewrite lookup_insert_ne by lia. by apply Hf.
  - (* vote no *)
    split; [lia|]. intros i Hi. rewrite lookup_insert_ne by lia. by apply Hf.
  - (* executeProposal *)
    split; [lia|]. intros i Hi. rewrite lookup_insert_ne by lia. by apply Hf.
Qed.

Lemma DAO_fresh_reachable (e0 : env) (nm : string) (own : address) (s0 : state)
    (txs : list (env * call)) :
  constructor e0 nm own = Ok s0 -> proposals_fresh (run txs s0).
Proof.
  intros Hc.
  apply (DAO_run_invariant proposals_fresh (fun _ => true)).
  - intros e c s s' _. apply DAO_exec_fresh.
  - by apply Forall_forall.
  - unfold constructor in Hc. inv_call Hc. split; [cbn; lia|].
    intros i _. cbn. apply lookup_empty.
Qed.

(** X3: what [propose] creates. In every state a DAO reaches from its
    constructor, a successful [propose] returns the next id in sequence; the
    new proposal reads back through [getProposal] with the given title and
    description, no votes, not executed, the caller as proposer and the
    deadline at [block.timestamp + duration]; nobody has voted on it; the
    duration lies between one hour and thirty days; no other proposal
    changes. *)
Theorem propose_creates (e0 : env) (nm : string) (own : address) (s0 : state)
    (txs : list (env * call)) (e : env) (title_ description_ : string)
    (duration i : uint256) (s' : state) :
  constructor e0 nm own = Ok s0 ->
  propose e title_ description_ duration (run txs s0) = Ok (i, s') ->
  i = proposalCount (run txs s0) + 1
  /\ proposalCount s' = i
  /\ getProposal i s'
     = Ok (i, title_, description_, 0, 0, block_timestamp e + duration, false,
           msg_sender e)
  /\ (forall a, hasVoted_view i a s' = Ok false)
  /\ 3600 <= duration <= 2592000
  /\ (forall j, j <> i -> proposal_at s' j = proposal_at (run txs s0) j).
Proof.
  intros Hc Hp.
  destruct (DAO_fresh_reachable e0 nm own s0 txs Hc) as [Hn Hf].
  set (s := run txs s0) in *.
  assert (proposals s !! (proposalCount s + 1) = None) as Hnew by (apply Hf; lia).
  unfold propose, onlyMember, whenNotPaused, nonReentrant in Hp.
  inv_call Hp. subst s'. cbn in *.
  unfold getProposal, hasVoted_view, proposal_at. cbn.
  replace ((0 <? proposalCount s + 1) && (proposalCount s + 1 <=? proposalCount s + 1))
    with true by lia.
  cbn. rewrite lookup_insert_eq, Hnew. cbn.
  unfold MIN_PROPOSAL_DURATION, MAX_PROPOSAL_DURATION in *.
  repeat split; try done; try lia.
  intros j Hj. by rewrite lookup_insert_ne.
Qed.

Lemma propose_creates_witness :
  exists s',
    propose (at_time 8 2000) "Second" "More" 7200 voting_dao = Ok (2, s')
    /\ getProposal 2 s' = Ok (2, "Second", "More", 0, 0, 2000 + 7200, false, 8).
Proof.
  eexists. split; [vm_compute; reflexivity|].
  refine (proj1 (proj2 (proj2
            (propose_creates (at_time 99 1000) "Test DAO" 7
               (transact (fun _ => constructor (at_time 99 1000) "Test DAO" 7)
                  (initial (at_time 99 1000)))
               [(at_time 7 1000, AddMember 8);
                (at_time 8 1000, Propose "T" "D" 3600);
                (at_time 7 1001, Vote 1 true)]
               (at_time 8 2000) "Second" "More" 7200 2 _ _ _)))).
  - vm_compute. reflexivity.
  - vm_compute. reflexivity.
Defined.

(** X4: the text, the proposer and the deadline of a proposal are fixed at
    creation. Whatever calls follow, an existing proposal keeps its id,
    title, description, deadline and proposer, and the proposal counter
    never goes down. *)
Theorem proposal_fields_fixed (s : state) (txs : list (env * call)) (i : uint256) :
  i <= proposalCount s ->
  let p := proposal_at s i in
  let p' := proposal_at (run txs s) i in
  id p' = id p /\ title p' = title p /\ description p' = description p
  /\ deadline p' = deadline p /\ proposer p' = proposer p
  /\ proposalCount s <= proposalCount (run txs s).
Proof.
  intros Hi. cbv zeta.
  destruct (DAO_run_proposal txs i s) as (Hcount & Hfix & _).
  destruct (Hfix Hi) as (? & ? & ? & ? & ?). by repeat split.
Qed.

Lemma proposal_fields_fixed_witness :
  let s := run [(at_time 8 2000, Propose "Second" "More" 7200);
                (at_time 8 2001, Vote 1 false)] voting_dao in
  deadline (proposal_at s 1) = deadline (proposal_at voting_dao 1)
  /\ title (proposal_at s 1) = title (proposal_at voting_dao 1).
Proof.
  cbv zeta.
  destruct (proposal_fields_fixed voting_dao
              [(at_time 8 2000, Propose "Second" "More" 7200);
               (at_time 8 2001, Vote 1 false)] 1)
    as (_ & Ht & _ & Hd & _).
  - vm_compute. discriminate.
  - split; [exact Hd | exact Ht].
Defined.

(** X5: execution is final. Once a proposal is marked executed, every later
    state has it executed with the same vote counts, and neither
    [executeProposal] nor [vote] on it succeeds again. *)
Theorem executed_is_final (s : state) (txs : list (env * call)) (i : uint256) :
  executed (proposal_at s i) = true ->
  let p := proposal_at s i in
  let p' := proposal_at (run txs s) i in
  executed p' = true /\ yesVotes p' = yesVotes p /\ noVotes p' = noVotes p
  /\ (forall e, ~ succeeds (executeProposal e i (run txs s)))
  /\ (forall e support, ~ succeeds (vote e i support (run txs s))).
Proof.
  intros Hex. cbv zeta.
  destruct (DAO_run_proposal txs i s) as (_ & _ & _ & Hfinal).
  destruct (Hfinal Hex) as (Hex' & Hy & Hn).
  split; [exact Hex'|]. split; [exact Hy|]. split; [exact Hn|]. split.
  - intros e [s2 Hc].
    unfold executeProposal, whenNotPaused, nonReentrant, validProposal in Hc.
    inv_call Hc.
    match goal with
    | H : negb (executed _) = true |- _ =>
        change (proposal_at (_setEntered true (run txs s)) i)
          with (proposal_at (run txs s) i) in H;
        rewrite Hex' in H; discriminate H
    end.
  - intros e support [s2 Hc].
    unfold vote, onlyMember, whenNotPaused, nonReentrant, validProposal in Hc.
    inv_call Hc;
      match goal with
      | H : negb (executed _) = true |- _ =>
          change (proposal_at (_setEntered true (run txs s)) i)
            with (proposal_at (run txs s) i) in H;
          rewrite Hex' in H; discriminate H
      end.
Qed.

Lemma executed_is_final_witness :
  let s := transact (executeProposal (at_time 9 4600) 1) voting_dao in
  let s' := run [(at_time 8 4601, Vote 1 false)] s in
  executed (proposal_at s 1) = true
  /\ executed (proposal_at s' 1) = true
  /\ yesVotes (proposal_at s' 1) = yesVotes (proposal_at s 1)
  /\ ~ succeeds (executeProposal (at_time 7 5000) 1 s').
Proof.
  cbv zeta.
  assert (executed (proposal_at (transact (executeProposal (at_time 9 4600) 1)
                                   voting_dao) 1) = true) as Hex
    by (vm_compute; reflexivity).
  destruct (executed_is_final _ [(at_time 8 4601, Vote 1 false)] 1 Hex)
    as (H1 & H2 & _ & H3 & _).
  split; [exact Hex|]. split; [exact H1|]. split; [exact H2|]. apply H3.
Defined.
End DAOProposals.

(** ** DAO: the vault slot, pausing and membership *)

Section DAOAdministration.
Import DAO.

Ltac dao_cases c Hc :=
  destruct c; cbn [exec] in Hc;
  unfold addMember, removeMember, propose, vote, executeProposal, attachVault,
    detachVault, setQuorumPercentage, pause, unpause, _pause, _unpause,
    transferOwnership, renounceOwnership, onlyOwner,
    onlyMember, whenNotPaused, whenPaused, nonReentrant, validProposal in Hc;
  inv_call Hc.

(** X6: the attached vault changes only by the owner's hand, on a DAO that
    is not paused, and never from one vault to another in one call: a call
    that changes [attachedVault] is an [attachVault] on an empty slot or a
    [detachVault]. *)
Theorem attachedVault_changes (e : env) (c : call) (s s' : state) :
  exec e c s = Ok s' ->
  attachedVault s' <> attachedVault s ->
  msg_sender e = owner s /\ paused s = false
  /\ ((c = AttachVault (attachedVault s') /\ attachedVault s = 0
       /\ attachedVault s' <> 0)
      \/ (c = DetachVault /\ attachedVault s <> 0 /\ attachedVault s' = 0)).
Proof.
  intros Hc Hne.
  dao_cases c Hc; cbn in *; try (exfalso; by apply Hne).
  - split; [lia|]. split; [by destruct (_paused s)|]. left.
    split; [reflexivity|]. lia.
  - split; [lia|]. split; [by destruct (_paused s)|]. right.
    split; [reflexivity|]. lia.
Qed.

Lemma attachedVault_changes_witness :
  let s' := transact (attachVault (at_time 7 2000) 900) voting_dao in
  attachedVault voting_dao = 0 /\ attachedVault s' = 900
  /\ msg_sender (at_time 7 2000) = owner voting_dao.
Proof.
  cbv zeta.
  destruct (attachedVault_changes (at_time 7 2000) (AttachVault 900) voting_dao
              (transact (attachVault (at_time 7 2000) 900) voting_dao))
    as (Ho & _ & [(_ & H0 & _)|(Hc & _)]).
  - vm_compute. reflexivity.
  - vm_compute. discriminate.
  - split; [exact H0|]. split; [vm_compute; reflexivity | exact Ho].
  - discriminate Hc.
Defined.

(** X7: what a paused DAO still accepts. On a paused DAO only the owner's
    calls succeed, and only [setQuorumPercentage], [unpause],
    [transferOwnership] and [renounceOwnership]; members, proposals, votes,
    the attached vault and the event log stay as they are. *)
Theorem paused_DAO_frame (e : env) (c : call) (s s' : state) :
  paused s = true ->
  exec e c s = Ok s' ->
  msg_sender e = owner s
  /\ ((exists q, c = SetQuorumPercentage q /\ 1 <= q <= 100
                 /\ quorumPercentage s' = q /\ paused s' = true)
      \/ c = Unpause
      \/ (exists a, c = TransferOwnership a) \/ c = RenounceOwnership)
  /\ members s' = members s /\ memberList s' = memberList s
  /\ memberCount s' = memberCount s /\ proposals s' = proposals s
  /\ proposalCount s' = proposalCount s /\ attachedVault s' = attachedVault s
  /\ events s' = events s.
Proof.
  intros Hp Hc. cbn in Hp.
  dao_cases c Hc; cbn in *;
    try match goal with
        | H : negb (_paused s) = true |- _ => rewrite Hp in H; discriminate H
        end.
  - split; [lia|]. split; [|by repeat split].
    left. exists q. split; [reflexivity|]. split; [lia|]. by split.
  - split; [lia|]. split; [|by repeat split]. right. by left.
  - split; [lia|]. split; [|by repeat split]. right. right. left. by eexists.
  - split; [lia|]. split; [|by repeat split]. right. right. by right.
Qed.

Lemma paused_DAO_frame_witness :
  let s' := transact (setQuorumPercentage (at_time 7 1003) 60) paused_dao in
  paused paused_dao = true /\ quorumPercentage s' = 60
  /\ proposals s' = proposals paused_dao.
Proof.
  cbv zeta.
  destruct (paused_DAO_frame (at_time 7 1003) (SetQuorumPercentage 60) paused_dao
              (transact (setQuorumPercentage (at_time 7 1003) 60) paused_dao))
    as (_ & _ & _ & _ & _ & Hprop & _).
  - vm_compute. reflexivity.
  - vm_compute. reflexivity.
  - split; [vm_compute; reflexivity|]. split; [vm_compute; reflexivity | exact Hprop].
Defined.

(** X8: a removed member is locked out. After a successful [removeMember],
    [propose] and [vote] of the removed address fail with "Not a member";
    the votes it cast before stay in the tallies. *)
Theorem removed_member_locked_out (e e' : env) (member : address) (s s' : state) :
  removeMember e member s = Ok s' ->
  msg_sender e' = member ->
  (forall t d n, propose e' t d n s' = Revert "Not a member")
  /\ (forall i support, vote e' i support s' = Revert "Not a member")
  /\ proposals s' = proposals s.
Proof.
  intros Hc Hsender.
  unfold removeMember, onlyOwner, whenNotPaused, nonReentrant in Hc.
  inv_call Hc. cbn in *.
  assert (getb (<[member := false]> (members s)) (msg_sender e')
          || (msg_sender e' =? _owner s) = false) as Hno.
  { rewrite Hsender, getb_insert, decide_True by reflexivity. cbn. lia. }
  split; [|split; [|reflexivity]].
  - intros t d n. unfold propose, onlyMember. cbn. by rewrite Hno.
  - intros i support. unfold vote, onlyMember. cbn. by rewrite Hno.
Qed.

Lemma removed_member_locked_out_witness :
  let s' := transact (removeMember (at_time 7 2000) 8) voting_dao in
  vote (at_time 8 2001) 1 true s' = Revert "Not a member"
  /\ proposer (proposal_at s' 1) = 8.
Proof.
  cbv zeta.
  destruct (removed_member_locked_out (at_time 7 2000) (at_time 8 2001) 8 voting_dao
              (transact (removeMember (at_time 7 2000) 8) voting_dao))
    as (_ & Hv & _).
  - vm_compute. reflexivity.
  - reflexivity.
  - split; [apply Hv | vm_compute; reflexivity].
Defined.

Lemma DAO_exec_ownerless (e : env) (c : call) (s s' : state) :
  owner s = 0 -> msg_sender e <> 0 -> exec e c s = Ok s' ->
  owner s' = 0 /\ members s' = members s /\ memberList s' = memberList s
  /\ memberCount s' = memberCount s /\ quorumPercentage s' = quorumPercentage s
  /\ attachedVault s' = attachedVault s /\ paused s' = paused s.
Proof.
  intros Ho Hsender Hc. cbn in Ho.
  dao_cases c Hc; cbn in *; try lia; by repeat split.
Qed.

(** X9: a DAO without owner cannot be administered. Once the owner is the
    zero address (after [renounceOwnership]), no sequence of calls from
    non-zero addresses changes the members, the quorum percentage, the
    attached vault or the pause flag, and the owner stays zero: a DAO
    renounced while paused stays paused. *)
Theorem ownerless_DAO_frozen (s : state) (txs : list (env * call)) :
  owner s = 0 ->
  Forall (fun tx => msg_sender tx.1 <> 0) txs ->
  let s' := run txs s in
  owner s' = 0 /\ members s' = members s /\ memberList s' = memberList s
  /\ memberCount s' = memberCount s /\ quorumPercentage s' = quorumPercentage s
  /\ attachedVault s' = attachedVault s /\ paused s' = paused s.
Proof.
  intros Ho Htxs. cbv zeta.
  revert Htxs.
  refine (fun Htxs =>
    DAO_run_invariant_tx
      (fun s' => owner s' = 0 /\ members s' = members s
                 /\ memberList s' = memberList s
                 /\ memberCount s' = memberCount s
                 /\ quorumPercentage s' = quorumPercentage s
                 /\ attachedVault s' = attachedVault s /\ paused s' = paused s)
      (fun tx => msg_sender tx.1 <> 0) _ txs s Htxs _).
  - intros e c s1 s2 Hsender (Ho1 & H1 & H2 & H3 & H4 & H5 & H6) Hc.
    destruct (DAO_exec_ownerless e c s1 s2 Ho1 Hsender Hc)
      as (? & ? & ? & ? & ? & ? & ?).
    repeat split; congruence.
  - by repeat split.
Qed.

Lemma ownerless_DAO_frozen_witness :
  let s := transact (renounceOwnership (at_time 7 1003)) paused_dao in
  let s' := run [(at_time 7 1004, Unpause); (at_time 7 1005, AddMember 8)] s in
  owner s = 0 /\ paused s' = true /\ memberList s' = memberList s.
Proof.
  cbv zeta.
  assert (owner (transact (renounceOwnership (at_time 7 1003)) paused_dao) = 0)
    as Ho by (vm_compute; reflexivity).
  destruct (ownerless_DAO_frozen _
              [(at_time 7 1004, Unpause); (at_time 7 1005, AddMember 8)] Ho)
    as (_ & _ & Hl & _ & _ & _ & Hp).
  - repeat constructor; cbn; discriminate.
  - split; [exact Ho|]. split; [|exact Hl].
    rewrite Hp. vm_compute. reflexivity.
Defined.
End DAOAdministration.

(** ** Vault: the two ways out of the treasury *)

Section VaultWithdrawals.
Import Vault.

(** The state a [withdraw] that passes every check leaves. *)
Lemma withdraw_Ok (e : env) (x : external) (token_ : address)
    (amount_ : uint256) (recipient_ : address) (s : state) :
  msg_sender e = daoAddress s -> paused s = false -> _entered s = false ->
  0 < amount_ -> recipient_ <> 0 -> amount_ <= withdrawalLimit s ->
  amount_ <= getBalance s token_ ->
  (if token_ =? 0 then eth_call x = true
   else token_call x = Returned true \/ token_call x = ReturnedNothing) ->
  withdraw e x token_ amount_ recipient_ s
  = Ok (set_status false
          (emit (Withdrawal token_ recipient_ amount_)
             (reenter x
                (set_balance token_ (getBalance s token_ - amount_)
                   (set_status true s))))).
Proof.
  intros Hs Hp He Ha Hr Hl Hb Hx.
  unfold withdraw, onlyDAO, whenNotPaused, nonReentrant. cbn in *.
  rewrite Hs, Z.eqb_refl, Hp, He. cbn.
  replace (0 <? amount_) with true by lia.
  replace (negb (recipient_ =? 0)) with true by lia.
  replace (amount_ <=? withdrawalLimit s) with true by lia.
  change (getBalance (set_status true s) token_) with (getBalance s token_).
  replace (amount_ <=? getBalance s token_) with true by lia.
  cbn. rewrite checked_sub_Ok by lia.
  cbn. destruct (token_ =? 0); [by rewrite Hx|].
  by destruct Hx as [-> | ->].
Qed.

(** What a completed [withdraw] did: [evs] is what the callee of the
    transfer had the vault log by calling back while the transfer ran. *)
Lemma withdraw_inv (e : env) (x : external) (token_ : address)
    (amount_ : uint256) (recipient_ : address) (s s' : state) :
  withdraw e x token_ amount_ recipient_ s = Ok s' ->
  exists evs,
    events s' = (events s ++ evs ++ [Withdrawal token_ recipient_ amount_])%list
    /\ Forall (fun ev => is_callback_event ev = true) evs
    /\ (callbacks x = [] -> evs = [])
    /\ (forall t, getBalance s' t =
          (if decide (t = token_) then getBalance s t - amount_ else getBalance s t)
          + deposited t evs)
    /\ (forall t, t <> 0 -> deposited t evs = 0)
    /\ spendingProposals s' = spendingProposals s
    /\ spendingProposalCount s' = spendingProposalCount s
    /\ signerList s' = signerList s
    /\ supportedTokens s' = supportedTokens s
    /\ _entered s' = false.
Proof.
  intros Hc.
  assert (exists s1,
            s1 = set_balance token_ (getBalance s token_ - amount_) (set_status true s)
            /\ s' = set_status false
                      (emit (Withdrawal token_ recipient_ amount_) (reenter x s1)))
    as (s1 & Hs1 & ->).
  { unfold withdraw, onlyDAO, whenNotPaused, nonReentrant in Hc.
    inv_call Hc; eexists; (split; [reflexivity|]); reflexivity. }
  destruct (reenter_reentered x s1)
    as (evs & Hre).
  pose proof (reentered_no_callback x s1 evs) as Hnone.
  destruct Hre as (Hev & Hcb & Hbal & Hz & Hp & Hcnt & Ha & Hl & Ht & Hd & He & Hr).
  exists evs. subst s1. cbn in Hev, Hp, Hcnt, Hl, Ht.
  split; [cbn; by rewrite Hev, <- app_assoc|].
  split; [exact Hcb|].
  split; [intros Hx; apply Hnone; [exact Hx|]; unfold reentered; by repeat split|].
  split.
  { intros t. etransitivity; [apply Hbal|]. rewrite getBalance_set_balance.
    repeat case_decide; try congruence; reflexivity. }
  repeat split; assumption.
Qed.

(** X10: when [withdraw] succeeds, and what it does. The direct withdrawal
    succeeds exactly when the caller is the DAO address, the vault is not
    paused, the amount is positive, within the withdrawal limit and within
    the tracked balance, the recipient is not zero and the transfer goes
    through: the ETH send reports success, or the token call returns
    [true] or returns no data. It then takes the amount off the balance of
    that token and logs one [Withdrawal]; the callee of the transfer may
    call back into the vault while the transfer runs, and what it has the
    vault log in this way comes before the [Withdrawal], the plain ETH
    transfers among it being credited to the native balance. Nothing else
    changes a balance: a token other than the native asset ends exactly
    the amount lower, and so does the native asset when the recipient does
    not call back; the proposals, the signers and the supported tokens are
    as before. When only the transfer fails, the call fails with the reason
    of the send, of SafeERC20 or of the token itself. *)
Theorem withdraw_succeeds_iff (e : env) (x : external) (token_ : address)
    (amount_ : uint256) (recipient_ : address) (s : state) :
  (succeeds (withdraw e x token_ amount_ recipient_ s) <->
     msg_sender e = daoAddress s /\ paused s = false /\ _entered s = false
     /\ 0 < amount_ /\ recipient_ <> 0 /\ amount_ <= withdrawalLimit s
     /\ amount_ <= getBalance s token_
     /\ (if token_ =? 0 then eth_call x = true
         else token_call x = Returned true \/ token_call x = ReturnedNothing))
  /\ (forall s', withdraw e x token_ amount_ recipient_ s = Ok s' ->
        exists evs,
          events s' = (events s ++ evs ++ [Withdrawal token_ recipient_ amount_])%list
          /\ Forall (fun ev => is_callback_event ev = true) evs
          /\ getBalance s' token_ = getBalance s token_ - amount_ + deposited token_ evs
          /\ (forall t, t <> token_ -> getBalance s' t = getBalance s t + deposited t evs)
          /\ (forall t, t <> 0 -> deposited t evs = 0)
          /\ (callbacks x = [] -> evs = [])
          /\ (token_ <> 0 \/ callbacks x = [] ->
                getBalance s' token_ = getBalance s token_ - amount_)
          /\ spendingProposals s' = spendingProposals s
          /\ spendingProposalCount s' = spendingProposalCount s
          /\ signerList s' = signerList s
          /\ supportedTokens s' = supportedTokens s)
  /\ (msg_sender e = daoAddress s -> paused s = false -> _entered s = false ->
      0 < amount_ -> recipient_ <> 0 -> amount_ <= withdrawalLimit s ->
      amount_ <= getBalance s token_ ->
      (token_ = 0 -> eth_call x = false ->
         withdraw e x token_ amount_ recipient_ s = Revert "ETH transfer failed")
      /\ (token_ <> 0 ->
          match token_call x with
          | Returned true | ReturnedNothing => True
          | Returned false =>
              withdraw e x token_ amount_ recipient_ s
              = Revert "SafeERC20: ERC20 operation did not succeed"
          | ReturnedGarbage => withdraw e x token_ amount_ recipient_ s = Revert ""
          | CallReverted NoData =>
              withdraw e x token_ amount_ recipient_ s
              = Revert "SafeERC20: low-level call failed"
          | CallReverted (ErrorData reason) =>
              withdraw e x token_ amount_ recipient_ s = Revert reason
          | CallReverted (PanicData code) =>
              withdraw e x token_ amount_ recipient_ s = Panic code
          | NoContract =>
              withdraw e x token_ amount_ recipient_ s
              = Revert "Address: call to non-contract"
          end)).
Proof.
  split; [split|split].
  - intros [s' Hc]. unfold withdraw, onlyDAO, whenNotPaused, nonReentrant in Hc.
    inv_call Hc; cbn in *;
      repeat split; try lia; try (by destruct (_paused s));
      try (by destruct (_status s)); try assumption.
    destruct (token_call x) as [[]| | |[]|]; cbn in *; try discriminate; eauto.
  - intros (Hs & Hp & He & Ha & Hr & Hl & Hb & Hx).
    eexists. by apply withdraw_Ok.
  - intros s' Hc.
    apply withdraw_inv in Hc
      as (evs & Hev & Hcb & Hnone & Hbal & Hz & Hp & Hcnt & Hl & Htok & _).
    exists evs.
    assert (getBalance s' token_ = getBalance s token_ - amount_ + deposited token_ evs)
      as Hown by (rewrite Hbal, decide_True by reflexivity; reflexivity).
    repeat split; try assumption.
    + intros t Ht. by rewrite Hbal, decide_False.
    + intros [Ht|Hx]; rewrite Hown.
      * rewrite Hz by assumption. lia.
      * rewrite Hnone by assumption. cbn. lia.
  - intros Hs Hp He Ha Hr Hl Hb.
    assert (forall failure : result unit,
              (if token_ =? 0
               then require (eth_call x) "ETH transfer failed"
               else safe_token_call (token_call x)) = failure ->
              withdraw e x token_ amount_ recipient_ s
              = (failure;;
                 Ok (set_status false
                       (emit (Withdrawal token_ recipient_ amount_)
                          (reenter x
                             (set_balance token_ (getBalance s token_ - amount_)
                                (set_status true s))))))) as Hcall.
    { intros failure <-.
      unfold withdraw, onlyDAO, whenNotPaused, nonReentrant. cbn in *.
      rewrite Hs, Z.eqb_refl, Hp, He. cbn.
      replace (0 <? amount_) with true by lia.
      replace (negb (recipient_ =? 0)) with true by lia.
      replace (amount_ <=? withdrawalLimit s) with true by lia.
      change (getBalance (set_status true s) token_) with (getBalance s token_).
      replace (amount_ <=? getBalance s token_) with true by lia.
      cbn. rewrite checked_sub_Ok by lia. cbn.
      by destruct (if token_ =? 0
                   then require (eth_call x) "ETH transfer failed"
                   else safe_token_call (token_call x)) as [[]| |]. }
    split.
    + intros -> Hx. erewrite Hcall; [|cbn; rewrite Hx; reflexivity]. reflexivity.
    + intros Ht. replace (token_ =? 0) with false in Hcall by lia.
      destruct (token_call x) as [[]| | |[]|]; try exact I;
        (erewrite Hcall; [|reflexivity]); reflexivity.
Qed.

Lemma withdraw_succeeds_iff_witness :
  let calls_back :=
    {| callbacks := [(at_time 77 2, CallbackReceive 4);
                     (at_time 1 2, CallbackUpdateWithdrawalLimit 3);
                     (at_time 1 2, CallbackUpdateRequiredSignatures 2);
                     (at_time 2 2, CallbackEmergencyPause "stop");
                     (at_time 1 2, CallbackUnpause);
                     (at_time 1 2, CallbackTransferOwnership 9);
                     (at_time 9 2, CallbackRenounceOwnership);
                     (at_time 50 2, CallbackUpdateWithdrawalLimit 8)];
       eth_call := true; token_call := NoContract |} in
  let s' := transact (withdraw (at_time 50 2) calls_back 0 7 77) two_signer_vault in
  succeeds (withdraw (at_time 50 2) calls_back 0 7 77 two_signer_vault)
  /\ getBalance s' 0 = 100 - 7 + 4
  /\ events s' =
       (events two_signer_vault
          ++ [Deposit 0 77 4; WithdrawalLimitUpdated 10 3; EmergencyPause 2 "stop";
              Withdrawal 0 77 7])%list
  /\ withdrawalLimit s' = 3 /\ requiredSignatures s' = 2
  /\ paused s' = false /\ owner s' = 0 /\ _entered s' = false
  /\ ~ succeeds (withdraw (at_time 50 2) (no_callback true (Returned false)) 5 7 77
                   two_signer_vault)
  /\ withdraw (at_time 50 2) (no_callback true (CallReverted (ErrorData "frozen")))
       5 7 77 token_vault = Revert "frozen"
  /\ succeeds (withdraw (at_time 50 2) (no_callback true ReturnedNothing)
                 5 7 77 token_vault).
Proof.
  cbv zeta.
  destruct (withdraw_succeeds_iff (at_time 50 2)
              {| callbacks := [(at_time 77 2, CallbackReceive 4);
                               (at_time 1 2, CallbackUpdateWithdrawalLimit 3);
                               (at_time 1 2, CallbackUpdateRequiredSignatures 2);
                               (at_time 2 2, CallbackEmergencyPause "stop");
                               (at_time 1 2, CallbackUnpause);
                               (at_time 1 2, CallbackTransferOwnership 9);
                               (at_time 9 2, CallbackRenounceOwnership);
                               (at_time 50 2, CallbackUpdateWithdrawalLimit 8)];
                 eth_call := true; token_call := NoContract |} 0 7 77 two_signer_vault)
    as [Hiff _].
  destruct (withdraw_succeeds_iff (at_time 50 2) (no_callback true (Returned false))
              5 7 77 two_signer_vault) as [Hno _].
  destruct (withdraw_succeeds_iff (at_time 50 2)
              (no_callback true (CallReverted (ErrorData "frozen"))) 5 7 77 token_vault)
    as (_ & _ & Hfail).
  destruct (withdraw_succeeds_iff (at_time 50 2) (no_callback true ReturnedNothing)
              5 7 77 token_vault) as [Hnothing _].
  split; [|repeat (split; [vm_compute; reflexivity|]); split; [|split]].
  - apply Hiff. vm_compute. repeat split; congruence.
  - intros Hs. apply Hno in Hs as (_ & _ & _ & _ & _ & _ & Hb & _).
    vm_compute in Hb. by apply Hb.
  - destruct Hfail as [_ Htoken];
      [first [vm_compute; reflexivity | vm_compute; congruence] ..|].
    apply Htoken. discriminate.
  - apply Hnothing. vm_compute. repeat split; try congruence. by right.
Defined.

(** X11: an amount takes one path or the other. In a given state no amount
    passes both the direct withdrawal and the creation of a spending
    proposal: where [withdraw] succeeds, [createSpendingProposal] for the
    same amount reverts (whoever calls it), and the other way round. *)
Theorem limit_separates_paths (e : env) (x : external) (token_ : address)
    (amount_ : uint256) (recipient_ : address) (s : state) :
  (succeeds (withdraw e x token_ amount_ recipient_ s) ->
     forall e' t r d, exists reason,
       createSpendingProposal e' t amount_ r d s = Revert reason)
  /\ (forall d, succeeds (createSpendingProposal e token_ amount_ recipient_ d s) ->
        forall e' x' t r, exists reason, withdraw e' x' t amount_ r s = Revert reason).
Proof.
  split.
  - intros [s' Hc] e' t r d.
    unfold withdraw, onlyDAO, whenNotPaused, nonReentrant in Hc.
    inv_call Hc; cbn in *;
      unfold createSpendingProposal, onlyAuthorizedSigner, whenNotPaused, nonReentrant,
        require; cbn;
      repeat (match goal with |- context [if ?c then _ else _] => destruct c eqn:? end;
              cbn; eauto);
      lia.
  - intros d [s' Hc] e' x' t r.
    unfold createSpendingProposal, onlyAuthorizedSigner, whenNotPaused, nonReentrant in Hc.
    inv_call Hc; cbn in *.
    unfold withdraw, onlyDAO, whenNotPaused, nonReentrant, require; cbn.
    repeat (match goal with |- context [if ?c then _ else _] => destruct c eqn:? end;
            cbn; eauto).
    all: lia.
Qed.

(** X12: a deposit can be taken out again. On a vault whose tracked native
    balance is not negative, after [depositETH] of an amount within the
    withdrawal limit, a [withdraw] of that amount by the DAO (to a non-zero
    recipient, the send going through) succeeds. It leaves every token
    balance as it was before the deposit, and the native balance as it was
    plus what the recipient paid into the vault by plain ETH transfers
    while the send ran; the log holds the deposit, what the recipient had
    the vault log by calling back, and the withdrawal. With a recipient
    that does not call back every balance is as before the deposit and the
    log holds the two events. *)
Theorem deposit_withdraw_round_trip (e e' : env) (x : external)
    (amount_ : uint256) (recipient_ : address) (s s1 : state) :
  0 <= getBalance s 0 ->
  depositETH e amount_ s = Ok s1 ->
  msg_sender e' = daoAddress s -> amount_ <= withdrawalLimit s ->
  recipient_ <> 0 -> eth_call x = true ->
  exists s2 evs, withdraw e' x 0 amount_ recipient_ s1 = Ok s2
    /\ (forall t, getBalance s2 t = getBalance s t + deposited t evs)
    /\ (forall t, t <> 0 -> getBalance s2 t = getBalance s t)
    /\ events s2 = (events s ++ [Deposit 0 (msg_sender e) amount_] ++ evs
                      ++ [Withdrawal 0 recipient_ amount_])%list
    /\ Forall (fun ev => is_callback_event ev = true) evs
    /\ (callbacks x = [] ->
          evs = [] /\ (forall t, getBalance s2 t = getBalance s t)).
Proof.
  intros Hpos Hd Hs Hl Hr Hx.
  unfold depositETH, whenNotPaused, nonReentrant in Hd. inv_call Hd. cbn in *.
  match goal with
  | |- context [withdraw e' x 0 amount_ recipient_ ?s1] =>
      assert (exists s2, withdraw e' x 0 amount_ recipient_ s1 = Ok s2) as [s2 Hw]
  end.
  { eexists. apply withdraw_Ok; cbn; try done; try lia; try (by destruct (_paused s)).
    unfold getBalance in *. cbn. rewrite getu_insert, decide_True by done. lia. }
  exists s2.
  pose proof Hw as Hw'.
  apply withdraw_inv in Hw' as (evs & Hev & Hcb & Hnone & Hbal & Hz & _).
  exists evs. cbn in Hev.
  assert (forall t, getBalance s2 t = getBalance s t + deposited t evs) as Hall.
  { intros t. rewrite Hbal. unfold getBalance. cbn. rewrite getu_insert.
    repeat case_decide; try congruence; subst; unfold getBalance; lia. }
  split; [exact Hw|]. split; [exact Hall|].
  split; [intros t Ht; rewrite Hall, Hz by assumption; lia|].
  split; [by rewrite Hev, <- !app_assoc|].
  split; [exact Hcb|].
  intros Hno. split; [by apply Hnone|].
  intros t. rewrite Hall, Hnone by assumption. cbn. lia.
Qed.

Lemma deposit_withdraw_round_trip_witness :
  let x := no_callback true (CallReverted NoData) in
  exists s2,
    withdraw (at_time 50 2) x 0 7 77
      (transact (depositETH (at_time 9 1) 7) two_signer_vault) = Ok s2
    /\ getBalance s2 0 = getBalance two_signer_vault 0.
Proof.
  cbv zeta.
  destruct (deposit_withdraw_round_trip (at_time 9 1) (at_time 50 2)
              (no_callback true (CallReverted NoData)) 7 77
              two_signer_vault
              (transact (depositETH (at_time 9 1) 7) two_signer_vault))
    as (s2 & evs & Hw & _ & _ & _ & _ & Hplain).
  - vm_compute. discriminate.
  - vm_compute. reflexivity.
  - vm_compute. reflexivity.
  - vm_compute. discriminate.
  - discriminate.
  - reflexivity.
  - exists s2. split; [exact Hw | apply Hplain; reflexivity].
Defined.

(** The [try] of the token transfer completes, in one branch or the other,
    exactly when the token call returns a boolean or reverts. *)
Lemma transfer_success_succeeds (x : external) (token_ : address) :
  succeeds (transfer_success x token_) <->
  token_ = 0 \/ (exists b, token_call x = Returned b)
  \/ (exists data, token_call x = CallReverted data).
Proof.
  unfold transfer_success, succeeds.
  destruct (Z.eqb_spec token_ 0) as [->|Hne].
  - split; [by left | eauto].
  - destruct (token_call x) eqn:Hx; cbn; split; eauto;
      try (intros [? ?]; discriminate);
      intros [?|[[? ?]|[? ?]]]; congruence.
Qed.

(** X13: when [executeSpendingProposal] succeeds. The call reads neither
    the caller nor the time: with the tracked balance of the token in the
    [uint256] range, it succeeds exactly when the vault is not paused, no
    guarded function is running, the proposal exists, is not executed, has
    at least [requiredSignatures] approvals and an amount within the
    tracked balance, and, for a token other than the native asset, the
    call of [transfer] returns a boolean or reverts. A token call that
    returns no data, returns data that is no boolean, or goes to an address
    without code makes the whole call revert, although [depositToken] and
    [withdraw] accept a token that returns no data. An expired proposal
    that gathered its approvals can still be paid out, by anyone. *)
Theorem executeSpendingProposal_succeeds_iff (x : external) (proposalId : uint256)
    (s : state) :
  let p := proposal_at s proposalId in
  getBalance s (token p) <= MAX_UINT256 ->
  (succeeds (executeSpendingProposal x proposalId s) <->
     paused s = false /\ _entered s = false
     /\ 0 < proposalId <= spendingProposalCount s
     /\ requiredSignatures s <= approvals p /\ executed p = false
     /\ amount p <= getBalance s (token p)
     /\ (token p = 0 \/ (exists b, token_call x = Returned b)
         \/ (exists data, token_call x = CallReverted data)))
  /\ (token p <> 0 ->
      token_call x = ReturnedNothing \/ token_call x = ReturnedGarbage
      \/ token_call x = NoContract ->
      ~ succeeds (executeSpendingProposal x proposalId s)).
Proof.
  intros p Hmax.
  assert (succeeds (executeSpendingProposal x proposalId s) <->
            paused s = false /\ _entered s = false
            /\ 0 < proposalId <= spendingProposalCount s
            /\ requiredSignatures s <= approvals p /\ executed p = false
            /\ amount p <= getBalance s (token p)
            /\ (token p = 0 \/ (exists b, token_call x = Returned b)
                \/ (exists data, token_call x = CallReverted data))) as Hiff.
  { split.
    - intros [s' Hc].
      unfold executeSpendingProposal, whenNotPaused, nonReentrant,
        validSpendingProposal in Hc.
      inv_call Hc. cbn in *. subst p.
      change (proposal_at (set_status true s) proposalId)
        with (proposal_at s proposalId) in *.
      change (getBalance (set_status true s)) with (getBalance s) in *.
      match goal with
      | H : _executeSpendingProposal _ _ _ = Ok _ |- _ =>
          apply (_executeSpendingProposal_inv _ _ _ _ _ eq_refl) in H
            as (success & evs & Hts & _)
      end.
      change (proposal_at (_setEntered true s) proposalId)
        with (proposal_at s proposalId) in Hts.
      repeat split; try lia; try (by destruct (_paused s));
        try (by destruct (_status s)).
      apply transfer_success_succeeds. by eexists.
    - intros (Hp & He & Hid & Happ & Hex & Hbal & Hx).
      apply transfer_success_succeeds in Hx as [success Hs].
      assert (exists s1,
                _executeSpendingProposal x proposalId (_setEntered true s) = Ok s1)
        as [s1 Hc].
      { destruct success.
        - unfold _executeSpendingProposal.
          change (proposal_at (_setEntered true s) proposalId) with p. cbv beta zeta.
          rewrite getBalance_store.
          change (getBalance (_setEntered true s) (token p)) with (getBalance s (token p)).
          rewrite checked_sub_Ok by lia. rewrite bind_Ok, Hs. cbn. eauto.
        - destruct (_executeSpendingProposal_soft_failure x proposalId
                      (_setEntered true s)) as (s1 & Hc & _);
            [split; [exact Hbal | exact Hmax] | exact Hs | eauto]. }
      exists (_setEntered false s1).
      unfold executeSpendingProposal, whenNotPaused, nonReentrant, validSpendingProposal.
      rewrite Hp, He. cbn.
      replace ((0 <? proposalId) && (proposalId <=? spendingProposalCount s))
        with true by lia.
      cbn. change (proposal_at (set_status true s) proposalId) with p.
      replace (requiredSignatures s <=? approvals p) with true by lia. cbn.
      rewrite Hex. cbn.
      change (getBalance (set_status true s) (token p)) with (getBalance s (token p)).
      replace (amount p <=? getBalance s (token p)) with true by lia. cbn.
      cbn in Hc. by rewrite Hc. }
  split; [exact Hiff|].
  intros Ht Hx Hs. apply Hiff in Hs as (_ & _ & _ & _ & _ & _ & Hok).
  destruct Hok as [?|[[b Hb]|[d Hd]]]; [congruence| |];
    destruct Hx as [?|[?|?]]; congruence.
Qed.

Lemma executeSpendingProposal_succeeds_iff_witness :
  let x := no_callback true (CallReverted NoData) in
  let s := transact (updateRequiredSignatures (at_time 1 3) 1) scenario_vault in
  let approved_token_vault :=
    transact (approveSpendingProposal (at_time 1 5)
                (no_callback false (CallReverted NoData)) 1) token_vault in
  deadline (proposal_at s 1) = 1 + 7 * 86400
  /\ succeeds (executeSpendingProposal x 1 s)
  /\ approvals (proposal_at approved_token_vault 1) = 1
  /\ executed (proposal_at approved_token_vault 1) = false
  /\ ~ succeeds (executeSpendingProposal (no_callback true ReturnedNothing) 1
                   approved_token_vault)
  /\ succeeds (withdraw (at_time 50 6) (no_callback true ReturnedNothing) 5 5 77
                 approved_token_vault).
Proof.
  cbv zeta. split; [vm_compute; reflexivity|]. split; [|split; [|split; [|split]]].
  - apply (executeSpendingProposal_succeeds_iff
             (no_callback true (CallReverted NoData)) 1
             (transact (updateRequiredSignatures (at_time 1 3) 1) scenario_vault)).
    + vm_compute. discriminate.
    + vm_compute. repeat split; try discriminate. by left.
  - vm_compute. reflexivity.
  - vm_compute. reflexivity.
  - apply (executeSpendingProposal_succeeds_iff
             (no_callback true ReturnedNothing) 1
             (transact (approveSpendingProposal (at_time 1 5)
                          (no_callback false (CallReverted NoData)) 1) token_vault)).
    + vm_compute. discriminate.
    + vm_compute. discriminate.
    + by left.
  - eexists. vm_compute. reflexivity.
Defined.
End VaultWithdrawals.

(** ** Vault: the life of a spending proposal *)

Section VaultProposals.
Import Vault.

Lemma proposal_evolves_same (i : uint256) (s s' : state) :
  spendingProposals s' = spendingProposals s ->
  spendingProposalCount s' = spendingProposalCount s ->
  proposal_evolves i s s'.
Proof.
  intros Hp Hn. unfold proposal_evolves, proposal_at. rewrite Hp, Hn. cbv zeta.
  split; [lia|].
  intuition auto.
Qed.

Lemma proposal_evolves_trans (i : uint256) (s1 s2 s3 : state) :
  proposal_evolves i s1 s2 -> proposal_evolves i s2 s3 -> proposal_evolves i s1 s3.
Proof.
  unfold proposal_evolves. cbv zeta.
  intros (A1 & A2 & A3 & A4 & A5 & A6) (B1 & B2 & B3 & B4 & B5 & B6).
  split; [lia|]. split; [|split; [|split; [|split]]].
  - intros Hi. destruct (A2 Hi) as (? & ? & ? & ? & ? & ?).
    destruct B2 as (? & ? & ? & ? & ? & ?); [lia|]. repeat split; congruence.
  - intros a Ha. by apply B3, A3.
  - intros Hex. destruct (A4 Hex) as [Hex2 ?]. destruct (B4 Hex2) as [? ?].
    split; congruence.
  - intros Hc. by apply B5, A5.
  - intros Hi Hnone. apply B6; [exact Hi|]. apply A6; [lia | exact Hnone].
Qed.

(** Writing an approval of [approver] into a proposal it had not approved. *)
Lemma proposal_evolves_approval (i proposalId : uint256) (approver : address)
    (s : state) :
  let p := proposal_at s proposalId in
  proposalId <= spendingProposalCount s ->
  executed p = false -> getb (hasApproved p) approver = false ->
  proposal_evolves i s
    (store_proposal proposalId (add_approval approver (approvals p + 1) p) s).
Proof.
  intros p Hid Hex Hnot. unfold proposal_evolves, proposal_at. cbn.
  rewrite lookup_insert. case_decide as Hi.
  - subst i. fold (proposal_at s proposalId). fold p. cbn.
    split; [lia|]. split; [by repeat split|]. split; [|split; [|split]].
    + intros a Ha. rewrite getb_insert. by case_decide.
    + intros Hex'. congruence.
    + intros [Hn Hdom].
      assert (approver ∉ dom (hasApproved p)) as Hfresh.
      { intros Hin. apply Hdom in Hin. congruence. }
      assert ({[approver]} ## dom (hasApproved p)) as Hdisj.
      { intros a Ha Hin. apply elem_of_singleton in Ha. by subst a. }
      unfold approvals_counted. cbn.
      rewrite dom_insert_L, size_union, size_singleton by exact Hdisj.
      split; [lia|]. intros a Hin. rewrite getb_insert.
      apply elem_of_union in Hin as [Hin|Hin].
      * apply elem_of_singleton in Hin. subst a. by rewrite decide_True.
      * case_decide; [reflexivity | by apply Hdom].
    + intros Hlt. lia.
  - split; [lia|]. intuition auto.
Qed.

Lemma proposal_evolves_execute (i proposalId : uint256) (x : external) (s s' : state) :
  proposalId <= spendingProposalCount s ->
  executed (proposal_at s proposalId) = false ->
  _executeSpendingProposal x proposalId s = Ok s' ->
  proposal_evolves i s s'.
Proof.
  intros Hid Hex Hc.
  apply (_executeSpendingProposal_inv _ _ _ _ _ eq_refl) in Hc
    as (success & evs & _ & _ & _ & _ & _ & Hp & Hother & _ & _ & _ & _ & _ & _ & _ & _
        & Hn & _).
  unfold proposal_evolves. rewrite Hn. cbv zeta.
  destruct (decide (i = proposalId)) as [->|Hne].
  - rewrite Hp. cbn. split; [lia|]. split; [by repeat split|].
    split; [done|]. split; [congruence|]. split; [done|]. lia.
  - rewrite (Hother i Hne). split; [lia|]. intuition auto.
Qed.

(** What one successful call can do to spending proposal [i]. *)
Lemma Vault_exec_proposal (e : env) (c : call) (s s' : state) (i : uint256) :
  exec e c s = Ok s' -> proposal_evolves i s s'.
Proof.
  destruct c; cbn [exec]; intros Hc;
    unfold depositETH, depositToken, withdraw, createSpendingProposal,
      approveSpendingProposal, executeSpendingProposal,
      addSigner, removeSigner, updateWithdrawalLimit, updateRequiredSignatures,
      emergencyPause, unpause, receive, transferOwnership, renounceOwnership,
      _pause, _unpause, onlyOwner, onlyDAO, onlyAuthorizedSigner,
      whenNotPaused, whenPaused, nonReentrant, validSpendingProposal,
      _addSupportedToken in Hc;
    inv_call Hc;
    try match goal with
        | |- context [existsb ?f ?l] => destruct (existsb f l)
        end;
    try (by apply proposal_evolves_same);
    try (by (apply proposal_evolves_same; cbn;
             rewrite ?spendingProposals_reenter, ?spendingProposalCount_reenter)).
  - (* createSpendingProposal *)
    unfold proposal_evolves, proposal_at. cbn. rewrite lookup_insert.
    case_decide as Hi; [subst i; cbn | split; [lia | intuition auto]].
    split; [lia|]. split; [intros; lia|]. split; [done|]. split; [done|].
    split; [done|]. intros; lia.
  - (* approveSpendingProposal, threshold reached *)
    match goal with
    | H : _executeSpendingProposal _ _ ?s1 = Ok ?r |- _ =>
        apply (proposal_evolves_trans i s s1);
          [|apply (proposal_evolves_trans i s1 r);
             [eapply proposal_evolves_execute; [| |exact H]
             |by apply proposal_evolves_same]]
    end.
    + apply (proposal_evolves_trans i s
               (store_proposal proposalId
                  (add_approval (msg_sender e)
                     (approvals (proposal_at s proposalId) + 1)
                     (proposal_at s proposalId)) s));
        [|by apply proposal_evolves_same].
      change (proposal_at (_setEntered true s) proposalId)
        with (proposal_at s proposalId) in *.
      apply proposal_evolves_approval; [cbn in *; lia | |];
        match goal with
        | |- ?b = false => by destruct b
        end.
    + cbn in *. lia.
    + unfold proposal_at. cbn. rewrite lookup_insert_eq. cbn.
      change (default empty_proposal (spendingProposals s !! proposalId))
        with (proposal_at (_setEntered true s) proposalId).
      by destruct (executed (proposal_at (_setEntered true s) proposalId)).
  - (* approveSpendingProposal, below the threshold *)
    apply (proposal_evolves_trans i s
             (store_proposal proposalId
                (add_approval (msg_sender e)
                   (approvals (proposal_at s proposalId) + 1)
                   (proposal_at s proposalId)) s));
      [|by apply proposal_evolves_same].
    change (proposal_at (_setEntered true s) proposalId)
      with (proposal_at s proposalId) in *.
    apply proposal_evolves_approval; [cbn in *; lia | |];
      match goal with
      | |- ?b = false => by destruct b
      end.
  - (* executeSpendingProposal *)
    match goal with
    | H : _executeSpendingProposal _ _ ?s1 = Ok ?r |- _ =>
        apply (proposal_evolves_trans i s s1); [by apply proposal_evolves_same|];
        apply (proposal_evolves_trans i s1 r);
          [eapply proposal_evolves_execute; [| |exact H]
          |by apply proposal_evolves_same]
    end.
    + cbn in *. lia.
    + by destruct (executed (proposal_at (_setEntered true s) proposalId)).
Qed.

Lemma Vault_run_proposal (txs : list (env * call)) (i : uint256) : forall s : state,
  proposal_evolves i s (run txs s).
Proof.
  induction txs as [|[e c] txs IH]; intros s.
  - by apply proposal_evolves_same.
  - cbn [run fold_left fst snd]. fold (run txs (transact (exec e c) s)).
    specialize (IH (transact (exec e c) s)). unfold transact in *.
    destruct (exec e c s) as [s1| |] eqn:Hc; try exact IH.
    eapply proposal_evolves_trans; [|exact IH]. by eapply Vault_exec_proposal.
Qed.

Lemma Vault_constructor_proposals (e : env) (dao : address) (limit r : uint256)
    (s : state) (i : uint256) :
  constructor e dao limit r = Ok s ->
  spendingProposalCount s = 0 /\ proposal_at s i = empty_proposal.
Proof.
  unfold constructor. intros Hc. inv_call Hc. split; [reflexivity|].
  unfold proposal_at. cbn. by rewrite lookup_empty.
Qed.

Lemma approvals_counted_empty : approvals_counted empty_proposal.
Proof.
  unfold approvals_counted. cbn. rewrite dom_empty_L, size_empty.
  split; [reflexivity|]. intros a Ha. by apply not_elem_of_empty in Ha.
Qed.

(** X14: an approval is given once and for all. After a successful
    [approveSpendingProposal], in every later state of the vault the
    approval of that signer is still recorded and no
    [approveSpendingProposal] of the same address on the same proposal
    succeeds. *)
Theorem approve_once (e e' : env) (x x' : external) (proposalId : uint256)
    (s s1 : state) (txs : list (env * call)) :
  approveSpendingProposal e x proposalId s = Ok s1 ->
  msg_sender e' = msg_sender e ->
  getb (hasApproved (proposal_at (run txs s1) proposalId)) (msg_sender e) = true
  /\ ~ succeeds (approveSpendingProposal e' x' proposalId (run txs s1)).
Proof.
  intros Ha Hsender.
  assert (getb (hasApproved (proposal_at s1 proposalId)) (msg_sender e) = true)
    as Happroved.
  { unfold approveSpendingProposal, onlyAuthorizedSigner, whenNotPaused, nonReentrant,
      validSpendingProposal in Ha.
    inv_call Ha.
    - match goal with
      | H : _executeSpendingProposal _ _ _ = Ok _ |- _ =>
          apply (_executeSpendingProposal_inv _ _ _ _ _ eq_refl) in H
            as (success & evs & _ & _ & _ & _ & _ & Hp & _)
      end.
      change (proposal_at (set_status false r) proposalId)
        with (proposal_at r proposalId).
      rewrite Hp. unfold proposal_at. cbn. rewrite lookup_insert_eq. cbn.
      by rewrite getb_insert, decide_True.
    - unfold proposal_at. cbn. rewrite lookup_insert_eq. cbn.
      by rewrite getb_insert, decide_True. }
  destruct (Vault_run_proposal txs proposalId s1) as (_ & _ & Hmono & _).
  specialize (Hmono _ Happroved). split; [exact Hmono|].
  intros [s2 Hc].
  unfold approveSpendingProposal, onlyAuthorizedSigner, whenNotPaused, nonReentrant,
    validSpendingProposal in Hc.
  inv_call Hc;
    match goal with
    | H : negb (getb _ _) = true |- _ =>
        change (proposal_at (_setEntered true (run txs s1)) proposalId)
          with (proposal_at (run txs s1) proposalId) in H;
        rewrite Hsender, Hmono in H; discriminate H
    end.
Qed.

Lemma approve_once_witness :
  let x := no_callback true (CallReverted NoData) in
  let s := run [(at_time 9 3, DepositETH 5)] scenario_vault in
  getb (hasApproved (proposal_at s 1)) 1 = true
  /\ ~ succeeds (approveSpendingProposal (at_time 1 4) x 1 s).
Proof.
  cbv zeta.
  exact (approve_once (at_time 1 2) (at_time 1 4)
           (no_callback true (CallReverted NoData))
           (no_callback true (CallReverted NoData)) 1
           (run [(at_time 1 0, AddSigner 2); (at_time 9 0, DepositETH 100);
                 (at_time 1 1, CreateSpendingProposal 0 50 77 "desc")]
              (transact (fun _ => constructor (at_time 1 0) 50 10 2)
                 (initial (at_time 1 0))))
           scenario_vault [(at_time 9 3, DepositETH 5)]
           ltac:(vm_compute; reflexivity) eq_refl).
Defined.

(** X15: the approval count is the number of approvers. In every state a
    vault reaches from its constructor, [approvals] of a spending proposal
    equals the number of addresses for which [hasApproved] is true. *)
Theorem approvals_count_approvers (e0 : env) (dao : address) (limit r : uint256)
    (s0 : state) (txs : list (env * call)) (i : uint256) :
  constructor e0 dao limit r = Ok s0 ->
  let p := proposal_at (run txs s0) i in
  approvals p = Z.of_nat (size (dom (hasApproved p)))
  /\ (forall a, a ∈ dom (hasApproved p) <-> getb (hasApproved p) a = true).
Proof.
  intros Hc p. subst p.
  destruct (Vault_constructor_proposals _ _ _ _ _ i Hc) as [_ Hempty].
  destruct (Vault_run_proposal txs i s0) as (_ & _ & _ & _ & Hcount & _).
  destruct Hcount as [Hn Hdom]; [rewrite Hempty; apply approvals_counted_empty|].
  split; [exact Hn|]. intros a. split; [apply Hdom|].
  unfold getb. intros Ha. apply elem_of_dom.
  destruct (hasApproved (proposal_at (run txs s0) i) !! a); [eauto | discriminate].
Qed.

Lemma approvals_count_approvers_witness :
  approvals (proposal_at scenario_vault 1)
    = Z.of_nat (size (dom (hasApproved (proposal_at scenario_vault 1))))
  /\ (forall a, a ∈ dom (hasApproved (proposal_at scenario_vault 1))
                <-> getb (hasApproved (proposal_at scenario_vault 1)) a = true).
Proof.
  apply (approvals_count_approvers (at_time 1 0) 50 10 2
           (transact (fun _ => constructor (at_time 1 0) 50 10 2)
              (initial (at_time 1 0)))
           [(at_time 1 0, AddSigner 2); (at_time 9 0, DepositETH 100);
            (at_time 1 1, CreateSpendingProposal 0 50 77 "desc");
            (at_time 1 2, ApproveSpendingProposal
                            (no_callback true (CallReverted NoData)) 1)] 1).
  vm_compute. reflexivity.
Defined.

(** X16: the terms of a spending proposal are fixed at creation. Whatever
    calls follow, an existing proposal keeps its id, token, amount,
    recipient, description and deadline: what the signers approve is what
    was proposed. The proposal counter never goes down. *)
Theorem spending_proposal_fixed (s : state) (txs : list (env * call)) (i : uint256) :
  i <= spendingProposalCount s ->
  let p := proposal_at s i in
  let p' := proposal_at (run txs s) i in
  id p' = id p /\ token p' = token p /\ amount p' = amount p
  /\ recipient p' = recipient p /\ description p' = description p
  /\ deadline p' = deadline p
  /\ spendingProposalCount s <= spendingProposalCount (run txs s).
Proof.
  intros Hi. cbv zeta.
  destruct (Vault_run_proposal txs i s) as (Hcount & Hfix & _).
  destruct (Hfix Hi) as (? & ? & ? & ? & ? & ?). by repeat split.
Qed.

Lemma spending_proposal_fixed_witness :
  let x := no_callback true (CallReverted NoData) in
  let s := run [(at_time 2 3, ApproveSpendingProposal x 1);
                (at_time 1 4, CreateSpendingProposal 0 20 88 "other")] scenario_vault in
  amount (proposal_at s 1) = amount (proposal_at scenario_vault 1)
  /\ recipient (proposal_at s 1) = recipient (proposal_at scenario_vault 1).
Proof.
  cbv zeta.
  destruct (spending_proposal_fixed scenario_vault
              [(at_time 2 3, ApproveSpendingProposal
                               (no_callback true (CallReverted NoData)) 1);
               (at_time 1 4, CreateSpendingProposal 0 20 88 "other")] 1)
    as (_ & _ & Ha & Hr & _).
  - vm_compute. discriminate.
  - split; [exact Ha | exact Hr].
Defined.

(** X17: what [createSpendingProposal] creates. In every state a vault
    reaches from its constructor, a successful [createSpendingProposal]
    returns the next id in sequence; the new proposal reads back through
    [getSpendingProposal] with the given token, amount, recipient and
    description, no approvals, not executed, and a deadline seven days after
    [block.timestamp]; the amount is above the withdrawal limit and within
    the tracked balance; no other proposal changes. *)
Theorem createSpendingProposal_creates (e0 : env) (dao : address) (limit r : uint256)
    (s0 : state) (txs : list (env * call)) (e : env) (token_ : address)
    (amount_ : uint256) (recipient_ : address) (description_ : string)
    (i : uint256) (s' : state) :
  constructor e0 dao limit r = Ok s0 ->
  createSpendingProposal e token_ amount_ recipient_ description_ (run txs s0)
    = Ok (i, s') ->
  i = spendingProposalCount (run txs s0) + 1
  /\ spendingProposalCount s' = i
  /\ getSpendingProposal i s'
     = Ok (i, token_, amount_, recipient_, description_, 0,
           block_timestamp e + 604800, false)
  /\ (forall a, getb (hasApproved (proposal_at s' i)) a = false)
  /\ withdrawalLimit (run txs s0) < amount_ <= getBalance (run txs s0) token_
  /\ (forall j, j <> i -> proposal_at s' j = proposal_at (run txs s0) j).
Proof.
  intros Hc Hp.
  destruct (Vault_constructor_proposals _ _ _ _ _
              (spendingProposalCount (run txs s0) + 1) Hc) as [Hzero Hempty].
  destruct (Vault_run_proposal txs (spendingProposalCount (run txs s0) + 1) s0)
    as (Hcount & _ & _ & _ & _ & Hfresh).
  specialize (Hfresh ltac:(lia) Hempty).
  set (s := run txs s0) in *.
  unfold createSpendingProposal, onlyAuthorizedSigner, whenNotPaused, nonReentrant in Hp.
  inv_call Hp. subst s'. cbn in *.
  change (proposal_at
            (set_spendingProposalCount (spendingProposalCount s + 1) (set_status true s))
            (spendingProposalCount s + 1))
    with (proposal_at s (spendingProposalCount s + 1)).
  rewrite Hfresh. cbn.
  unfold getSpendingProposal, proposal_at. cbn.
  replace ((0 <? spendingProposalCount s + 1)
           && (spendingProposalCount s + 1 <=? spendingProposalCount s + 1))
    with true by lia.
  cbn. rewrite lookup_insert_eq. cbn.
  change (getBalance (set_status true s) token_) with (getBalance s token_) in *.
  unfold PROPOSAL_DURATION.
  repeat split; try done; try lia.
  intros j Hj. by rewrite lookup_insert_ne.
Qed.

Lemma createSpendingProposal_creates_witness :
  exists s',
    createSpendingProposal (at_time 2 9) 0 20 88 "other" scenario_vault = Ok (2, s')
    /\ getSpendingProposal 2 s' = Ok (2, 0, 20, 88, "other", 0, 9 + 604800, false).
Proof.
  eexists. split; [vm_compute; reflexivity|].
  refine (proj1 (proj2 (proj2
            (createSpendingProposal_creates (at_time 1 0) 50 10 2
               (transact (fun _ => constructor (at_time 1 0) 50 10 2)
                  (initial (at_time 1 0)))
               [(at_time 1 0, AddSigner 2); (at_time 9 0, DepositETH 100);
                (at_time 1 1, CreateSpendingProposal 0 50 77 "desc");
                (at_time 1 2, ApproveSpendingProposal
                                (no_callback true (CallReverted NoData)) 1)]
               (at_time 2 9) 0 20 88 "other" 2 _ _ _)))).
  - vm_compute. reflexivity.
  - vm_compute. reflexivity.
Defined.

(** X18: a proposal pays out once, and for good. In every state a vault
    reaches from its constructor the log holds at most one successful
    execution of a spending proposal, and none while the proposal is not
    marked executed; a proposal marked executed stays executed, with the
    approvals it has, whatever calls follow. *)
Theorem paid_once (e0 : env) (dao : address) (limit r : uint256)
    (s0 : state) (txs txs' : list (env * call)) (i : uint256) :
  constructor e0 dao limit r = Ok s0 ->
  let s := run txs s0 in
  let s' := run txs' s in
  (payouts i s <= 1)%nat
  /\ (executed (proposal_at s i) = false -> payouts i s = 0%nat)
  /\ (executed (proposal_at s i) = true ->
      executed (proposal_at s' i) = true
      /\ approvals (proposal_at s' i) = approvals (proposal_at s i)
      /\ (payouts i s' <= 1)%nat).
Proof.
  intros Hc s s'.
  assert (forall l, payouts_bounded (run l s0)) as Hb.
  { intros l. apply Vault_run_invariant; [intros e c s1 s2; apply Vault_exec_payouts|].
    unfold constructor in Hc. inv_call Hc. intros j. cbn. lia. }
  pose proof (Hb txs i) as Hi. fold s in Hi.
  split; [|split].
  - destruct (executed (proposal_at s i)); lia.
  - intros Hex. rewrite Hex in Hi. lia.
  - intros Hex.
    destruct (Vault_run_proposal txs' i s) as (_ & _ & _ & Hfinal & _).
    destruct (Hfinal Hex) as [Hex' Happ]. fold s' in Hex', Happ.
    split; [exact Hex'|]. split; [exact Happ|].
    pose proof (Hb (txs ++ txs')%list i) as Hi'.
    unfold run in Hi'. rewrite fold_left_app in Hi'.
    fold (run txs s0) in Hi'. fold s in Hi'. fold (run txs' s) in Hi'. fold s' in Hi'.
    destruct (executed (proposal_at s' i)); lia.
Qed.

Lemma paid_once_witness :
  let x := no_callback true (CallReverted NoData) in
  let s := run [(at_time 2 3, ApproveSpendingProposal x 1)] scenario_vault in
  let s' := run [(at_time 2 4, ExecuteSpendingProposal x 1)] s in
  payouts 1 s = 1%nat /\ (payouts 1 s' <= 1)%nat
  /\ executed (proposal_at s' 1) = true.
Proof.
  cbv zeta.
  assert (run [(at_time 1 0, AddSigner 2); (at_time 9 0, DepositETH 100);
               (at_time 1 1, CreateSpendingProposal 0 50 77 "desc");
               (at_time 1 2, ApproveSpendingProposal
                               (no_callback true (CallReverted NoData)) 1);
               (at_time 2 3, ApproveSpendingProposal
                               (no_callback true (CallReverted NoData)) 1)]
            (transact (fun _ => constructor (at_time 1 0) 50 10 2)
               (initial (at_time 1 0)))
          = run [(at_time 2 3, ApproveSpendingProposal
                                 (no_callback true (CallReverted NoData)) 1)]
              scenario_vault) as Heq by (vm_compute; reflexivity).
  destruct (paid_once (at_time 1 0) 50 10 2
              (transact (fun _ => constructor (at_time 1 0) 50 10 2)
                 (initial (at_time 1 0)))
              [(at_time 1 0, AddSigner 2); (at_time 9 0, DepositETH 100);
               (at_time 1 1, CreateSpendingProposal 0 50 77 "desc");
               (at_time 1 2, ApproveSpendingProposal
                               (no_callback true (CallReverted NoData)) 1);
               (at_time 2 3, ApproveSpendingProposal
                               (no_callback true (CallReverted NoData)) 1)]
              [(at_time 2 4, ExecuteSpendingProposal
                               (no_callback true (CallReverted NoData)) 1)] 1)
    as (_ & _ & Hfinal).
  - vm_compute. reflexivity.
  - rewrite Heq in Hfinal.
    destruct Hfinal as (Hex & _ & Hp); [vm_compute; reflexivity|].
    split; [vm_compute; reflexivity|]. split; [exact Hp | exact Hex].
Defined.
End VaultProposals.

(** ** Vault: signers and the emergency pause *)

Section VaultSignerSet.
Import Vault.

Ltac vault_cases c Hc :=
  destruct c; cbn [exec] in Hc;
  unfold depositETH, depositToken, withdraw, createSpendingProposal,
    approveSpendingProposal, executeSpendingProposal,
    addSigner, removeSigner, updateWithdrawalLimit, updateRequiredSignatures,
    emergencyPause, unpause, receive, transferOwnership, renounceOwnership,
    _pause, _unpause, onlyOwner, onlyDAO, onlyAuthorizedSigner,
    whenNotPaused, whenPaused, nonReentrant, validSpendingProposal,
    _addSupportedToken in Hc;
  inv_call Hc;
  try match goal with
      | H : _executeSpendingProposal _ _ _ = Ok _ |- _ =>
          apply (_executeSpendingProposal_inv _ _ _ _ _ eq_refl) in H
            as (? & ? & _ & ? & ? & ? & ? & ? & ? & ? & ? & ? & ? & ? & ? & ? & ? & ? & ?)
      end;
  try match goal with
      | |- context [existsb ?f ?l] => destruct (existsb f l) eqn:?
      end.

(** Removing the element pushed last gives the array back. *)
Lemma swap_remove_last (x : address) (l : list address) :
  x ∉ l -> swap_remove x (l ++ [x]) = l.
Proof.
  intros Hx. unfold swap_remove. rewrite (remove_loop_found x _ (length l)).
  - rewrite last_snoc, list_insert_id by (by rewrite list_lookup_middle).
    by rewrite removelast_last.
  - intros j [_ Hj] Hl. rewrite lookup_app_l in Hl by lia.
    apply Hx. eapply list_elem_of_lookup_2, Hl.
  - by rewrite list_lookup_middle.
  - lia.
  - rewrite length_app. cbn. lia.
Qed.

Lemma Vault_exec_signer_cap (e : env) (c : call) (s s' : state) :
  signer_count s <= MAX_SIGNERS -> exec e c s = Ok s' -> signer_count s' <= MAX_SIGNERS.
Proof.
  unfold signer_count. intros Hcap Hc.
  vault_cases c Hc; cbn in *; rewrite ?signerList_reenter; cbn; try lia; try congruence.
  - rewrite length_app. cbn. lia.
  - pose proof (swap_remove_length signer (signerList s)). lia.
Qed.

(** X19: a vault never has more than twenty signers. In every state a vault
    reaches from its constructor [getSigners] returns at most [MAX_SIGNERS]
    addresses, and at twenty every [addSigner] reverts. *)
Theorem signer_cap (e0 : env) (dao : address) (limit r : uint256)
    (s0 : state) (txs : list (env * call)) :
  constructor e0 dao limit r = Ok s0 ->
  let s := run txs s0 in
  Z.of_nat (length (getSigners s)) <= 20
  /\ (Z.of_nat (length (getSigners s)) = 20 ->
      forall e signer, exists reason, addSigner e signer s = Revert reason).
Proof.
  intros Hc s.
  assert (signer_count s <= MAX_SIGNERS) as Hcap.
  { apply Vault_run_invariant; [intros e c s1 s2; apply Vault_exec_signer_cap|].
    apply Vault_constructor_state in Hc as (Hl & _).
    unfold signer_count, MAX_SIGNERS. rewrite Hl. cbn. lia. }
  split; [exact Hcap|].
  intros Hfull e signer.
  unfold addSigner, onlyOwner, whenNotPaused, nonReentrant, require, getSigners in *.
  cbn.
  repeat (match goal with |- context [if ?c then _ else _] => destruct c eqn:? end;
          cbn; eauto).
  unfold MAX_SIGNERS in *. lia.
Qed.

Lemma signer_cap_witness :
  Z.of_nat (length (getSigners two_signer_vault)) <= 20
  /\ (Z.of_nat (length (getSigners two_signer_vault)) = 20 ->
      forall e signer, exists reason, addSigner e signer two_signer_vault = Revert reason).
Proof.
  apply (signer_cap (at_time 1 0) 50 10 1
           (transact (fun _ => constructor (at_time 1 0) 50 10 1) (initial (at_time 1 0)))
           [(at_time 1 0, AddSigner 2); (at_time 9 0, DepositETH 100)]).
  vm_compute. reflexivity.
Defined.

(** X20: adding a signer can be undone. In a vault reached from its
    constructor whose threshold is within the signer count, a [removeSigner]
    by the owner right after a successful [addSigner] of the same address
    succeeds and gives back the signer list, in the same order, and the
    signer mapping. *)
Theorem addSigner_removeSigner (e0 : env) (dao : address) (limit r : uint256)
    (s0 : state) (txs : list (env * call)) (e e' : env) (signer : address)
    (s1 : state) :
  constructor e0 dao limit r = Ok s0 ->
  let s := run txs s0 in
  requiredSignatures s <= signer_count s ->
  addSigner e signer s = Ok s1 ->
  msg_sender e' = owner s ->
  exists s2, removeSigner e' signer s1 = Ok s2
    /\ getSigners s2 = getSigners s
    /\ (forall a, getb (authorizedSigners s2) a = getb (authorizedSigners s) a)
    /\ requiredSignatures s2 = requiredSignatures s.
Proof.
  intros Hc s Hreq Ha Hsender.
  destruct (Vault_signers_reachable e0 dao limit r s0 txs Hc) as [Hnd Hagree].
  fold s in Hnd, Hagree.
  unfold addSigner, onlyOwner, whenNotPaused, nonReentrant in Ha. inv_call Ha.
  assert (signer ∉ signerList s) as Hfresh.
  { intros Hin. apply Hagree in Hin.
    match goal with
    | H : negb (getb _ signer) = true |- _ => cbn in H; rewrite Hin in H; discriminate H
    end. }
  unfold signer_count in Hreq. cbn in *.
  eexists. split.
  - unfold removeSigner, onlyOwner, whenNotPaused, nonReentrant. cbn -[swap_remove].
    rewrite Hsender, Z.eqb_refl. cbn -[swap_remove].
    replace (negb (_paused s)) with true by (by destruct (_paused s)).
    replace (negb (_status s)) with true by (by destruct (_status s)).
    cbn -[swap_remove]. replace (negb (signer =? 0)) with true by lia.
    cbn -[swap_remove]. rewrite getb_insert, decide_True by reflexivity.
    cbn -[swap_remove]. rewrite length_app. cbn -[swap_remove].
    replace (requiredSignatures s <? Z.of_nat (length (signerList s) + 1))
      with true by lia.
    cbn -[swap_remove]. reflexivity.
  - cbn -[swap_remove]. split; [by apply swap_remove_last|]. split; [|reflexivity].
    intros a. rewrite !getb_insert. case_decide; [subst a|reflexivity].
    match goal with
    | H : negb (getb _ signer) = true |- _ => by destruct (getb (authorizedSigners s) signer)
    end.
Qed.

Lemma addSigner_removeSigner_witness :
  exists s2,
    removeSigner (at_time 1 6) 3
      (transact (addSigner (at_time 1 5) 3) two_signer_vault) = Ok s2
    /\ getSigners s2 = getSigners two_signer_vault.
Proof.
  destruct (addSigner_removeSigner (at_time 1 0) 50 10 1
              (transact (fun _ => constructor (at_time 1 0) 50 10 1)
                 (initial (at_time 1 0)))
              [(at_time 1 0, AddSigner 2); (at_time 9 0, DepositETH 100)]
              (at_time 1 5) (at_time 1 6) 3
              (transact (addSigner (at_time 1 5) 3) two_signer_vault))
    as (s2 & Hr & Hl & _).
  - vm_compute. reflexivity.
  - vm_compute. discriminate.
  - vm_compute. reflexivity.
  - vm_compute. reflexivity.
  - exists s2. split; [exact Hr | exact Hl].
Defined.

(** X21: any signer can stop the vault, only the owner can restart it. A
    successful [emergencyPause] comes from an authorized signer or the
    owner, leaves the vault paused with every balance, signer and proposal
    as before; after it [unpause] succeeds for the owner and nobody else,
    and a second [emergencyPause] fails. *)
Theorem signer_pauses_owner_unpauses (e : env) (reason : string) (s s' : state) :
  emergencyPause e reason s = Ok s' ->
  (getb (authorizedSigners s) (msg_sender e) = true \/ msg_sender e = owner s)
  /\ paused s = false /\ paused s' = true
  /\ tokenBalances s' = tokenBalances s /\ signerList s' = signerList s
  /\ spendingProposals s' = spendingProposals s
  /\ (forall e', succeeds (unpause e' s') <-> msg_sender e' = owner s)
  /\ (forall e' reason', ~ succeeds (emergencyPause e' reason' s')).
Proof.
  intros Hc. unfold emergencyPause, onlyAuthorizedSigner, _pause, whenNotPaused in Hc.
  inv_call Hc. cbn in *.
  split; [|split; [by destruct (_paused s)|]].
  { destruct (getb (authorizedSigners s) (msg_sender e)); [by left|]. right. lia. }
  repeat split; try done.
  - intros [s2 Hu]. unfold unpause, onlyOwner, _unpause, whenPaused in Hu.
    inv_call Hu. cbn in *. lia.
  - intros Hs. unfold unpause, onlyOwner, _unpause, whenPaused. cbn.
    rewrite Hs, Z.eqb_refl. cbn. by eexists.
  - intros e' reason' [s2 Hp].
    unfold emergencyPause, onlyAuthorizedSigner, _pause, whenNotPaused in Hp.
    inv_call Hp. cbn in *. discriminate.
Qed.

Lemma signer_pauses_owner_unpauses_witness :
  paused paused_vault = true
  /\ ~ succeeds (unpause (at_time 2 4) paused_vault)
  /\ succeeds (unpause (at_time 1 4) paused_vault).
Proof.
  destruct (signer_pauses_owner_unpauses (at_time 2 3) "incident" two_signer_vault
              paused_vault) as (_ & _ & Hp & _ & _ & _ & Hu & _).
  - vm_compute. reflexivity.
  - split; [exact Hp|]. split.
    + intros Hs. apply Hu in Hs. vm_compute in Hs. discriminate Hs.
    + apply Hu. vm_compute. reflexivity.
Defined.
End VaultSignerSet.

(** ** Vault: the books *)

Section VaultBooks.
Import Vault.

Lemma ledger_of_app (s : state) (t : address) (evs evs' : list event) :
  ledger_of s t (evs ++ evs') = ledger_of s t evs + ledger_of s t evs'.
Proof.
  unfold ledger_of. induction evs as [|ev evs IH]; cbn; [lia|]. rewrite IH. lia.
Qed.

Lemma ledger_of_ext (s s' : state) (t : address) (evs : list event) :
  (forall i b, SpendingProposalExecuted i b ∈ evs ->
     token (proposal_at s' i) = token (proposal_at s i)
     /\ amount (proposal_at s' i) = amount (proposal_at s i)) ->
  ledger_of s' t evs = ledger_of s t evs.
Proof.
  unfold ledger_of. induction evs as [|ev evs IH]; intros Hsame; cbn; [reflexivity|].
  rewrite IH by (intros i b Hin; apply (Hsame i b); by right).
  destruct ev; cbn; try reflexivity.
  destruct (Hsame proposalId success) as [-> ->]; [by left | reflexivity].
Qed.

(** What the calls back of a callee log adds up to the plain ETH transfers
    among them, and holds no deposit of a token. *)
Lemma ledger_of_callback_events (s : state) (t : address) (evs : list event) :
  Forall (fun ev => is_callback_event ev = true) evs ->
  ledger_of s t evs = deposited t evs.
Proof.
  unfold ledger_of, deposited.
  induction 1 as [|ev evs Hev _ IH]; [reflexivity|].
  cbn. rewrite IH. destruct ev; cbn in *; try discriminate; lia.
Qed.

Lemma callback_deposit_native (evs : list event) (t d a : Z) :
  Forall (fun ev => is_callback_event ev = true) evs ->
  Deposit t d a ∈ evs -> t = 0.
Proof.
  intros Hcb Hin. eapply Forall_forall in Hcb; [|exact Hin]. cbn in Hcb. lia.
Qed.

Lemma callback_no_execution (evs : list event) (i : uint256) (b : bool) :
  Forall (fun ev => is_callback_event ev = true) evs ->
  SpendingProposalExecuted i b ∉ evs.
Proof.
  intros Hcb Hin. eapply Forall_forall in Hcb; [|exact Hin]. discriminate Hcb.
Qed.

(** What a completed [depositToken] did: [evs] is what the token had the
    vault log by calling back during [transferFrom]. *)
Lemma depositToken_inv (e : env) (x : external) (token_ : address)
    (amount_ : uint256) (s s' : state) :
  depositToken e x token_ amount_ s = Ok s' ->
  exists evs,
    token_ <> 0
    /\ events s' = (events s ++ evs ++ [Deposit token_ (msg_sender e) amount_])%list
    /\ Forall (fun ev => is_callback_event ev = true) evs
    /\ (forall t, getBalance s' t =
          getBalance s t + deposited t evs + if decide (t = token_) then amount_ else 0)
    /\ spendingProposals s' = spendingProposals s
    /\ spendingProposalCount s' = spendingProposalCount s
    /\ supportedTokens s' =
         if existsb (fun t => t =? token_) (supportedTokens s)
         then supportedTokens s
         else (supportedTokens s ++ [token_])%list.
Proof.
  intros Hc. unfold depositToken, whenNotPaused, nonReentrant in Hc.
  inv_call Hc.
  destruct (reenter_reentered x (set_status true s))
    as (evs & Hev & Hcb & Hbal & Hz & Hp & Hcnt & Ha & Hl & Ht & Hd & He & Hr).
  set (r := reenter x (set_status true s)) in *.
  cbn in Hev, Hp, Hcnt, Ht.
  exists evs. split; [lia|].
  assert (forall u, getBalance (set_status true s) u = getBalance s u) as Hsame
    by reflexivity.
  unfold _addSupportedToken. cbn [supportedTokens set_balance set_tokenBalances].
  rewrite Ht.
  destruct (existsb (fun t => t =? token_) (supportedTokens s)); cbn;
    (split; [by rewrite Hev, <- app_assoc|]);
    (split; [exact Hcb|]);
    (split; [|by repeat split]);
    intros t; unfold getBalance at 1; cbn; rewrite getu_insert;
    fold (getBalance r token_); fold (getBalance r t);
    rewrite !Hbal, !Hsame; repeat case_decide; subst; try congruence; lia.
Qed.

(** The events a successful call logs, and what they say of the balances. *)
Lemma Vault_exec_events (e : env) (c : call) (s s' : state) :
  exec e c s = Ok s' ->
  exists new, events s' = (events s ++ new)%list
    /\ (forall t, getBalance s' t = getBalance s t + ledger_of s' t new)
    /\ (forall i b, SpendingProposalExecuted i b ∈ new ->
                    i <= spendingProposalCount s').
Proof.
  destruct c; cbn [exec]; intros Hc.
  2: { (* depositToken *)
    apply depositToken_inv in Hc as (evs & Hne & Hev & Hcb & Hbal & _).
    exists (evs ++ [Deposit token_ (msg_sender e) amount_])%list.
    split; [exact Hev|]. split.
    - intros t. rewrite Hbal, ledger_of_app, (ledger_of_callback_events _ _ _ Hcb).
      unfold ledger_of. cbn -[Z.eqb].
      destruct (Z.eqb_spec token_ t); case_decide; try congruence; lia.
    - intros i b Hin. apply elem_of_app in Hin as [Hin|Hin].
      + by apply (callback_no_execution _ _ _ Hcb) in Hin.
      + apply list_elem_of_singleton in Hin. discriminate Hin. }
  2: { (* withdraw *)
    apply withdraw_inv in Hc as (evs & Hev & Hcb & _ & Hbal & _).
    exists (evs ++ [Withdrawal token_ recipient_ amount_])%list.
    split; [exact Hev|]. split.
    - intros t. rewrite Hbal, ledger_of_app, (ledger_of_callback_events _ _ _ Hcb).
      unfold ledger_of. cbn -[Z.eqb].
      destruct (Z.eqb_spec token_ t); case_decide; try congruence; lia.
    - intros i b Hin. apply elem_of_app in Hin as [Hin|Hin].
      + by apply (callback_no_execution _ _ _ Hcb) in Hin.
      + apply list_elem_of_singleton in Hin. discriminate Hin. }
  3: { (* approveSpendingProposal *)
    unfold approveSpendingProposal, onlyAuthorizedSigner, whenNotPaused,
      nonReentrant, validSpendingProposal in Hc.
    inv_call Hc.
    - (* threshold reached *)
      match goal with
      | H : _executeSpendingProposal _ _ _ = Ok _ |- _ =>
          apply (_executeSpendingProposal_inv _ _ _ _ _ eq_refl) in H
            as (success & evs & _ & _ & Hev & Hcb & _ & Hp & _ & Hbal & _ & _ & _ & _
                & _ & _ & _ & Hn & _)
      end.
      exists ([SpendingProposalApproved proposalId (msg_sender e)] ++ evs
                ++ [SpendingProposalExecuted proposalId success])%list.
      split; [cbn; rewrite Hev; cbn; by rewrite <- app_assoc|].
      split.
      + intros t. change (getBalance (set_status false r) t) with (getBalance r t).
        rewrite Hbal, !ledger_of_app, (ledger_of_callback_events _ _ _ Hcb).
        unfold ledger_of. cbn [foldr credited debited].
        change (proposal_at (set_status false r) proposalId)
          with (proposal_at r proposalId).
        rewrite Hp. cbn [token amount set_executed add_approval].
        unfold proposal_at. cbn. rewrite lookup_insert_eq. cbn.
        destruct success; cbn [andb]; [|unfold getBalance; cbn; lia].
        case_bool_decide as Ht.
        * rewrite <- Ht, Z.eqb_refl. unfold getBalance. cbn. lia.
        * match goal with
          | |- context [?a =? t] => destruct (Z.eqb_spec a t); [congruence|]
          end.
          unfold getBalance. cbn. lia.
      + intros i b Hin. apply elem_of_cons in Hin as [Hin|Hin]; [discriminate Hin|].
        apply elem_of_app in Hin as [Hin|Hin].
        * by apply (callback_no_execution _ _ _ Hcb) in Hin.
        * apply list_elem_of_singleton in Hin. injection Hin as -> _.
          cbn in *. lia.
    - (* below the threshold *)
      eexists [_]. split; [reflexivity|].
      split; [intros t; unfold getBalance; cbn; lia
             | intros i b Hin; apply list_elem_of_singleton in Hin;
               discriminate Hin]. }
  3: { (* executeSpendingProposal *)
    unfold executeSpendingProposal, whenNotPaused, nonReentrant,
      validSpendingProposal in Hc.
    inv_call Hc.
    match goal with
    | H : _executeSpendingProposal _ _ _ = Ok _ |- _ =>
        apply (_executeSpendingProposal_inv _ _ _ _ _ eq_refl) in H
          as (success & evs & _ & _ & Hev & Hcb & _ & Hp & _ & Hbal & _ & _ & _ & _
              & _ & _ & _ & Hn & _)
    end.
    exists (evs ++ [SpendingProposalExecuted proposalId success])%list.
    split; [cbn; rewrite Hev; reflexivity|].
    split.
    + intros t. change (getBalance (set_status false r) t) with (getBalance r t).
      rewrite Hbal, !ledger_of_app, (ledger_of_callback_events _ _ _ Hcb).
      unfold ledger_of. cbn [foldr credited debited].
      change (proposal_at (set_status false r) proposalId)
        with (proposal_at r proposalId).
      rewrite Hp. cbn [token amount set_executed].
      destruct success; cbn [andb]; [|unfold getBalance; cbn; lia].
      case_bool_decide as Ht.
      * rewrite <- Ht, Z.eqb_refl. unfold getBalance. cbn. lia.
      * match goal with
        | |- context [?a =? t] => destruct (Z.eqb_spec a t); [congruence|]
        end.
        unfold getBalance. cbn. lia.
    + intros i b Hin. apply elem_of_app in Hin as [Hin|Hin].
      * by apply (callback_no_execution _ _ _ Hcb) in Hin.
      * apply list_elem_of_singleton in Hin. injection Hin as -> _.
        cbn in *. lia. }
  all: unfold depositETH, createSpendingProposal,
      addSigner, removeSigner, updateWithdrawalLimit, updateRequiredSignatures,
      emergencyPause, unpause, receive, transferOwnership, renounceOwnership,
      _pause, _unpause, onlyOwner, onlyDAO, onlyAuthorizedSigner,
      whenNotPaused, whenPaused, nonReentrant, validSpendingProposal in Hc;
    inv_call Hc.
  all: try (exists []; split; [cbn; by rewrite app_nil_r|];
            split; [intros t; unfold getBalance, ledger_of; cbn; lia
                   | intros i b Hin; by apply elem_of_nil in Hin]).
  all: try (eexists [_]; split; [reflexivity|];
            split; [intros t; unfold getBalance; cbn; lia
                   | intros i b Hin; apply list_elem_of_singleton in Hin;
                     discriminate Hin]).
  all: try (eexists [_]; split; [reflexivity|];
            split; [|intros i b Hin; apply list_elem_of_singleton in Hin;
                     discriminate Hin];
            intros t; unfold getBalance, ledger_of; cbn -[Z.eqb]; rewrite getu_insert;
            repeat match goal with
                   | |- context [?a =? ?b] => destruct (Z.eqb_spec a b)
                   end;
            repeat case_decide; subst; try congruence; unfold getBalance; cbn; lia).
Qed.

Lemma Vault_exec_books (e : env) (c : call) (s s' : state) :
  books_balance s -> exec e c s = Ok s' -> books_balance s'.
Proof.
  intros [Hbal Hknown] Hc.
  destruct (Vault_exec_events e c s s' Hc) as (new & Hev & Hnew & Hids).
  assert (spendingProposalCount s <= spendingProposalCount s') as Hcount.
  { by destruct (Vault_exec_proposal e c s s' 0 Hc) as (? & _). }
  split.
  - intros t. unfold ledger. rewrite Hnew, Hev, ledger_of_app, Hbal. unfold ledger.
    f_equal. symmetry. apply ledger_of_ext. intros i b Hin.
    destruct (Vault_exec_proposal e c s s' i Hc) as (_ & Hfix & _).
    destruct Hfix as (_ & ? & ? & _); [by eapply Hknown|]. by split.
  - intros i b Hin. rewrite Hev in Hin. apply elem_of_app in Hin as [Hin|Hin].
    + specialize (Hknown i b Hin). lia.
    + by eapply Hids.
Qed.

(** X22: the books balance. In every state a vault reaches from its
    constructor, the tracked balance of each token is what the event log
    adds up to: the deposits, less the direct withdrawals, less the amounts
    of the spending proposals whose execution succeeded. *)
Theorem books_always_balance (e0 : env) (dao : address) (limit r : uint256)
    (s0 : state) (txs : list (env * call)) (t : address) :
  constructor e0 dao limit r = Ok s0 ->
  getBalance (run txs s0) t = ledger (run txs s0) t.
Proof.
  intros Hc.
  assert (books_balance (run txs s0)) as [Hb _]; [|apply Hb].
  apply Vault_run_invariant; [intros e c s s'; apply Vault_exec_books|].
  unfold constructor in Hc. inv_call Hc. split.
  - intros t'. reflexivity.
  - intros i b Hin. by apply elem_of_nil in Hin.
Qed.

Lemma books_always_balance_witness :
  let x := no_callback true (CallReverted NoData) in
  let s := run [(at_time 2 3, ApproveSpendingProposal x 1);
                (at_time 50 4, Withdraw x 0 10 77)] scenario_vault in
  let calls_back :=
    {| callbacks := [(at_time 5 2, CallbackReceive 3)];
       eth_call := false; token_call := ReturnedNothing |} in
  let s2 := run [(at_time 9 2, DepositToken calls_back 5 1)] token_vault in
  getBalance s 0 = ledger s 0 /\ ledger s 0 = 100 - 50 - 10
  /\ getBalance s2 0 = ledger s2 0 /\ getBalance s2 0 = 3
  /\ getBalance s2 5 = ledger s2 5 /\ getBalance s2 5 = 100 + 1.
Proof.
  cbv zeta.
  assert (run [(at_time 1 0, AddSigner 2); (at_time 9 0, DepositETH 100);
               (at_time 1 1, CreateSpendingProposal 0 50 77 "desc");
               (at_time 1 2, ApproveSpendingProposal
                               (no_callback true (CallReverted NoData)) 1);
               (at_time 2 3, ApproveSpendingProposal
                               (no_callback true (CallReverted NoData)) 1);
               (at_time 50 4, Withdraw
                                (no_callback true (CallReverted NoData))
                                0 10 77)]
            (transact (fun _ => constructor (at_time 1 0) 50 10 2)
               (initial (at_time 1 0)))
          = run [(at_time 2 3, ApproveSpendingProposal
                                 (no_callback true (CallReverted NoData)) 1);
                 (at_time 50 4, Withdraw
                                  (no_callback true (CallReverted NoData))
                                  0 10 77)]
              scenario_vault) as Heq by (vm_compute; reflexivity).
  assert (run [(at_time 9 0, DepositToken (no_callback true (Returned true)) 5 100);
               (at_time 1 1, CreateSpendingProposal 5 50 77 "grant");
               (at_time 9 2, DepositToken
                               {| callbacks := [(at_time 5 2, CallbackReceive 3)];
                                  eth_call := false; token_call := ReturnedNothing |}
                               5 1)]
            (transact (fun _ => constructor (at_time 1 0) 50 10 1)
               (initial (at_time 1 0)))
          = run [(at_time 9 2, DepositToken
                                 {| callbacks := [(at_time 5 2, CallbackReceive 3)];
                                    eth_call := false; token_call := ReturnedNothing |}
                                 5 1)]
              token_vault) as Heq2 by (vm_compute; reflexivity).
  rewrite <- Heq, <- Heq2.
  split; [|split; [vm_compute; reflexivity|]].
  { apply (books_always_balance (at_time 1 0) 50 10 2). vm_compute. reflexivity. }
  split; [|split; [vm_compute; reflexivity|]].
  { apply (books_always_balance (at_time 1 0) 50 10 1). vm_compute. reflexivity. }
  split; [|vm_compute; reflexivity].
  apply (books_always_balance (at_time 1 0) 50 10 1). vm_compute. reflexivity.
Defined.

Lemma tokens_listed_frame (s s' : state) (new : list event) :
  tokens_listed s ->
  supportedTokens s' = supportedTokens s ->
  events s' = (events s ++ new)%list ->
  (forall t d a, Deposit t d a ∈ new -> t = 0) ->
  tokens_listed s'.
Proof.
  intros [Hnd Hiff] Hl Hev Hnew. unfold tokens_listed. rewrite Hl, Hev.
  split; [exact Hnd|]. intros t. rewrite Hiff. split.
  - intros (Ht & d & a & Hin). split; [exact Ht|]. exists d, a.
    apply elem_of_app. by left.
  - intros (Ht & d & a & Hin). split; [exact Ht|].
    apply elem_of_app in Hin as [Hin|Hin]; [by exists d, a|].
    by apply Hnew in Hin.
Qed.

Lemma existsb_eqb_elem_of (x : address) (l : list address) :
  existsb (fun y => y =? x) l = true <-> x ∈ l.
Proof.
  rewrite existsb_exists. split.
  - intros (y & Hin & Hy). apply list_elem_of_In in Hin.
    by replace x with y by lia.
  - intros Hin. exists x. split; [by apply list_elem_of_In | lia].
Qed.

Lemma Vault_exec_tokens (e : env) (c : call) (s s' : state) :
  tokens_listed s -> exec e c s = Ok s' -> tokens_listed s'.
Proof.
  intros Hinv.
  destruct c; cbn [exec]; intros Hc.
  2: { (* depositToken *)
    apply depositToken_inv in Hc as (evs & Hne & Hev & Hcb & _ & _ & _ & Htok).
    destruct (existsb (fun t => t =? token_) (supportedTokens s)) eqn:Hlisted.
    - (* token listed before *)
      apply existsb_eqb_elem_of in Hlisted.
      destruct Hinv as [Hnd Hiff]. unfold tokens_listed. rewrite Htok, Hev.
      split; [exact Hnd|].
      intros t. rewrite Hiff. split.
      + intros (Ht & d & a & Hin). split; [exact Ht|]. exists d, a.
        apply elem_of_app. by left.
      + intros (Ht & d & a & Hin). apply elem_of_app in Hin as [Hin|Hin].
        * split; [exact Ht|]. by exists d, a.
        * apply elem_of_app in Hin as [Hin|Hin].
          -- by apply (callback_deposit_native _ _ _ _ Hcb) in Hin.
          -- apply list_elem_of_singleton in Hin. injection Hin as -> _ _.
             by apply Hiff.
    - (* first deposit of the token *)
      assert (token_ ∉ supportedTokens s) as Hfresh.
      { intros Hin. apply existsb_eqb_elem_of in Hin. congruence. }
      destruct Hinv as [Hnd Hiff]. unfold tokens_listed. rewrite Htok, Hev. split.
      + apply NoDup_app. split; [exact Hnd|]. split; [|apply NoDup_singleton].
        intros a Ha Hm. apply list_elem_of_singleton in Hm. by subst a.
      + intros t. rewrite elem_of_app, list_elem_of_singleton, Hiff. split.
        * intros [(Ht & d & a & Hin)| ->].
          -- split; [exact Ht|]. exists d, a. apply elem_of_app. by left.
          -- split; [exact Hne|]. exists (msg_sender e), amount_.
             rewrite !elem_of_app. right. right. by apply list_elem_of_singleton.
        * intros (Ht & d & a & Hin). apply elem_of_app in Hin as [Hin|Hin].
          -- left. split; [exact Ht|]. by exists d, a.
          -- apply elem_of_app in Hin as [Hin|Hin].
             ++ by apply (callback_deposit_native _ _ _ _ Hcb) in Hin.
             ++ apply list_elem_of_singleton in Hin. injection Hin as -> _ _.
                by right. }
  2: { (* withdraw *)
    apply withdraw_inv in Hc as (evs & Hev & Hcb & _ & _ & _ & _ & _ & _ & Htok & _).
    eapply (tokens_listed_frame s _ (evs ++ [_])); [exact Hinv | exact Htok | exact Hev |].
    intros t d a Hin. apply elem_of_app in Hin as [Hin|Hin].
    - by apply (callback_deposit_native _ _ _ _ Hcb) in Hin.
    - apply list_elem_of_singleton in Hin. discriminate Hin. }
  3: { (* approveSpendingProposal *)
    unfold approveSpendingProposal, onlyAuthorizedSigner, whenNotPaused,
      nonReentrant, validSpendingProposal in Hc.
    inv_call Hc.
    - match goal with
      | H : _executeSpendingProposal _ _ _ = Ok _ |- _ =>
          apply (_executeSpendingProposal_inv _ _ _ _ _ eq_refl) in H
            as (success & evs & _ & _ & Hev & Hcb & _ & _ & _ & _ & _ & _ & _ & _
                & Htok & _)
      end.
      eapply (tokens_listed_frame s _ ([_] ++ evs ++ [_]));
        [exact Hinv | exact Htok | |].
      + cbn. rewrite Hev. cbn. by rewrite <- app_assoc.
      + intros t d a Hin. apply elem_of_cons in Hin as [Hin|Hin]; [discriminate Hin|].
        apply elem_of_app in Hin as [Hin|Hin].
        * by apply (callback_deposit_native _ _ _ _ Hcb) in Hin.
        * apply list_elem_of_singleton in Hin. discriminate Hin.
    - eapply (tokens_listed_frame s _ [_]);
        [exact Hinv | reflexivity | reflexivity
        | intros t d a Hin; apply list_elem_of_singleton in Hin; discriminate Hin]. }
  3: { (* executeSpendingProposal *)
    unfold executeSpendingProposal, whenNotPaused, nonReentrant,
      validSpendingProposal in Hc.
    inv_call Hc.
    match goal with
    | H : _executeSpendingProposal _ _ _ = Ok _ |- _ =>
        apply (_executeSpendingProposal_inv _ _ _ _ _ eq_refl) in H
          as (success & evs & _ & _ & Hev & Hcb & _ & _ & _ & _ & _ & _ & _ & _
              & Htok & _)
    end.
    eapply (tokens_listed_frame s _ (evs ++ [_])); [exact Hinv | exact Htok | |].
    + cbn. rewrite Hev. reflexivity.
    + intros t d a Hin. apply elem_of_app in Hin as [Hin|Hin].
      * by apply (callback_deposit_native _ _ _ _ Hcb) in Hin.
      * apply list_elem_of_singleton in Hin. discriminate Hin. }
  all: unfold depositETH, createSpendingProposal,
      addSigner, removeSigner, updateWithdrawalLimit, updateRequiredSignatures,
      emergencyPause, unpause, receive, transferOwnership, renounceOwnership,
      _pause, _unpause, onlyOwner, onlyDAO, onlyAuthorizedSigner,
      whenNotPaused, whenPaused, nonReentrant, validSpendingProposal in Hc;
    inv_call Hc.
  all: try (apply (tokens_listed_frame s _ []);
            [exact Hinv | reflexivity | cbn; by rewrite app_nil_r
            | intros t d a Hin; by apply elem_of_nil in Hin]).
  all: try (eapply (tokens_listed_frame s _ [_]);
            [exact Hinv | reflexivity | reflexivity
            | intros t d a Hin; apply list_elem_of_singleton in Hin;
              first [discriminate Hin | by injection Hin as -> _ _]]).
Qed.

(** X23: the supported tokens are the deposited tokens. In every state a
    vault reaches from its constructor, [getSupportedTokens] lists without
    repetition exactly the tokens other than the native asset of which a
    deposit was logged; the native asset (address zero) is never listed. *)
Theorem supported_tokens_are_deposited (e0 : env) (dao : address) (limit r : uint256)
    (s0 : state) (txs : list (env * call)) :
  constructor e0 dao limit r = Ok s0 ->
  let s := run txs s0 in
  NoDup (getSupportedTokens s)
  /\ (0 ∉ getSupportedTokens s)
  /\ (forall t, t ∈ getSupportedTokens s <->
                t <> 0 /\ exists depositor a, Deposit t depositor a ∈ events s).
Proof.
  intros Hc s.
  assert (tokens_listed s) as [Hnd Hiff].
  { apply Vault_run_invariant; [intros e c s1 s2; apply Vault_exec_tokens|].
    unfold constructor in Hc. inv_call Hc. split; [apply NoDup_nil_2|].
    intros t. cbn. split.
    - intros Hin. by apply elem_of_nil in Hin.
    - intros (_ & d & a & Hin). by apply elem_of_nil in Hin. }
  split; [exact Hnd|]. split; [|exact Hiff].
  intros Hin. apply Hiff in Hin as [Hne _]. by apply Hne.
Qed.

Lemma supported_tokens_are_deposited_witness :
  let x := no_callback true (Returned true) in
  let s := run [(at_time 9 2, DepositToken x 5 1); (at_time 9 3, DepositETH 4)]
             token_vault in
  NoDup (getSupportedTokens s) /\ (0 ∉ getSupportedTokens s)
  /\ getSupportedTokens s = [5].
Proof.
  cbv zeta.
  assert (run [(at_time 9 0, DepositToken
                               (no_callback true (Returned true)) 5 100);
               (at_time 1 1, CreateSpendingProposal 5 50 77 "grant");
               (at_time 9 2, DepositToken
                               (no_callback true (Returned true)) 5 1);
               (at_time 9 3, DepositETH 4)]
            (transact (fun _ => constructor (at_time 1 0) 50 10 1)
               (initial (at_time 1 0)))
          = run [(at_time 9 2, DepositToken
                                 (no_callback true (Returned true)) 5 1);
                 (at_time 9 3, DepositETH 4)] token_vault)
    as Heq by (vm_compute; reflexivity).
  rewrite <- Heq.
  destruct (supported_tokens_are_deposited (at_time 1 0) 50 10 1
              (transact (fun _ => constructor (at_time 1 0) 50 10 1)
                 (initial (at_time 1 0)))
              [(at_time 9 0, DepositToken
                               (no_callback true (Returned true)) 5 100);
               (at_time 1 1, CreateSpendingProposal 5 50 77 "grant");
               (at_time 9 2, DepositToken
                               (no_callback true (Returned true)) 5 1);
               (at_time 9 3, DepositETH 4)])
    as (Hnd & Hzero & _).
  - vm_compute. reflexivity.
  - split; [exact Hnd|]. split; [exact Hzero|]. vm_compute. reflexivity.
Defined.
End VaultBooks.

(** ** VaultFactory: the registry *)

Section VaultFactoryRegistry.
Import VaultFactory.

Lemma VaultFactory_run_invariant (P : state -> Prop) :
  (forall e c s s', new_address c s = true -> P s -> exec e c s = Ok s' -> P s') ->
  forall txs s, new_addresses txs s = true -> P s -> P (run txs s).
Proof.
  intros Hstep txs. induction txs as [|[e c] txs IH]; intros s Hnew Hs; [assumption|].
  cbn [new_addresses fst snd] in Hnew. apply andb_true_iff in Hnew as [Hc Hnew].
  cbn [run fold_left fst snd]. apply IH; [exact Hnew|].
  unfold transact. destruct (exec e c s) eqn:Hcall; eauto.
Qed.

Lemma registry_consistent_status (b : bool) (s : state) :
  registry_consistent (set_status b s) <-> registry_consistent s.
Proof. reflexivity. Qed.

Lemma _createVault_consistent (e : env) (v d : address) (limit r : uint256)
    (s s' : state) :
  registry_consistent s -> deployed s !! v = None ->
  _createVault e v d limit r s = Ok s' -> registry_consistent s'.
Proof.
  intros (Hnd & Hall & Hdnd & Hinv & Hcount & Hmax & Hdep & Hcap) Hfresh Hc.
  unfold _createVault in Hc. inv_call Hc.
  match goal with
  | H : transferOwnership _ _ _ = Ok _ |- _ => clear H
  end.
  assert (v ∉ allVaults s) as Hnew.
  { intros Hin. apply Hdep in Hin as [x Hx]. congruence. }
  assert (getu (vaultToDAO s) v = 0) as Hzero.
  { destruct (decide (getu (vaultToDAO s) v = 0)) as [|Hne]; [assumption|].
    exfalso. by apply Hnew, Hall. }
  assert (d <> 0) as Hd by lia.
  cbn -[getl getu] in *.
  unfold registry_consistent. cbn.
  split; [|split; [|split; [|split; [|split; [|split; [|split]]]]]].
  - apply NoDup_app. split; [exact Hnd|]. split; [|apply NoDup_singleton].
    intros a Ha Hm. apply list_elem_of_singleton in Hm. by subst a.
  - intros a. rewrite elem_of_app, list_elem_of_singleton, getu_insert, Hall.
    case_decide; [subst a|]; intuition congruence.
  - intros d'. unfold getl. rewrite lookup_insert. case_decide; [subst d'; cbn|apply Hdnd].
    apply NoDup_app. split; [apply Hdnd|]. split; [|apply NoDup_singleton].
    intros a Ha Hm. apply list_elem_of_singleton in Hm. subst a.
    apply Hinv in Ha as [_ Ha]. congruence.
  - intros d' a. unfold getl. rewrite lookup_insert, getu_insert.
    case_decide as Hdd; [subst d'; cbn|].
    + fold (getl (daoVaults s) d).
      rewrite elem_of_app, list_elem_of_singleton, Hinv.
      case_decide; [subst a|]; intuition congruence.
    + fold (getl (daoVaults s) d'). rewrite Hinv.
      case_decide; [subst a|]; intuition congruence.
  - rewrite length_app. cbn. lia.
  - lia.
  - intros a Ha. rewrite lookup_insert. case_decide; [by eexists|].
    apply Hdep. apply elem_of_app in Ha as [Ha|Ha]; [exact Ha|].
    apply list_elem_of_singleton in Ha. congruence.
  - intros d'. unfold getl. rewrite lookup_insert. case_decide; [subst d'; cbn|apply Hcap].
    rewrite length_app. cbn. unfold MAX_VAULTS_PER_DAO in *. unfold getl in *. lia.
Qed.

Lemma emergencyRemoveVault_consistent (e : env) (v : address) (s s' : state) :
  registry_consistent s -> emergencyRemoveVault e v s = Ok s' -> registry_consistent s'.
Proof.
  intros (Hnd & Hall & Hdnd & Hinv & Hcount & Hmax & Hdep & Hcap) Hc.
  unfold emergencyRemoveVault, onlyOwner in Hc. inv_call Hc.
  set (d := getu (vaultToDAO s) v) in *.
  assert (d <> 0) as Hd by lia.
  assert (v ∈ allVaults s) as Hin by (by apply Hall).
  assert (v ∈ getl (daoVaults s) d) as Hind by (by apply Hinv).
  destruct (swap_remove_NoDup v (allVaults s) Hnd Hin) as (Hnd' & Hmem' & Hlen').
  destruct (swap_remove_NoDup v (getl (daoVaults s) d) (Hdnd d) Hind)
    as (Hdnd' & Hdmem' & Hdlen').
  unfold registry_consistent. cbn -[swap_remove].
  split; [|split; [|split; [|split; [|split; [|split; [|split]]]]]].
  - exact Hnd'.
  - intros a. rewrite Hmem', getu_delete, Hall.
    case_decide; [subst a|]; intuition congruence.
  - intros d'. unfold getl. rewrite lookup_insert.
    case_decide; [subst d'; cbn; exact Hdnd' | apply Hdnd].
  - intros d' a. unfold getl. rewrite lookup_insert, getu_delete.
    case_decide as Hdd; [subst d'; cbn -[swap_remove]|].
    + rewrite Hdmem', Hinv. case_decide; [subst a|]; intuition congruence.
    + fold (getl (daoVaults s) d'). rewrite Hinv.
      case_decide; [subst a; fold d|]; intuition congruence.
  - lia.
  - lia.
  - intros a Ha. apply Hdep. by apply Hmem' in Ha as [Ha _].
  - intros d'. unfold getl. rewrite lookup_insert.
    case_decide; [subst d'; cbn -[swap_remove]|apply Hcap].
    specialize (Hcap d). unfold getl in *. lia.
Qed.

Lemma VaultFactory_exec_consistent (e : env) (c : call) (s s' : state) :
  new_address c s = true -> registry_consistent s -> exec e c s = Ok s' ->
  registry_consistent s'.
Proof.
  intros Hnew Hinv Hc.
  destruct c; cbn [exec] in Hc; cbn [new_address] in Hnew;
    try (apply andb_true_iff in Hnew as [_ Hnew]; apply bool_decide_eq_true in Hnew);
    try (unfold createVault, createVaultWithCustomParams, createDefaultVault,
           nonReentrant in Hc;
         inv_call Hc;
         match goal with
         | H : _createVault _ _ _ _ _ _ = Ok _ |- _ =>
             apply _createVault_consistent in H; [exact H | exact Hinv | exact Hnew]
         end).
  - unfold updateDefaultWithdrawalLimit, onlyOwner in Hc. inv_call Hc. exact Hinv.
  - unfold updateDefaultRequiredSignatures, onlyOwner in Hc. inv_call Hc. exact Hinv.
  - unfold updateDefaultParameters, onlyOwner in Hc. inv_call Hc. exact Hinv.
  - by eapply emergencyRemoveVault_consistent.
  - unfold transferOwnership, onlyOwner in Hc. inv_call Hc. exact Hinv.
  - unfold renounceOwnership, onlyOwner in Hc. inv_call Hc. exact Hinv.
Qed.

Lemma VaultFactory_constructor_consistent (e : env) (self : address)
    (limit r : uint256) (s : state) :
  constructor e self limit r = Ok s -> registry_consistent s /\ defaults_in_range s.
Proof.
  unfold constructor. intros Hc. inv_call Hc. split.
  - unfold registry_consistent, getl, getu. cbn.
    split; [apply NoDup_nil_2|]. split.
    { intros v. rewrite lookup_empty. cbn. split; [|done].
      intros Hin. by apply elem_of_nil in Hin. }
    split; [intros d; rewrite lookup_empty; apply NoDup_nil_2|]. split.
    { intros d v. rewrite !lookup_empty. cbn. split.
      - intros Hin. by apply elem_of_nil in Hin.
      - intros [Hd H0]. congruence. }
    split; [reflexivity|]. split; [unfold MAX_UINT256; lia|]. split.
    { intros v Hin. by apply elem_of_nil in Hin. }
    intros d. rewrite lookup_empty. cbn. unfold MAX_VAULTS_PER_DAO. lia.
  - unfold defaults_in_range. cbn. repeat split; lia.
Qed.

Lemma VaultFactory_registry_reachable (e0 : env) (self : address) (limit r : uint256)
    (s0 : state) (txs : list (env * call)) :
  constructor e0 self limit r = Ok s0 ->
  new_addresses txs s0 = true ->
  registry_consistent (run txs s0).
Proof.
  intros Hc Hnew.
  apply VaultFactory_run_invariant; [|exact Hnew|].
  - intros e c s s' Hfresh Hinv Hstep. by eapply VaultFactory_exec_consistent.
  - by apply VaultFactory_constructor_consistent in Hc as [? _].
Qed.

(** X24: the registry of the factory is consistent. In every state a
    VaultFactory reaches from its constructor (each creation getting a fresh
    contract address from the chain), [vaultCount] is the length of
    [getAllVaults], which lists without repetition exactly the vaults for
    which [isVaultFromFactory] holds; [getDAOVaults] is the inverse of
    [getVaultDAO]; and no DAO has more than five vaults. *)
Theorem factory_registry_consistent (e0 : env) (self : address) (limit r : uint256)
    (s0 : state) (txs : list (env * call)) :
  constructor e0 self limit r = Ok s0 ->
  new_addresses txs s0 = true ->
  let s := run txs s0 in
  vaultCount s = Z.of_nat (length (getAllVaults s))
  /\ NoDup (getAllVaults s)
  /\ (forall v, v ∈ getAllVaults s <-> isVaultFromFactory s v = true)
  /\ (forall d v, v ∈ getDAOVaults s d <-> d <> 0 /\ getVaultDAO s v = d)
  /\ (forall d, NoDup (getDAOVaults s d) /\ getDAOVaultCount s d <= 5).
Proof.
  intros Hc Hnew s.
  destruct (VaultFactory_registry_reachable e0 self limit r s0 txs Hc Hnew)
    as (Hnd & Hall & Hdnd & Hinv & Hcount & _ & _ & Hcap).
  fold s in Hnd, Hall, Hdnd, Hinv, Hcount, Hcap.
  split; [exact Hcount|]. split; [exact Hnd|]. split; [|split; [exact Hinv|]].
  - intros v. rewrite Hall. unfold isVaultFromFactory.
    destruct (Z.eqb_spec (getu (vaultToDAO s) v) 0); cbn; intuition congruence.
  - intros d. split; [apply Hdnd | apply Hcap].
Qed.

Lemma factory_registry_consistent_witness :
  vaultCount three_vault_factory = Z.of_nat (length (getAllVaults three_vault_factory))
  /\ getAllVaults three_vault_factory = [600; 601; 602]
  /\ getDAOVaults three_vault_factory 50 = [600; 601].
Proof.
  destruct (factory_registry_consistent (at_time 1 0) 500 (10 ^ 18) 1
              example_vault_factory
              [(at_time 7 10, CreateDefaultVault 600 50);
               (at_time 7 11, CreateVault 601 50 (2 * 10 ^ 18));
               (at_time 7 12, CreateDefaultVault 602 60)])
    as (Hcount & _).
  - vm_compute. reflexivity.
  - vm_compute. reflexivity.
  - split; [exact Hcount|]. split; vm_compute; reflexivity.
Defined.

(** On a consistent registry the loop of [getFactoryStats] counts every
    vault. *)
Lemma count_daos_all (s : state) (vaults : list address) : forall acc : uint256,
  (forall v, v ∈ vaults ->
     getu (vaultToDAO s) v <> 0
     /\ (0 < length (getl (daoVaults s) (getu (vaultToDAO s) v)))%nat) ->
  acc + Z.of_nat (length vaults) <= MAX_UINT256 ->
  count_daos s vaults acc = Ok (acc + Z.of_nat (length vaults)).
Proof.
  induction vaults as [|v vaults IH]; intros acc Hall Hmax; cbn [count_daos length] in *.
  - f_equal. cbn. lia.
  - destruct (Hall v) as [Hd Hl]; [by left|].
    replace (negb (getu (vaultToDAO s) v =? 0)) with true by lia.
    replace (0 <? Z.of_nat (length (getl (daoVaults s) (getu (vaultToDAO s) v))))
      with true by lia.
    cbn [andb]. rewrite checked_add_Ok by lia. rewrite bind_Ok.
    rewrite IH; [f_equal; lia | | lia].
    intros v' Hin. apply Hall. by right.
Qed.

(** X25: what [getFactoryStats] reports. In every state a VaultFactory
    reaches from its constructor, the second figure (named
    totalDAOsWithVaults) is the number of vaults, not of DAOs: the loop
    counts each vault whose DAO has a vault; so the third figure, the
    average of vaults per DAO, is 1 as soon as there is a vault. *)
Theorem getFactoryStats_counts_vaults (e0 : env) (self : address) (limit r : uint256)
    (s0 : state) (txs : list (env * call)) :
  constructor e0 self limit r = Ok s0 ->
  new_addresses txs s0 = true ->
  let s := run txs s0 in
  getFactoryStats s
  = Ok (vaultCount s, vaultCount s, if 0 <? vaultCount s then 1 else 0).
Proof.
  intros Hc Hnew s.
  destruct (VaultFactory_registry_reachable e0 self limit r s0 txs Hc Hnew)
    as (_ & Hall & _ & Hinv & Hcount & Hmax & _).
  fold s in Hall, Hinv, Hcount, Hmax.
  unfold getFactoryStats.
  rewrite (count_daos_all s (allVaults s) 0).
  - rewrite bind_Ok, Z.add_0_l, <- Hcount. do 2 f_equal.
    destruct (Z.ltb_spec 0 (vaultCount s)); [|reflexivity].
    apply Z.div_same. lia.
  - intros v Hin. apply Hall in Hin. split; [exact Hin|].
    assert (v ∈ getl (daoVaults s) (getu (vaultToDAO s) v)) as Hv by (by apply Hinv).
    destruct (getl (daoVaults s) (getu (vaultToDAO s) v)); cbn; [|lia].
    by apply elem_of_nil in Hv.
  - lia.
Qed.

Lemma getFactoryStats_counts_vaults_witness :
  getFactoryStats three_vault_factory = Ok (3, 3, 1)
  /\ getDAOVaults three_vault_factory 50 = [600; 601]
  /\ getDAOVaults three_vault_factory 60 = [602].
Proof.
  split; [|split; vm_compute; reflexivity].
  assert (vaultCount three_vault_factory = 3) as Hn by (vm_compute; reflexivity).
  pose proof (getFactoryStats_counts_vaults (at_time 1 0) 500 (10 ^ 18) 1
                example_vault_factory
                [(at_time 7 10, CreateDefaultVault 600 50);
                 (at_time 7 11, CreateVault 601 50 (2 * 10 ^ 18));
                 (at_time 7 12, CreateDefaultVault 602 60)]
                ltac:(vm_compute; reflexivity) ltac:(vm_compute; reflexivity)) as Hs.
  cbv zeta in Hs. fold three_vault_factory in Hs. rewrite Hn in Hs. exact Hs.
Defined.

(** X26: removing a vault from the registry frees a slot and leaves the
    vault alone. On a consistent registry a successful
    [emergencyRemoveVault] takes the vault out of [getAllVaults] and of the
    list of its DAO, which gets one slot of its five back; [vaultCount] goes
    down by one; the vault contract itself is not touched. *)
Theorem emergencyRemoveVault_frees_slot (e0 : env) (self : address) (limit r : uint256)
    (s0 : state) (txs : list (env * call)) (e : env) (v : address) (s' : state) :
  constructor e0 self limit r = Ok s0 ->
  new_addresses txs s0 = true ->
  let s := run txs s0 in
  emergencyRemoveVault e v s = Ok s' ->
  let d := getVaultDAO s v in
  msg_sender e = owner s /\ d <> 0
  /\ getDAOVaultCount s' d = getDAOVaultCount s d - 1
  /\ vaultCount s' = vaultCount s - 1
  /\ isVaultFromFactory s' v = false /\ (v ∉ getAllVaults s')
  /\ (forall v', v' <> v -> v' ∈ getAllVaults s' <-> v' ∈ getAllVaults s)
  /\ (forall d', d' <> d -> getDAOVaults s' d' = getDAOVaults s d')
  /\ deployed s' = deployed s.
Proof.
  intros Hc Hnew s Hr d.
  destruct (VaultFactory_registry_reachable e0 self limit r s0 txs Hc Hnew)
    as (Hnd & Hall & Hdnd & Hinv & Hcount & _).
  fold s in Hnd, Hall, Hdnd, Hinv, Hcount.
  unfold emergencyRemoveVault, onlyOwner in Hr. inv_call Hr.
  unfold getVaultDAO in d. fold d in Hreq1.
  assert (d <> 0) as Hd by lia.
  assert (v ∈ allVaults s) as Hin by (by apply Hall).
  assert (v ∈ getl (daoVaults s) d) as Hind by (by apply Hinv).
  destruct (swap_remove_NoDup v (allVaults s) Hnd Hin) as (_ & Hmem' & _).
  destruct (swap_remove_NoDup v (getl (daoVaults s) d) (Hdnd d) Hind)
    as (_ & _ & Hdlen').
  unfold getDAOVaultCount, isVaultFromFactory, getAllVaults, getDAOVaults.
  cbn -[swap_remove].
  split; [cbn in *; lia|]. split; [exact Hd|]. split.
  { unfold getl at 1. fold d. rewrite lookup_insert_eq. cbn -[swap_remove]. lia. }
  split; [reflexivity|]. split.
  { rewrite getu_delete, decide_True by reflexivity. reflexivity. }
  split; [intros Hv; apply Hmem' in Hv as [_ Hv]; by apply Hv|].
  split; [intros v' Hne; rewrite Hmem'; intuition|].
  split; [|reflexivity].
  intros d' Hne. unfold getl. fold d. by rewrite lookup_insert_ne.
Qed.

Lemma emergencyRemoveVault_frees_slot_witness :
  let s' := transact (emergencyRemoveVault (at_time 1 20) 600) three_vault_factory in
  getDAOVaultCount three_vault_factory 50 = 2 /\ getDAOVaultCount s' 50 = 1
  /\ isVaultFromFactory s' 600 = false
  /\ deployed s' = deployed three_vault_factory.
Proof.
  cbv zeta.
  destruct (emergencyRemoveVault_frees_slot (at_time 1 0) 500 (10 ^ 18) 1
              example_vault_factory
              [(at_time 7 10, CreateDefaultVault 600 50);
               (at_time 7 11, CreateVault 601 50 (2 * 10 ^ 18));
               (at_time 7 12, CreateDefaultVault 602 60)]
              (at_time 1 20) 600
              (transact (emergencyRemoveVault (at_time 1 20) 600) three_vault_factory))
    as (_ & _ & _ & _ & Hfrom & _ & _ & _ & Hdep).
  - vm_compute. reflexivity.
  - vm_compute. reflexivity.
  - vm_compute. reflexivity.
  - split; [vm_compute; reflexivity|]. split; [vm_compute; reflexivity|].
    split; [exact Hfrom | exact Hdep].
Defined.
End VaultFactoryRegistry.

(** ** VaultFactory: the default parameters *)

Section VaultFactoryDefaults.
Import VaultFactory.

Lemma VaultFactory_run_invariant_any (P : state -> Prop) :
  (forall e c s s', P s -> exec e c s = Ok s' -> P s') ->
  forall txs s, P s -> P (run txs s).
Proof.
  intros Hstep txs. induction txs as [|[e c] txs IH]; intros s Hs; [assumption|].
  cbn [run fold_left fst snd]. apply IH.
  unfold transact. destruct (exec e c s) eqn:Hcall; eauto.
Qed.

Lemma _createVault_defaults (e : env) (v d : address) (limit r : uint256)
    (s s' : state) :
  _createVault e v d limit r s = Ok s' ->
  defaultWithdrawalLimit s' = defaultWithdrawalLimit s
  /\ defaultRequiredSignatures s' = defaultRequiredSignatures s
  /\ _entered s' = _entered s.
Proof. unfold _createVault. intros Hc. by inv_call Hc. Qed.

Lemma VaultFactory_exec_defaults (e : env) (c : call) (s s' : state) :
  defaults_in_range s -> exec e c s = Ok s' -> defaults_in_range s'.
Proof.
  intros (Hl & Hr & He) Hc. unfold defaults_in_range.
  destruct c; cbn [exec] in Hc;
    try (unfold createVault, createVaultWithCustomParams, createDefaultVault,
           nonReentrant in Hc;
         inv_call Hc;
         match goal with
         | H : _createVault _ _ _ _ _ _ = Ok _ |- _ =>
             apply _createVault_defaults in H as (Hl' & Hr' & _)
         end;
         cbn in *; rewrite Hl', Hr'; repeat split; first [lia | reflexivity]).
  - unfold updateDefaultWithdrawalLimit, onlyOwner in Hc. inv_call Hc.
    cbn in *. repeat split; try lia; assumption.
  - unfold updateDefaultRequiredSignatures, onlyOwner in Hc. inv_call Hc.
    cbn in *. repeat split; try lia; assumption.
  - unfold updateDefaultParameters, onlyOwner in Hc. inv_call Hc.
    cbn in *. repeat split; try lia; assumption.
  - unfold emergencyRemoveVault, onlyOwner in Hc. inv_call Hc.
    cbn in *. repeat split; try lia; assumption.
  - unfold transferOwnership, onlyOwner in Hc. inv_call Hc.
    cbn in *. repeat split; try lia; assumption.
  - unfold renounceOwnership, onlyOwner in Hc. inv_call Hc.
    cbn in *. repeat split; try lia; assumption.
Qed.

(** X27: the defaults stay within bounds, so [createDefaultVault] never
    fails on them. In every state a VaultFactory reaches from its
    constructor the default withdrawal limit lies between 0.01 and 1000
    ether and the default number of signatures between 1 and 20;
    [createDefaultVault] then succeeds exactly when the DAO address and the
    caller are not zero, the DAO has fewer than five vaults and the vault
    counter can still grow. *)
Theorem createDefaultVault_succeeds_iff (e0 : env) (self : address) (limit r : uint256)
    (s0 : state) (txs : list (env * call)) (e : env) (v d : address) :
  constructor e0 self limit r = Ok s0 ->
  let s := run txs s0 in
  (10 ^ 16 <= defaultWithdrawalLimit s <= 1000 * 10 ^ 18
   /\ 1 <= defaultRequiredSignatures s <= 20)
  /\ (succeeds (createDefaultVault e v d s) <->
        d <> 0 /\ msg_sender e <> 0 /\ getDAOVaultCount s d < 5
        /\ vaultCount s < MAX_UINT256).
Proof.
  intros Hc s.
  assert (defaults_in_range s) as (Hl & Hr & He).
  { apply VaultFactory_run_invariant_any; [apply VaultFactory_exec_defaults|].
    by apply VaultFactory_constructor_consistent in Hc as [_ ?]. }
  unfold MIN_WITHDRAWAL_LIMIT, MAX_WITHDRAWAL_LIMIT, MIN_REQUIRED_SIGNATURES,
    MAX_REQUIRED_SIGNATURES in Hl, Hr.
  split; [split; assumption|]. unfold getDAOVaultCount. split.
  - intros [[a s'] Hv].
    unfold createDefaultVault, nonReentrant, _createVault in Hv. inv_call Hv.
    match goal with
    | H : transferOwnership _ _ _ = Ok _ |- _ =>
        unfold transferOwnership, onlyOwner in H; inv_call H
    end.
    cbn in *. unfold MAX_VAULTS_PER_DAO in *. repeat split; lia.
  - intros (Hd & Hsender & Hcap & Hcount).
    unfold createDefaultVault, nonReentrant, _createVault. cbn in He. cbn.
    rewrite He. cbn.
    replace (negb (d =? 0)) with true by lia. cbn.
    unfold MIN_WITHDRAWAL_LIMIT, MAX_WITHDRAWAL_LIMIT, MIN_REQUIRED_SIGNATURES,
      MAX_REQUIRED_SIGNATURES, MAX_VAULTS_PER_DAO.
    replace ((10 ^ 16 <=? defaultWithdrawalLimit s)
             && (defaultWithdrawalLimit s <=? 1000 * 10 ^ 18)) with true by lia.
    cbn.
    replace ((1 <=? defaultRequiredSignatures s)
             && (defaultRequiredSignatures s <=? 20)) with true by lia.
    cbn.
    replace (Z.of_nat (length (getl (daoVaults s) d)) <? 5) with true by lia.
    cbn. unfold Vault.constructor, Vault.MIN_SIGNATURES. cbn.
    replace (negb (d =? 0)) with true by lia. cbn.
    replace (1 <=? defaultRequiredSignatures s) with true by lia. cbn.
    unfold transferOwnership, onlyOwner. cbn. rewrite Z.eqb_refl. cbn.
    replace (negb (msg_sender e =? 0)) with true by lia. cbn.
    rewrite checked_add_Ok by lia. cbn. by eexists.
Qed.

Lemma createDefaultVault_succeeds_iff_witness :
  succeeds (createDefaultVault (at_time 7 20) 603 60 three_vault_factory)
  /\ ~ succeeds (createDefaultVault (at_time 7 20) 603 0 three_vault_factory).
Proof.
  destruct (createDefaultVault_succeeds_iff (at_time 1 0) 500 (10 ^ 18) 1
              example_vault_factory
              [(at_time 7 10, CreateDefaultVault 600 50);
               (at_time 7 11, CreateVault 601 50 (2 * 10 ^ 18));
               (at_time 7 12, CreateDefaultVault 602 60)]
              (at_time 7 20) 603 60 ltac:(vm_compute; reflexivity)) as [_ Hok].
  destruct (createDefaultVault_succeeds_iff (at_time 1 0) 500 (10 ^ 18) 1
              example_vault_factory
              [(at_time 7 10, CreateDefaultVault 600 50);
               (at_time 7 11, CreateVault 601 50 (2 * 10 ^ 18));
               (at_time 7 12, CreateDefaultVault 602 60)]
              (at_time 7 20) 603 0 ltac:(vm_compute; reflexivity)) as [_ Hzero].
  fold three_vault_factory in Hok, Hzero. split.
  - apply Hok. vm_compute. repeat split; discriminate.
  - intros Hs. apply Hzero in Hs as [Hd _]. by apply Hd.
Defined.
End VaultFactoryDefaults.

(** ** DAOFactory: creation and the vault registry *)

Section DAOFactoryRegistry.
Import DAOFactory.

Lemma DAOFactory_run_invariant (P : state -> Prop) :
  (forall e c s s', P s -> exec e c s = Ok s' -> P s') ->
  forall txs s, P s -> P (run txs s).
Proof.
  intros Hstep txs. induction txs as [|[e c] txs IH]; intros s Hs; [assumption|].
  cbn [run fold_left fst snd]. apply IH.
  unfold transact. destruct (exec e c s) eqn:Hcall; eauto.
Qed.

Lemma vault_registry_remove (d : address) (s : state) :
  vault_registry_consistent s ->
  getu (daoToVault s) d <> 0 ->
  forall d' v',
    getu (delete d (daoToVault s)) d' = v' /\ v' <> 0
    <-> getu (delete (getu (daoToVault s) d) (vaultToDAO s)) v' = d' /\ d' <> 0.
Proof.
  intros Hinv Hv d' v'. rewrite !getu_delete.
  pose proof (Hinv d' v') as H1. pose proof (Hinv d (getu (daoToVault s) d)) as H2.
  pose proof (Hinv d v') as H3.
  repeat case_decide; subst; intuition congruence.
Qed.

Lemma DAOFactory_exec_registry (e : env) (c : call) (s s' : state) :
  vault_registry_consistent s -> exec e c s = Ok s' -> vault_registry_consistent s'.
Proof.
  intros Hinv Hc.
  destruct c; cbn [exec] in Hc;
    unfold createDAO, registerVault, unregisterVault, pause, unpause, _pause, _unpause,
      emergencyRemoveDAO, transferOwnership, renounceOwnership, onlyOwner,
      whenNotPaused, whenPaused, nonReentrant in Hc;
    inv_call Hc; try exact Hinv.
  - (* registerVault *)
    intros d' v'. cbn in *. rewrite !getu_insert.
    assert (getu (daoToVault s) daoAddress = 0) as Hd0 by lia.
    assert (getu (vaultToDAO s) vaultAddress = 0) as Hv0 by lia.
    assert (daoAddress <> 0) as Hd by lia.
    assert (vaultAddress <> 0) as Hv by lia.
    pose proof (Hinv d' v') as H1.
    pose proof (Hinv daoAddress v') as H2. pose proof (Hinv d' vaultAddress) as H3.
    repeat case_decide; subst; intuition congruence.
  - (* unregisterVault *)
    unfold vault_registry_consistent. cbn in *.
    apply vault_registry_remove; [exact Hinv | lia].
  - (* emergencyRemoveDAO *)
    unfold vault_registry_consistent. cbn in *.
    destruct (Z.eqb_spec (getu (daoToVault s) daoAddress) 0) as [?|Hv]; cbn;
      [exact Hinv | by apply vault_registry_remove].
Qed.

(** X28: the vault registry of the DAOFactory is one to one. In every state
    a DAOFactory reaches from its constructor, whatever the contracts at
    the DAO addresses answer when asked for their owner (DAOs of the
    factory or of anyone else, with the owner of the day), [getDAOVault]
    and [getVaultDAO] are inverse to each other: a DAO has the vault [v]
    registered exactly when [v] is registered to that DAO, so no vault is
    registered to two DAOs and no DAO has two vaults. *)
Theorem vault_registry_one_to_one (e0 : env) (self : address)
    (txs : list (env * call)) (d v : address) :
  let s := run txs (constructor e0 self) in
  (getDAOVault s d = v /\ v <> 0 <-> getVaultDAO s v = d /\ d <> 0)
  /\ (forall d', getDAOVault s d = v -> getDAOVault s d' = v -> v <> 0 -> d' = d).
Proof.
  intros s.
  assert (vault_registry_consistent s) as Hinv.
  { apply DAOFactory_run_invariant; [apply DAOFactory_exec_registry|].
    intros d' v'. unfold getu. cbn. rewrite !lookup_empty. cbn.
    intuition congruence. }
  split; [apply Hinv|].
  intros d' H1 H2 Hv. unfold getDAOVault, getVaultDAO in *.
  destruct (proj1 (Hinv d v) (conj H1 Hv)) as [<- _].
  destruct (proj1 (Hinv d' v) (conj H2 Hv)) as [? _]. congruence.
Qed.

Lemma vault_registry_one_to_one_witness :
  let s := run [(at_time 7 10, CreateDAO 700 "Test DAO");
                (at_time 9 20, RegisterVault (OwnerIs 9) 999 900);
                (at_time 8 21, RegisterVault (OwnerIs 8) 700 901)]
             (constructor (at_time 1 0) 400) in
  deployed s !! 999 = None
  /\ getDAOVault s 999 = 900 /\ getVaultDAO s 900 = 999
  /\ getDAOVault s 700 = 901 /\ getVaultDAO s 901 = 700.
Proof.
  cbv zeta.
  destruct (vault_registry_one_to_one (at_time 1 0) 400
              [(at_time 7 10, CreateDAO 700 "Test DAO");
               (at_time 9 20, RegisterVault (OwnerIs 9) 999 900);
               (at_time 8 21, RegisterVault (OwnerIs 8) 700 901)] 999 900)
    as [[Hto _] _].
  destruct (vault_registry_one_to_one (at_time 1 0) 400
              [(at_time 7 10, CreateDAO 700 "Test DAO");
               (at_time 9 20, RegisterVault (OwnerIs 9) 999 900);
               (at_time 8 21, RegisterVault (OwnerIs 8) 700 901)] 700 901)
    as [[Hto' _] _].
  destruct Hto as [H1 _]; [split; [vm_compute; reflexivity | discriminate]|].
  destruct Hto' as [H2 _]; [split; [vm_compute; reflexivity | discriminate]|].
  split; [vm_compute; reflexivity|].
  split; [vm_compute; reflexivity|].
  split; [exact H1|].
  split; [vm_compute; reflexivity | exact H2].
Defined.

(** X29: what [createDAO] creates. A successful [createDAO] returns the
    address of the new contract, a DAO of the given name owned by the
    caller, with the caller as its only member, a quorum of 51%, no
    proposal, no vault, not paused; the factory itself has no role in it.
    The address is appended to the caller's list and to [getAllDAOs], and
    [daoCount] goes up by one. *)
Theorem createDAO_creates (e : env) (daoAddress : address) (nm : string)
    (s s' : state) (a : address) :
  createDAO e daoAddress nm s = Ok (a, s') ->
  a = daoAddress
  /\ (exists dao, deployed s' !! a = Some dao
        /\ DAO.name dao = nm /\ owner dao = msg_sender e
        /\ DAO.getMembers dao = [msg_sender e] /\ DAO.memberCount dao = 1
        /\ getb (DAO.members dao) (msg_sender e) = true
        /\ DAO.quorumPercentage dao = 51 /\ DAO.proposalCount dao = 0
        /\ DAO.attachedVault dao = 0 /\ paused dao = false)
  /\ getUserDAOs s' (msg_sender e) = (getUserDAOs s (msg_sender e) ++ [a])%list
  /\ getAllDAOs s' = (getAllDAOs s ++ [a])%list
  /\ daoCount s' = daoCount s + 1
  /\ (1 <= String.length nm <= 100)%nat /\ msg_sender e <> 0.
Proof.
  intros Hc. unfold createDAO, whenNotPaused, nonReentrant in Hc. inv_call Hc.
  match goal with
  | H : DAO.constructor _ _ _ = Ok _ |- _ => unfold DAO.constructor in H; inv_call H
  end.
  subst s'. split; [reflexivity|]. split.
  - eexists. split; [cbn; apply lookup_insert_eq|]. cbn.
    rewrite getb_insert, decide_True by reflexivity. by repeat split.
  - unfold getUserDAOs, getAllDAOs, getl. cbn. rewrite lookup_insert_eq. cbn.
    repeat split; try lia; try done.
Qed.

Lemma createDAO_creates_witness :
  exists s' dao,
    createDAO (at_time 8 20) 710 "Second DAO" example_dao_factory = Ok (710, s')
    /\ deployed s' !! 710 = Some dao
    /\ owner dao = 8 /\ DAO.getMembers dao = [8]
    /\ getAllDAOs s' = [700; 710].
Proof.
  destruct (createDAO_creates (at_time 8 20) 710 "Second DAO" example_dao_factory
              (transact (fun s => r ← createDAO (at_time 8 20) 710 "Second DAO" s; Ok r.2)
                 example_dao_factory) 710)
    as (_ & (dao & Hd & _ & Ho & Hm & _) & _ & Hall & _).
  - vm_compute. reflexivity.
  - exists (transact (fun s => r ← createDAO (at_time 8 20) 710 "Second DAO" s; Ok r.2)
              example_dao_factory), dao.
    split; [vm_compute; reflexivity|].
    split; [exact Hd|]. split; [exact Ho|]. split; [exact Hm|].
    rewrite Hall. vm_compute. reflexivity.
Defined.

(** X30: registering a vault can be undone. A successful [registerVault]
    was made by the address the DAO named as its owner; [unregisterVault]
    of the same DAO right after it, by a caller the DAO then names as its
    owner (the same caller, if the owner has not changed), succeeds and
    leaves both registry mappings as they were before; the log holds the
    two events. *)
Theorem registerVault_unregisterVault (e e' : env) (x x' : owner_call)
    (daoAddress vaultAddress : address) (s s1 : state) :
  registerVault e x daoAddress vaultAddress s = Ok s1 ->
  x' = OwnerIs (msg_sender e') ->
  x = OwnerIs (msg_sender e)
  /\ exists s2, unregisterVault e' x' daoAddress s1 = Ok s2
       /\ (forall d, getDAOVault s2 d = getDAOVault s d)
       /\ (forall v, getVaultDAO s2 v = getVaultDAO s v)
       /\ events s2 = (events s ++ [VaultRegistered daoAddress vaultAddress;
                                    VaultUnregistered daoAddress vaultAddress])%list.
Proof.
  intros Hr ->.
  unfold registerVault, whenNotPaused, nonReentrant in Hr. inv_call Hr.
  match goal with
  | H : dao_owner _ = Ok _ |- _ => rename H into Hown
  end.
  split.
  { destruct x; [|discriminate Hown]. cbn in Hown. injection Hown as ->.
    f_equal. lia. }
  cbn in *. eexists. split.
  - unfold unregisterVault, whenNotPaused, nonReentrant. cbn.
    replace (negb (_paused s)) with true by (by destruct (_paused s)).
    replace (negb (_status s)) with true by (by destruct (_status s)).
    cbn. replace (negb (daoAddress =? 0)) with true by lia. cbn.
    rewrite getu_insert, decide_True by reflexivity.
    replace (negb (vaultAddress =? 0)) with true by lia. cbn.
    rewrite Z.eqb_refl. cbn. reflexivity.
  - cbn. unfold getDAOVault, getVaultDAO. cbn.
    split; [|split].
    + intros d. rewrite getu_delete, getu_insert. case_decide; [subst d; lia | reflexivity].
    + intros v. rewrite getu_delete, getu_insert. case_decide; [subst v; lia | reflexivity].
    + by rewrite <- app_assoc.
Qed.

Lemma registerVault_unregisterVault_witness :
  exists s2,
    unregisterVault (at_time 7 21) (OwnerIs 7) 700
      (transact (registerVault (at_time 7 20) (OwnerIs 7) 700 900) example_dao_factory)
      = Ok s2
    /\ getDAOVault s2 700 = getDAOVault example_dao_factory 700.
Proof.
  destruct (registerVault_unregisterVault (at_time 7 20) (at_time 7 21)
              (OwnerIs 7) (OwnerIs 7) 700 900
              example_dao_factory
              (transact (registerVault (at_time 7 20) (OwnerIs 7) 700 900)
                 example_dao_factory))
    as (_ & s2 & Hu & Hd & _).
  - vm_compute. reflexivity.
  - reflexivity.
  - exists s2. split; [exact Hu | apply Hd].
Defined.
End DAOFactoryRegistry.

